(** * bckstage_bot: card engine, matching store, blackjack sessions and the
      profile-builder flow, embedded from game.py, db.py and handlers.py.

    The development follows the layout of the repository:
    - [Py]       the few Python built-ins the code relies on (exceptions,
                 [list.pop], [int(str)], [str.isdigit]);
    - [Game]     game.py, the card engine;
    - [Db]       db.py, the SQLite tables the modelled handlers touch and
                 the functions that read and write them;
    - [Handlers] handlers.py, the blackjack handlers and the profile flow.

    Further modules cover the rest of the same files; they keep the
    definitions above as they are and add to them.

    Cards are the strings the code uses (["AS"], ["10H"], ...).  Python
    integers are [Z]; the few floats (coordinates, the boost fraction, the
    random draw) are only stored or compared and are rationals here.  A
    raised exception is a value of [exn]; database writes made before an
    exception stay in the store, as every db.py function commits on its
    own connection. *)

From Stdlib Require Import ZArith QArith.
From stdpp Require Import gmap strings list.

#[local] Open Scope string_scope.
#[local] Open Scope list_scope.
#[local] Open Scope Z_scope.

(** ** Python built-ins *)

Module Py.

(** The two built-in exceptions the modelled code can raise. *)
Inductive exn : Set :=
| IndexError   (* list.pop() on an empty list *)
| ValueError.  (* int(s) on a string that is not a number *)

Inductive res (A : Type) : Type :=
| Ok (a : A)
| Raise (e : exn).
Arguments Ok {A} a.
Arguments Raise {A} e.

Definition bind {A B} (r : res A) (k : A -> res B) : res B :=
  match r with
  | Ok a => k a
  | Raise e => Raise e
  end.

(** [l.pop()]: removes and returns the last item. *)
Fixpoint pop {A} (l : list A) : res (A * list A) :=
  match l with
  | [] => Raise IndexError
  | x :: l' =>
      match l' with
      | [] => Ok (x, [])
      | _ :: _ =>
          match pop l' with
          | Ok (y, r) => Ok (y, x :: r)
          | Raise e => Raise e
          end
      end
  end.

(** [s[:-1]]: all but the last character; the empty string stays empty. *)
Definition but_last (s : string) : string :=
  String.substring 0 (String.length s - 1)%nat s.

Definition digit_of (a : Ascii.ascii) : option Z :=
  let n := Z.of_N (Ascii.N_of_ascii a) in
  if (48 <=? n) && (n <=? 57) then Some (n - 48) else None.

Fixpoint parse_digits (s : string) (acc : Z) : option Z :=
  match s with
  | EmptyString => Some acc
  | String a s' =>
      match digit_of a with
      | Some d => parse_digits s' (10 * acc + d)
      | None => None
      end
  end.

(** [int(s)] on the strings a deck produces: a non-empty run of ASCII
    decimal digits.  Anything else is a [ValueError] here; the signs,
    blanks and underscores Python also accepts never occur in a rank. *)
Definition int_of_str (s : string) : res Z :=
  match s with
  | EmptyString => Raise ValueError
  | _ => match parse_digits s 0 with
         | Some z => Ok z
         | None => Raise ValueError
         end
  end.

(** [s.isdigit()] restricted to ASCII: non-empty and all decimal digits. *)
Definition isdigit (s : string) : bool :=
  match int_of_str s with Ok _ => true | Raise _ => false end.

End Py.

Export Py.

#[global] Instance res_bind : MBind Py.res := fun A B k r => Py.bind r k.
#[global] Instance res_ret : MRet Py.res := fun A a => Py.Ok a.

(** ** game.py *)

Module Game.

Definition Card := string.
Definition Hand := list Card.

Definition ranks : list string :=
  ["A"; "2"; "3"; "4"; "5"; "6"; "7"; "8"; "9"; "10"; "J"; "Q"; "K"].
Definition suits : list string := ["H"; "D"; "C"; "S"].

(** [[f"{r}{s}" for r in ranks for s in suits]], before the shuffle. *)
Definition unshuffled_deck : list Card :=
  r ← ranks; s ← suits; [r +:+ s].

(** [build_deck]: the shuffle is [random.shuffle]; its outcome is the
    permutation the caller passes in. *)
Definition build_deck (shuffle : list Card -> list Card) : list Card :=
  shuffle unshuffled_deck.

Definition draw_card (deck : list Card) : res (Card * list Card) :=
  Py.pop deck.

Definition card_rank (card : Card) : string := Py.but_last card.

(** The [for] loop of [hand_value], with its two accumulators. *)
Fixpoint hand_sum (hand : Hand) (total : Z) (aces : nat) : res (Z * nat) :=
  match hand with
  | [] => Ok (total, aces)
  | card :: rest =>
      let rank := card_rank card in
      if bool_decide (rank ∈ ["J"; "Q"; "K"]) then
        hand_sum rest (total + 10) aces
      else if bool_decide (rank = "A") then
        hand_sum rest (total + 11) (S aces)
      else
        n ← Py.int_of_str rank;
        hand_sum rest (total + n) aces
  end.

(** [while total > 21 and aces: total -= 10; aces -= 1]. *)
Fixpoint demote (total : Z) (aces : nat) : Z * nat :=
  match aces with
  | O => (total, O)
  | S aces' =>
      if 21 <? total then demote (total - 10) aces' else (total, aces)
  end.

Definition hand_value (hand : Hand) : res (Z * bool) :=
  '(total, aces) ← hand_sum hand 0 0;
  let '(total, aces) := demote total aces in
  let is_soft := bool_decide (0 < aces)%nat in
  Ok (total, is_soft).

Definition is_blackjack (hand : Hand) : res bool :=
  '(total, _) ← hand_value hand;
  Ok (bool_decide (length hand = 2%nat) && (total =? 21)).

(** The test of the dealer's loop. *)
Definition dealer_draws (total : Z) (is_soft : bool) : bool :=
  (total <? 17) || ((total =? 17) && is_soft).

(** [dealer_play]: the [while True] loop.  Every iteration that goes on
    pops the deck, so the loop is a recursion on the cards still to come,
    top card first: [stack] is the deck reversed.  [dealer_play_unfold]
    below restates it with [hand_value] and [draw_card] on the deck
    itself, as the source has it. *)
Fixpoint dealer_loop (stack : list Card) (hand : Hand)
  : res (Hand * list Card) :=
  match hand_value hand with
  | Raise e => Raise e
  | Ok (total, is_soft) =>
      if dealer_draws total is_soft then
        match stack with
        | [] => Raise IndexError
        | c :: stack' => dealer_loop stack' (hand ++ [c])
        end
      else Ok (hand, reverse stack)
  end.

Definition dealer_play (hand : Hand) (deck : list Card)
  : res (Hand * list Card) :=
  dealer_loop (reverse deck) hand.

End Game.

(** ** db.py *)

Module Db.

Import Game.

(** *** Rows *)

(** [user_wallets (user_id PRIMARY KEY, balance DEFAULT 20, last_checkin)]. *)
Record Wallet := mkWallet {
  balance : Z;
  last_checkin : option string;
}.

(** [tinder_swipes (id AUTOINCREMENT, user_id, target_id, status,
    created_at)].  [created_at] is read by [users_who_liked_me] only: it
    is left out of the record, and that query takes it as a function of
    the row. *)
Record Swipe := mkSwipe {
  s_id : Z;
  s_user : Z;
  s_target : Z;
  s_status : string;
}.

(** [tinder_matches (id INTEGER PRIMARY KEY AUTOINCREMENT, user_a, user_b,
    created_at)]. *)
Record Match := mkMatch {
  m_id : Z;
  user_a : Z;
  user_b : Z;
}.

(** [tinder_profiles (user_id PRIMARY KEY, age, gender, interest, city,
    normalized_city, lat, lon, name, bio, active, created_at, updated_at)].
    A [None] is SQL NULL.  Time stamps are integers (seconds), ordered as
    the text time stamps of SQLite are. *)
Record Profile := mkProfile {
  p_age : option Z;
  p_gender : option string;
  p_interest : option string;
  p_city : option string;
  p_normalized_city : option string;
  p_lat : option Q;
  p_lon : option Q;
  p_name : option string;
  p_bio : option string;
  p_active : bool;
  p_created_at : Z;
  p_updated_at : Z;
}.

(** [tinder_media (id AUTOINCREMENT, user_id, file_id, kind, position)]. *)
Record Media := mkMedia {
  md_user : Z;
  md_file_id : string;
  md_kind : string;
  md_position : Z;
}.

(** [blackjack_sessions (user_id PRIMARY KEY, deck, player_hand,
    dealer_hand, bet, status)]; the three lists are stored as JSON text and
    read back with [json.loads], which returns the lists that were saved. *)
Record Session := mkSession {
  deck : list Card;
  player_hand : Hand;
  dealer_hand : Hand;
  bet : Z;
  status : string;
}.

(** The tables the modelled functions read or write.  [users] and
    [user_profiles], which [ensure_user_context] refreshes on every update,
    hold no wallet, game, swipe or dating-profile data and are left out. *)
Record Store := mkStore {
  user_wallets : gmap Z Wallet;
  user_stats : gmap Z (gmap string Z);
  blackjack_sessions : gmap Z Session;
  blackjack_boosts : gmap Z (option Q);
  tinder_swipes : list Swipe;
  tinder_swipes_seq : Z;
  tinder_matches : list Match;
  tinder_matches_seq : Z;
  tinder_profiles : gmap Z Profile;
  tinder_media : list Media;
  referrals : gmap Z (option Z * Z);
  settings : gmap string string;
}.

Definition with_wallets (f : gmap Z Wallet -> gmap Z Wallet) (st : Store) :=
  mkStore (f (user_wallets st)) (user_stats st) (blackjack_sessions st)
    (blackjack_boosts st) (tinder_swipes st) (tinder_swipes_seq st)
    (tinder_matches st) (tinder_matches_seq st) (tinder_profiles st)
    (tinder_media st) (referrals st) (settings st).

Definition with_stats (f : gmap Z (gmap string Z) -> gmap Z (gmap string Z))
    (st : Store) :=
  mkStore (user_wallets st) (f (user_stats st)) (blackjack_sessions st)
    (blackjack_boosts st) (tinder_swipes st) (tinder_swipes_seq st)
    (tinder_matches st) (tinder_matches_seq st) (tinder_profiles st)
    (tinder_media st) (referrals st) (settings st).

Definition with_sessions (f : gmap Z Session -> gmap Z Session) (st : Store) :=
  mkStore (user_wallets st) (user_stats st) (f (blackjack_sessions st))
    (blackjack_boosts st) (tinder_swipes st) (tinder_swipes_seq st)
    (tinder_matches st) (tinder_matches_seq st) (tinder_profiles st)
    (tinder_media st) (referrals st) (settings st).

Definition with_swipes (rows : list Swipe) (seq : Z) (st : Store) :=
  mkStore (user_wallets st) (user_stats st) (blackjack_sessions st)
    (blackjack_boosts st) rows seq
    (tinder_matches st) (tinder_matches_seq st) (tinder_profiles st)
    (tinder_media st) (referrals st) (settings st).

Definition with_matches (rows : list Match) (seq : Z) (st : Store) :=
  mkStore (user_wallets st) (user_stats st) (blackjack_sessions st)
    (blackjack_boosts st) (tinder_swipes st) (tinder_swipes_seq st)
    rows seq (tinder_profiles st)
    (tinder_media st) (referrals st) (settings st).

Definition with_profiles (f : gmap Z Profile -> gmap Z Profile) (st : Store) :=
  mkStore (user_wallets st) (user_stats st) (blackjack_sessions st)
    (blackjack_boosts st) (tinder_swipes st) (tinder_swipes_seq st)
    (tinder_matches st) (tinder_matches_seq st) (f (tinder_profiles st))
    (tinder_media st) (referrals st) (settings st).

Definition with_media (f : list Media -> list Media) (st : Store) :=
  mkStore (user_wallets st) (user_stats st) (blackjack_sessions st)
    (blackjack_boosts st) (tinder_swipes st) (tinder_swipes_seq st)
    (tinder_matches st) (tinder_matches_seq st) (tinder_profiles st)
    (f (tinder_media st)) (referrals st) (settings st).

Definition with_referrals
    (f : gmap Z (option Z * Z) -> gmap Z (option Z * Z)) (st : Store) :=
  mkStore (user_wallets st) (user_stats st) (blackjack_sessions st)
    (blackjack_boosts st) (tinder_swipes st) (tinder_swipes_seq st)
    (tinder_matches st) (tinder_matches_seq st) (tinder_profiles st)
    (tinder_media st) (f (referrals st)) (settings st).

Definition empty_store : Store :=
  mkStore ∅ ∅ ∅ ∅ [] 0 [] 0 ∅ [] ∅ ∅.

(** *** Wallet ledger *)

(** [INSERT OR IGNORE INTO user_wallets (user_id, balance) VALUES (?, 20)]. *)
Definition ensure_wallet (user_id : Z) (st : Store) : Store :=
  match user_wallets st !! user_id with
  | Some _ => st
  | None => with_wallets <[user_id := mkWallet 20 None]> st
  end.

Definition get_balance (user_id : Z) (st : Store) : Z * Store :=
  let st := ensure_wallet user_id st in
  (match user_wallets st !! user_id with
   | Some w => balance w
   | None => 0
   end, st).

Definition adjust_balance (user_id : Z) (delta : Z) (st : Store) : Z * Store :=
  let st := ensure_wallet user_id st in
  let st :=
    with_wallets
      (alter (fun w => mkWallet (balance w + delta) (last_checkin w)) user_id)
      st in
  (match user_wallets st !! user_id with
   | Some w => balance w
   | None => 0
   end, st).

Definition get_last_checkin (user_id : Z) (st : Store)
  : option string * Store :=
  let st := ensure_wallet user_id st in
  (match user_wallets st !! user_id with
   | Some w => last_checkin w
   | None => None
   end, st).

(** *** Statistics *)

Definition STAT_COLUMNS : list string :=
  ["referrals"; "referral_rewards"; "boosts_credited"; "profiles_created";
   "profiles_updated"; "votes_cast"; "likes_given"; "swipes"; "matches";
   "purchases"; "gifts_sent"; "gifts_received"; "games_played";
   "candidates_submitted"].

(** A row of [user_stats] maps a column to its count; a column the row does
    not mention holds its default, 0. *)
Definition stat_of (row : gmap string Z) (column : string) : Z :=
  default 0 (row !! column).

Definition increment_stat (user_id : Z) (field : string) (delta : Z)
    (st : Store) : Store :=
  if negb (bool_decide (field ∈ STAT_COLUMNS)) || (delta =? 0) then st
  else
    with_stats
      (fun t =>
         let row := default ∅ (t !! user_id) in
         <[user_id := <[field := stat_of row field + delta]> row]> t)
      st.

(** *** Blackjack sessions *)

(** [INSERT ... ON CONFLICT(user_id) DO UPDATE]: one row per user. *)
Definition save_blackjack_session (user_id : Z) (deck : list Card)
    (player_hand dealer_hand : Hand) (bet : Z) (st : Store) : Store :=
  with_sessions
    <[user_id := mkSession deck player_hand dealer_hand bet "active"]> st.

Definition load_blackjack_session (user_id : Z) (st : Store)
  : option Session :=
  blackjack_sessions st !! user_id.

Definition clear_blackjack_session (user_id : Z) (st : Store) : Store :=
  with_sessions (delete user_id) st.

Definition get_blackjack_boost (user_id : Z) (st : Store) : Q :=
  match blackjack_boosts st !! user_id with
  | Some (Some b) => b
  | _ => 0%Q
  end.

(** *** Swipes and matches *)

Definition mark_swipe (user_id target_id : Z) (status : string) (st : Store)
  : Store :=
  let id := tinder_swipes_seq st + 1 in
  let st :=
    with_swipes (tinder_swipes st ++ [mkSwipe id user_id target_id status])
      id st in
  let st := increment_stat user_id "swipes" 1 st in
  if bool_decide (status = "like")
  then increment_stat user_id "likes_given" 1 st
  else st.

Definition has_swiped (user_id target_id : Z) (st : Store) : bool :=
  existsb
    (fun s => bool_decide (s_user s = user_id)
              && bool_decide (s_target s = target_id))
    (tinder_swipes st).

(** The uniqueness constraints [tinder_matches] declares: its primary key
    [id] and nothing else (init_db creates two plain indexes on [user_a]
    and [user_b], neither of them UNIQUE). *)
Definition matches_conflict (new old : Match) : bool :=
  bool_decide (m_id new = m_id old).

(** [INSERT OR IGNORE INTO tinder_matches (user_a, user_b) VALUES (?, ?)]:
    the row gets the next AUTOINCREMENT id and is dropped only if it
    violates a declared constraint. *)
Definition insert_or_ignore_match (a b : Z) (st : Store) : Store :=
  let id := tinder_matches_seq st + 1 in
  let row := mkMatch id a b in
  if existsb (matches_conflict row) (tinder_matches st) then st
  else with_matches (tinder_matches st ++ [row]) id st.

Definition check_mutual_like (user_id target_id : Z) (st : Store)
  : bool * Store :=
  let exists_ :=
    existsb
      (fun s => bool_decide (s_user s = target_id)
                && bool_decide (s_target s = user_id)
                && bool_decide (s_status s = "like"))
      (tinder_swipes st) in
  if exists_ then
    let st :=
      insert_or_ignore_match (Z.min user_id target_id)
        (Z.max user_id target_id) st in
    let st := increment_stat user_id "matches" 1 st in
    let st := increment_stat target_id "matches" 1 st in
    (true, st)
  else (false, st).

Definition mark_like_and_check (user_id target_id : Z) (st : Store)
  : bool * Store :=
  check_mutual_like user_id target_id (mark_swipe user_id target_id "like" st).

(** The rows of [tinder_matches] for a canonical pair. *)
Definition matches_of (a b : Z) (st : Store) : list Match :=
  filter (fun m => user_a m = a ∧ user_b m = b) (tinder_matches st).

(** *** Candidate selection *)

(** SQL [x = y] inside a WHERE clause: a comparison with NULL is not true. *)
Definition sql_eq (x y : option string) : bool :=
  match x, y with
  | Some a, Some b => bool_decide (a = b)
  | _, _ => false
  end.

(** The row [get_next_candidate] selects:
    [p.user_id, p.age, p.gender, p.interest, p.city, p.name, p.bio]. *)
Definition CandidateRow : Type :=
  Z * option Z * option string * option string * option string
  * option string * option string.

Definition candidate_row (user_id : Z) (p : Profile) : CandidateRow :=
  (user_id, p_age p, p_gender p, p_interest p, p_city p, p_name p, p_bio p).

(** The WHERE clause of [run_query] with its placeholders filled in.
    After the two user ids the statement has, in the order of its text,
    [? = 'Any'], [p.gender = ?], [p.interest = ?] and, when the city
    clause is spliced in at the end, [p.normalized_city = ?]: these are
    [q_any], [q_gender], [q_interest] and [q_city]. *)
Definition where_clause (user_id : Z) (q_any q_gender q_interest : option string)
    (q_city : option (option string)) (st : Store) (row : Z * Profile) : bool :=
  let '(pid, p) := row in
  p_active p
  && negb (bool_decide (pid = user_id))
  && negb (has_swiped user_id pid st)
  && (sql_eq q_any (Some "Any") || sql_eq (p_gender p) q_gender)
  && (sql_eq (p_interest p) (Some "Any") || sql_eq (p_interest p) q_interest)
  && match q_city with
     | Some c => sql_eq (p_normalized_city p) c
     | None => true
     end.

(** [ORDER BY p.updated_at DESC LIMIT 1].  SQLite leaves the order of rows
    with equal time stamps open; here the first such row of the scan wins.
    The theorems below do not depend on how ties are broken. *)
Fixpoint newest (rows : list (Z * Profile)) : option (Z * Profile) :=
  match rows with
  | [] => None
  | r :: rows' =>
      match newest rows' with
      | Some r' =>
          if p_updated_at r'.2 <=? p_updated_at r.2 then Some r else Some r'
      | None => Some r
      end
  end.

(** The inner function [run_query] of [get_next_candidate].  sqlite3
    binds the [?] placeholders to the parameter list by position.  The
    list is [[user_id, user_id]], then [normalized_city] if the city
    clause is on, then [[user_interest, user_interest, user_gender]];
    [params] below is that list from its third entry on. *)
Definition run_query (user_id : Z) (user_gender user_interest : option string)
    (normalized_city : string) (st : Store) (city_filter : bool)
  : option CandidateRow :=
  let with_city := city_filter && negb (bool_decide (normalized_city = "")) in
  let params :=
    (if with_city then [Some normalized_city] else [])
    ++ [user_interest; user_interest; user_gender] in
  let q (n : nat) : option string := default None (params !! n) in
  let rows :=
    filter
      (fun row =>
         where_clause user_id (q 0%nat) (q 1%nat) (q 2%nat)
           (if with_city then Some (q 3%nat) else None) st row = true)
      (map_to_list (tinder_profiles st)) in
  (fun r => candidate_row r.1 r.2) <$> newest rows.

Definition get_next_candidate (user_id : Z)
    (user_gender user_interest : option string) (normalized_city : string)
    (st : Store) : option CandidateRow :=
  match run_query user_id user_gender user_interest normalized_city st true with
  | Some row => Some row
  | None => run_query user_id user_gender user_interest normalized_city st false
  end.

(** *** Dating profiles *)

(** [INSERT ... ON CONFLICT(user_id) DO UPDATE]: a new row is active and
    stamped [now]; an existing row keeps [created_at]. *)
Definition upsert_profile (user_id : Z) (age : option Z)
    (gender interest city : option string) (lat lon : option Q)
    (name bio normalized_city : option string) (now : Z) (st : Store) : Store :=
  let created :=
    match tinder_profiles st !! user_id with
    | Some old => p_created_at old
    | None => now
    end in
  with_profiles
    <[user_id := mkProfile age gender interest city normalized_city lat lon
                   name bio true created now]> st.

Definition get_profile (user_id : Z) (st : Store) : option Profile :=
  tinder_profiles st !! user_id.

Definition clear_profile_media (user_id : Z) (st : Store) : Store :=
  with_media (filter (fun m => md_user m ≠ user_id)) st.

Definition add_profile_media (user_id : Z) (file_id kind : string)
    (position : Z) (st : Store) : Store :=
  with_media (fun t => t ++ [mkMedia user_id file_id kind position]) st.

Definition get_referrer (user_id : Z) (st : Store) : option Z * option Z :=
  match referrals st !! user_id with
  | Some (referrer_id, credited) => (referrer_id, Some credited)
  | None => (None, None)
  end.

Definition mark_referral_credited (user_id : Z) (st : Store) : Store :=
  with_referrals (alter (fun r => (r.1, 1)) user_id) st.

Definition get_mode (st : Store) : string :=
  default "collect" (settings st !! "mode").

(** [settings] row [feature:<name>], ["on"] or ["off"]; enabled when the
    row is missing. *)
Definition is_feature_enabled (name : string) (st : Store) : bool :=
  match settings st !! ("feature:" +:+ name) with
  | Some v => bool_decide (v = "on")
  | None => true
  end.

End Db.

(** ** handlers.py *)

Module Handlers.

Import Game Db.

(** The conversation states of the profile flow (config.py) and
    [ConversationHandler.END]. *)
Inductive ConvState : Set :=
| TINDER_AGE | TINDER_GENDER | TINDER_INTEREST | TINDER_CITY
| TINDER_NAME | TINDER_BIO | TINDER_MEDIA | TINDER_CONFIRM
| END.

(** [context.user_data], the per-user dictionary kept in memory: the keys
    the modelled handlers use.  [None] is a missing key or a stored
    [None]; the code reads every key with [.get], which cannot tell the
    two apart. *)
Record UserData := mkUserData {
  ud_bj_pending : option bool;
  ud_tinder_age : option Z;
  ud_tinder_gender : option string;
  ud_tinder_interest : option string;
  ud_tinder_city : option string;
  ud_tinder_normalized_city : option string;
  ud_tinder_lat : option Q;
  ud_tinder_lon : option Q;
  ud_tinder_name : option string;
  ud_tinder_bio : option string;
  ud_tinder_media : option (list (string * string));
  ud_tinder_edit_mode : option bool;
  ud_edit_for_submit : option bool;
  ud_contest_profile : option Profile;
  ud_contest_media : option (list (string * string));
  ud_tinder_last_city_option : option string;
  ud_tinder_current_target : option Z;
}.

(** What a handler can change: the database, the user's dictionary and
    the messages sent so far (each recorded by its translation key). *)
Record World := mkWorld {
  db : Store;
  user_data : UserData;
  sent : list string;
}.

Inductive Result (A : Type) : Type :=
| Return (a : A) (w : World)
| Raised (e : exn) (w : World).
Arguments Return {A} a w.
Arguments Raised {A} e w.

Definition world_of {A} (r : Result A) : World :=
  match r with Return _ w => w | Raised _ w => w end.

(** Handlers thread the world and stop at the first exception; what was
    written before it stays written. *)
Definition HM (A : Type) : Type := World -> Result A.

#[global] Instance HM_bind : MBind HM := fun A B k m w =>
  match m w with
  | Return a w' => k a w'
  | Raised e w' => Raised e w'
  end.
#[global] Instance HM_ret : MRet HM := fun A a w => Return a w.

Definition lift {A} (r : res A) : HM A := fun w =>
  match r with
  | Ok a => Return a w
  | Raise e => Raised e w
  end.

Definition db_call {A} (f : Store -> A * Store) : HM A := fun w =>
  let '(a, st) := f (db w) in Return a (mkWorld st (user_data w) (sent w)).

Definition db_exec (f : Store -> Store) : HM unit := fun w =>
  Return tt (mkWorld (f (db w)) (user_data w) (sent w)).

Definition db_read {A} (f : Store -> A) : HM A := fun w => Return (f (db w)) w.

Definition ud_read {A} (f : UserData -> A) : HM A := fun w =>
  Return (f (user_data w)) w.

Definition ud_exec (f : UserData -> UserData) : HM unit := fun w =>
  Return tt (mkWorld (db w) (f (user_data w)) (sent w)).

(** [_respond] and [reply_text]: one message, named by its key.  The
    blank service messages that only remove or set a reply keyboard are
    not recorded. *)
Definition respond (key : string) : HM unit := fun w =>
  Return tt (mkWorld (db w) (user_data w) (sent w ++ [key])).

Definition set_bj_pending (v : option bool) (u : UserData) : UserData :=
  mkUserData v (ud_tinder_age u) (ud_tinder_gender u) (ud_tinder_interest u)
    (ud_tinder_city u) (ud_tinder_normalized_city u) (ud_tinder_lat u)
    (ud_tinder_lon u) (ud_tinder_name u) (ud_tinder_bio u)
    (ud_tinder_media u) (ud_tinder_edit_mode u) (ud_edit_for_submit u)
    (ud_contest_profile u) (ud_contest_media u)
    (ud_tinder_last_city_option u) (ud_tinder_current_target u).

(** [game_menu_markup] reads the last check-in, which creates the wallet
    row if the user has none. *)
Definition game_menu_markup (user_id : Z) : HM unit :=
  _ ← db_call (get_last_checkin user_id); mret tt.

(** *** Blackjack *)

Definition start_blackjack (user_id : Z) : HM unit :=
  enabled ← db_read (is_feature_enabled "blackjack");
  if negb enabled then respond "feature_disabled"
  else
    balance ← db_call (get_balance user_id);
    if balance <? 1 then
      (game_menu_markup user_id;; respond "not_enough_points")
    else
      (ud_exec (set_bj_pending (Some true));; respond "bet_prompt").

Definition send_blackjack_state (player_hand dealer_hand : Hand) : HM unit :=
  _ ← lift (hand_value player_hand);
  match dealer_hand with
  | [] => lift (Raise IndexError)
  | _ :: _ => respond "blackjack_title"
  end.

(** [x < y] on the boost fraction and the random draw. *)
Definition Qltb (x y : Q) : bool := negb (Qle_bool y x).

(** [rnd] is the value [random.random()] returns if the boost test gets
    as far as drawing it. *)
Definition resolve_blackjack_outcome (user_id : Z)
    (player_hand dealer_hand : Hand) (bet : Z) (rnd : Q) : HM unit :=
  '(player_total, _) ← lift (hand_value player_hand);
  '(dealer_total, _) ← lift (hand_value dealer_hand);
  boost ← db_read (get_blackjack_boost user_id);
  let forced_dealer_bust :=
    Qltb 0 boost
    && (player_total <=? 21)
    && (player_total <=? dealer_total)
    && (dealer_total <=? 21)
    && Qltb rnd boost in
  outcome_text ←
    (if 21 <? player_total then mret "blackjack_bust"
     else if forced_dealer_bust || (21 <? dealer_total) then
       (_ ← db_call (adjust_balance user_id (bet * 2));
        mret "blackjack_dealer_bust")
     else if dealer_total <? player_total then
       (_ ← db_call (adjust_balance user_id (bet * 2));
        mret "blackjack_player_win")
     else if player_total <? dealer_total then mret "blackjack_dealer_win"
     else
       (_ ← db_call (adjust_balance user_id bet);
        mret "blackjack_push")) : HM string;
  _ ← db_call (get_balance user_id);
  respond outcome_text;;
  db_exec (clear_blackjack_session user_id).

(** [shuffled] is the deck [build_deck()] returns. *)
Definition handle_bet_selection (user_id : Z) (bet : Z)
    (shuffled : list Card) : HM unit :=
  balance ← db_call (get_balance user_id);
  if balance <? bet then
    (game_menu_markup user_id;; respond "bet_too_high")
  else
    ud_exec (set_bj_pending (Some false));;
    db_exec (increment_stat user_id "games_played" 1);;
    let deck := shuffled in
    '(p1, deck) ← lift (draw_card deck);
    '(p2, deck) ← lift (draw_card deck);
    let player_hand := [p1; p2] in
    '(d1, deck) ← lift (draw_card deck);
    '(d2, deck) ← lift (draw_card deck);
    let dealer_hand := [d1; d2] in
    _ ← db_call (adjust_balance user_id (- bet));
    db_exec (save_blackjack_session user_id deck player_hand dealer_hand bet);;
    player_bj ← lift (is_blackjack player_hand);
    dealer_bj ← lift (is_blackjack dealer_hand);
    if player_bj || dealer_bj then
      outcome ←
        (if player_bj && dealer_bj then
           (_ ← db_call (adjust_balance user_id bet); mret "blackjack_push")
         else if player_bj then
           (_ ← db_call (adjust_balance user_id (bet * 2));
            mret "blackjack_player_blackjack")
         else mret "blackjack_dealer_blackjack") : HM string;
      _ ← db_call (get_balance user_id);
      respond outcome;;
      db_exec (clear_blackjack_session user_id)
    else send_blackjack_state player_hand dealer_hand.

Definition blackjack_hit (user_id : Z) : HM unit :=
  session ← db_read (load_blackjack_session user_id);
  match session with
  | None => game_menu_markup user_id;; respond "no_active_game"
  | Some session =>
      '(c, deck) ← lift (draw_card (deck session));
      let player_hand := player_hand session ++ [c] in
      db_exec (save_blackjack_session user_id deck player_hand
                 (dealer_hand session) (bet session));;
      '(total, _) ← lift (hand_value player_hand);
      if 21 <? total then
        (db_exec (clear_blackjack_session user_id);;
         _ ← db_call (get_balance user_id);
         respond "blackjack_bust")
      else send_blackjack_state player_hand (dealer_hand session)
  end.

Definition blackjack_stand (user_id : Z) (rnd : Q) : HM unit :=
  session ← db_read (load_blackjack_session user_id);
  match session with
  | None => game_menu_markup user_id;; respond "no_active_game"
  | Some session =>
      '(dealer_hand, _) ←
        lift (dealer_play (dealer_hand session) (deck session));
      resolve_blackjack_outcome user_id (player_hand session) dealer_hand
        (bet session) rnd
  end.

Definition blackjack_double (user_id : Z) (rnd : Q) : HM unit :=
  session ← db_read (load_blackjack_session user_id);
  match session with
  | None => game_menu_markup user_id;; respond "no_active_game"
  | Some session =>
      if negb (bool_decide (length (player_hand session) = 2%nat)) then
        respond "double_not_allowed"
      else
        let bet := bet session in
        balance ← db_call (get_balance user_id);
        if balance <? bet then respond "not_enough_points"
        else
          _ ← db_call (adjust_balance user_id (- bet));
          let bet := bet * 2 in
          '(c, deck) ← lift (draw_card (deck session));
          let player_hand := player_hand session ++ [c] in
          '(total, _) ← lift (hand_value player_hand);
          if 21 <? total then
            (db_exec (clear_blackjack_session user_id);;
             _ ← db_call (get_balance user_id);
             respond "blackjack_bust")
          else
            '(dealer_hand, _) ← lift (dealer_play (dealer_hand session) deck);
            db_exec (clear_blackjack_session user_id);;
            resolve_blackjack_outcome user_id player_hand dealer_hand bet rnd
  end.

(** *** Writing a key of [user_data] *)

Definition set_tinder_age (v : option Z) (u : UserData) : UserData :=
  mkUserData (ud_bj_pending u) v (ud_tinder_gender u) (ud_tinder_interest u)
    (ud_tinder_city u) (ud_tinder_normalized_city u) (ud_tinder_lat u)
    (ud_tinder_lon u) (ud_tinder_name u) (ud_tinder_bio u)
    (ud_tinder_media u) (ud_tinder_edit_mode u) (ud_edit_for_submit u)
    (ud_contest_profile u) (ud_contest_media u)
    (ud_tinder_last_city_option u) (ud_tinder_current_target u).

Definition set_tinder_gender (v : option string) (u : UserData) : UserData :=
  mkUserData (ud_bj_pending u) (ud_tinder_age u) v (ud_tinder_interest u)
    (ud_tinder_city u) (ud_tinder_normalized_city u) (ud_tinder_lat u)
    (ud_tinder_lon u) (ud_tinder_name u) (ud_tinder_bio u)
    (ud_tinder_media u) (ud_tinder_edit_mode u) (ud_edit_for_submit u)
    (ud_contest_profile u) (ud_contest_media u)
    (ud_tinder_last_city_option u) (ud_tinder_current_target u).

Definition set_tinder_interest (v : option string)
    (u : UserData) : UserData :=
  mkUserData (ud_bj_pending u) (ud_tinder_age u) (ud_tinder_gender u) v
    (ud_tinder_city u) (ud_tinder_normalized_city u) (ud_tinder_lat u)
    (ud_tinder_lon u) (ud_tinder_name u) (ud_tinder_bio u)
    (ud_tinder_media u) (ud_tinder_edit_mode u) (ud_edit_for_submit u)
    (ud_contest_profile u) (ud_contest_media u)
    (ud_tinder_last_city_option u) (ud_tinder_current_target u).

Definition set_tinder_city (v : option string) (u : UserData) : UserData :=
  mkUserData (ud_bj_pending u) (ud_tinder_age u) (ud_tinder_gender u)
    (ud_tinder_interest u) v (ud_tinder_normalized_city u) (ud_tinder_lat u)
    (ud_tinder_lon u) (ud_tinder_name u) (ud_tinder_bio u)
    (ud_tinder_media u) (ud_tinder_edit_mode u) (ud_edit_for_submit u)
    (ud_contest_profile u) (ud_contest_media u)
    (ud_tinder_last_city_option u) (ud_tinder_current_target u).

Definition set_tinder_normalized_city (v : option string)
    (u : UserData) : UserData :=
  mkUserData (ud_bj_pending u) (ud_tinder_age u) (ud_tinder_gender u)
    (ud_tinder_interest u) (ud_tinder_city u) v (ud_tinder_lat u)
    (ud_tinder_lon u) (ud_tinder_name u) (ud_tinder_bio u)
    (ud_tinder_media u) (ud_tinder_edit_mode u) (ud_edit_for_submit u)
    (ud_contest_profile u) (ud_contest_media u)
    (ud_tinder_last_city_option u) (ud_tinder_current_target u).

Definition set_tinder_lat (v : option Q) (u : UserData) : UserData :=
  mkUserData (ud_bj_pending u) (ud_tinder_age u) (ud_tinder_gender u)
    (ud_tinder_interest u) (ud_tinder_city u) (ud_tinder_normalized_city u)
    v (ud_tinder_lon u) (ud_tinder_name u) (ud_tinder_bio u)
    (ud_tinder_media u) (ud_tinder_edit_mode u) (ud_edit_for_submit u)
    (ud_contest_profile u) (ud_contest_media u)
    (ud_tinder_last_city_option u) (ud_tinder_current_target u).

Definition set_tinder_lon (v : option Q) (u : UserData) : UserData :=
  mkUserData (ud_bj_pending u) (ud_tinder_age u) (ud_tinder_gender u)
    (ud_tinder_interest u) (ud_tinder_city u) (ud_tinder_normalized_city u)
    (ud_tinder_lat u) v (ud_tinder_name u) (ud_tinder_bio u)
    (ud_tinder_media u) (ud_tinder_edit_mode u) (ud_edit_for_submit u)
    (ud_contest_profile u) (ud_contest_media u)
    (ud_tinder_last_city_option u) (ud_tinder_current_target u).

Definition set_tinder_name (v : option string) (u : UserData) : UserData :=
  mkUserData (ud_bj_pending u) (ud_tinder_age u) (ud_tinder_gender u)
    (ud_tinder_interest u) (ud_tinder_city u) (ud_tinder_normalized_city u)
    (ud_tinder_lat u) (ud_tinder_lon u) v (ud_tinder_bio u)
    (ud_tinder_media u) (ud_tinder_edit_mode u) (ud_edit_for_submit u)
    (ud_contest_profile u) (ud_contest_media u)
    (ud_tinder_last_city_option u) (ud_tinder_current_target u).

Definition set_tinder_bio (v : option string) (u : UserData) : UserData :=
  mkUserData (ud_bj_pending u) (ud_tinder_age u) (ud_tinder_gender u)
    (ud_tinder_interest u) (ud_tinder_city u) (ud_tinder_normalized_city u)
    (ud_tinder_lat u) (ud_tinder_lon u) (ud_tinder_name u) v
    (ud_tinder_media u) (ud_tinder_edit_mode u) (ud_edit_for_submit u)
    (ud_contest_profile u) (ud_contest_media u)
    (ud_tinder_last_city_option u) (ud_tinder_current_target u).

Definition set_tinder_media (v : option (list (string * string)))
    (u : UserData) : UserData :=
  mkUserData (ud_bj_pending u) (ud_tinder_age u) (ud_tinder_gender u)
    (ud_tinder_interest u) (ud_tinder_city u) (ud_tinder_normalized_city u)
    (ud_tinder_lat u) (ud_tinder_lon u) (ud_tinder_name u) (ud_tinder_bio u)
    v (ud_tinder_edit_mode u) (ud_edit_for_submit u) (ud_contest_profile u)
    (ud_contest_media u) (ud_tinder_last_city_option u)
    (ud_tinder_current_target u).

Definition set_tinder_edit_mode (v : option bool) (u : UserData) : UserData :=
  mkUserData (ud_bj_pending u) (ud_tinder_age u) (ud_tinder_gender u)
    (ud_tinder_interest u) (ud_tinder_city u) (ud_tinder_normalized_city u)
    (ud_tinder_lat u) (ud_tinder_lon u) (ud_tinder_name u) (ud_tinder_bio u)
    (ud_tinder_media u) v (ud_edit_for_submit u) (ud_contest_profile u)
    (ud_contest_media u) (ud_tinder_last_city_option u)
    (ud_tinder_current_target u).

Definition set_edit_for_submit (v : option bool) (u : UserData) : UserData :=
  mkUserData (ud_bj_pending u) (ud_tinder_age u) (ud_tinder_gender u)
    (ud_tinder_interest u) (ud_tinder_city u) (ud_tinder_normalized_city u)
    (ud_tinder_lat u) (ud_tinder_lon u) (ud_tinder_name u) (ud_tinder_bio u)
    (ud_tinder_media u) (ud_tinder_edit_mode u) v (ud_contest_profile u)
    (ud_contest_media u) (ud_tinder_last_city_option u)
    (ud_tinder_current_target u).

Definition set_contest_profile (v : option Profile)
    (u : UserData) : UserData :=
  mkUserData (ud_bj_pending u) (ud_tinder_age u) (ud_tinder_gender u)
    (ud_tinder_interest u) (ud_tinder_city u) (ud_tinder_normalized_city u)
    (ud_tinder_lat u) (ud_tinder_lon u) (ud_tinder_name u) (ud_tinder_bio u)
    (ud_tinder_media u) (ud_tinder_edit_mode u) (ud_edit_for_submit u) v
    (ud_contest_media u) (ud_tinder_last_city_option u)
    (ud_tinder_current_target u).

Definition set_contest_media (v : option (list (string * string)))
    (u : UserData) : UserData :=
  mkUserData (ud_bj_pending u) (ud_tinder_age u) (ud_tinder_gender u)
    (ud_tinder_interest u) (ud_tinder_city u) (ud_tinder_normalized_city u)
    (ud_tinder_lat u) (ud_tinder_lon u) (ud_tinder_name u) (ud_tinder_bio u)
    (ud_tinder_media u) (ud_tinder_edit_mode u) (ud_edit_for_submit u)
    (ud_contest_profile u) v (ud_tinder_last_city_option u)
    (ud_tinder_current_target u).

Definition set_tinder_last_city_option (v : option string)
    (u : UserData) : UserData :=
  mkUserData (ud_bj_pending u) (ud_tinder_age u) (ud_tinder_gender u)
    (ud_tinder_interest u) (ud_tinder_city u) (ud_tinder_normalized_city u)
    (ud_tinder_lat u) (ud_tinder_lon u) (ud_tinder_name u) (ud_tinder_bio u)
    (ud_tinder_media u) (ud_tinder_edit_mode u) (ud_edit_for_submit u)
    (ud_contest_profile u) (ud_contest_media u) v
    (ud_tinder_current_target u).

Definition set_tinder_current_target (v : option Z)
    (u : UserData) : UserData :=
  mkUserData (ud_bj_pending u) (ud_tinder_age u) (ud_tinder_gender u)
    (ud_tinder_interest u) (ud_tinder_city u) (ud_tinder_normalized_city u)
    (ud_tinder_lat u) (ud_tinder_lon u) (ud_tinder_name u) (ud_tinder_bio u)
    (ud_tinder_media u) (ud_tinder_edit_mode u) (ud_edit_for_submit u)
    (ud_contest_profile u) (ud_contest_media u)
    (ud_tinder_last_city_option u) v.

(** *** Truthiness *)

(** [x or y] and [if x] on the values the flow handles: [None], 0, the
    empty string and the empty list are false. *)
Definition truthy_int (x : option Z) : bool :=
  match x with Some z => negb (z =? 0) | None => false end.

Definition truthy_str (x : option string) : bool :=
  match x with Some s => negb (bool_decide (s = "")) | None => false end.

Definition truthy_flag (x : option bool) : bool :=
  match x with Some b => b | None => false end.

Definition truthy_list {A} (x : option (list A)) : bool :=
  match x with Some (_ :: _) => true | _ => false end.

Definition or_int (x y : option Z) : option Z := if truthy_int x then x else y.
Definition or_str (x y : option string) : option string :=
  if truthy_str x then x else y.

(** [needle in hay] on strings. *)
Fixpoint contains (needle hay : string) : bool :=
  String.prefix needle hay
  || match hay with
     | String.EmptyString => false
     | String.String _ hay' => contains needle hay'
     end.

(** *** The profile-builder flow *)

Section Flow.

(** Built-ins whose result depends on the Unicode tables, and the pieces
    of the flow that live outside the modelled files: [str.strip],
    [str.lower], [str.isdigit] and [int] on message text; the label of
    the "done" button and of the "last city" button in the user's
    language (translations.py); [normalize_city] and
    [reverse_geocode_city] of helpers.py, the second of which asks a web
    service.  No statement below depends on what they return. *)
Variable str_strip : string -> string.
Variable str_lower : string -> string.
Variable str_isdigit : string -> bool.
Variable str_int : string -> res Z.
Variable t_done_button : string.
Variable t_city_button_last : string -> string.
Variable normalize_city : string -> string.
Variable reverse_geocode_city : Q -> Q -> string * string.

(** The bet branch at the head of [quick_reply_handler].  The result
    tells whether the handler returned there; on [false] it goes on to the
    menu buttons, which are not modelled. *)
Definition quick_reply_handler (user_id : Z) (raw : string)
    (shuffled : list Card) : HM bool :=
  let text := str_strip raw in
  if bool_decide (text = "") then mret true
  else
    pending ← ud_read ud_bj_pending;
    if truthy_flag pending then
      if str_isdigit text then
        (bet ← lift (str_int text);
         handle_bet_selection user_id bet shuffled;;
         mret true)
      else (respond "bet_invalid";; mret true)
    else mret false.

(** The [bjbet:<n>] branch of the callback router [button]. *)
Definition button_bjbet (user_id : Z) (bet_str : string)
    (shuffled : list Card) : HM unit :=
  bet ← lift (str_int bet_str);
  handle_bet_selection user_id bet shuffled.

Definition send_next_candidate_card (user_id : Z) : HM bool :=
  profile ← db_read (get_profile user_id);
  match profile with
  | None => respond "tinder_profile_needed";; mret false
  | Some profile =>
      row ← db_read
              (get_next_candidate user_id (p_gender profile)
                 (p_interest profile)
                 (default "" (p_normalized_city profile)));
      match row with
      | None => respond "tinder_no_more_profiles";; mret false
      | Some (target_id, _, _, _, _, _, _) =>
          ud_exec (set_tinder_current_target (Some target_id));;
          respond "tinder_profile_line";;
          mret true
      end
  end.

(** [clear_transient_state] drops [ud_bj_pending] (and the gift-draw keys,
    which are not modelled). *)
Definition start_tinder_flow : HM ConvState :=
  ud_exec (set_bj_pending None);;
  respond "tinder_age_prompt";;
  ud_exec (set_tinder_media (Some []));;
  mret TINDER_AGE.

Definition tinder_edit_menu (user_id : Z) : HM ConvState :=
  profile ← db_read (get_profile user_id);
  match profile with
  | None => start_tinder_flow
  | Some _ => respond "tinder_edit_prompt";; mret END
  end.

(** The tuple kept under [ud_contest_profile] has the columns of a profile
    row up to [active]; it is held as a row whose time stamps are unused. *)
Definition draft_row (age : option Z) (gender interest city norm_city : option string)
    (lat lon : option Q) (name bio : option string) : Profile :=
  mkProfile age gender interest city norm_city lat lon name bio true 0 0.

Definition first_some {A} (x y : option A) : option A :=
  match x with Some _ => x | None => y end.

Definition save_profile_from_context (user_id : Z) (now : Z) : HM unit :=
  u ← ud_read id;
  stored ← db_read (get_profile user_id);
  let profile :=
    if truthy_flag (ud_edit_for_submit u)
       && bool_decide (is_Some (ud_contest_profile u))
    then ud_contest_profile u else stored in
  let age := or_int (ud_tinder_age u) (profile ≫= p_age) in
  let gender := or_str (ud_tinder_gender u) (profile ≫= p_gender) in
  let interest := or_str (ud_tinder_interest u) (profile ≫= p_interest) in
  let city := or_str (ud_tinder_city u) (profile ≫= p_city) in
  let norm_city :=
    or_str (ud_tinder_normalized_city u)
      (or_str (profile ≫= p_normalized_city)
         (Some (normalize_city (default "" (or_str city (Some "")))))) in
  let lat := first_some (ud_tinder_lat u) (profile ≫= p_lat) in
  let lon := first_some (ud_tinder_lon u) (profile ≫= p_lon) in
  let name := or_str (ud_tinder_name u) (profile ≫= p_name) in
  let bio := or_str (ud_tinder_bio u) (profile ≫= p_bio) in
  if truthy_flag (ud_edit_for_submit u) then
    ud_exec
      (set_contest_profile
         (Some (draft_row age gender interest city norm_city lat lon name bio)))
  else
    db_exec
      (upsert_profile user_id age gender interest city lat lon name bio
         norm_city now).

(** The tail every step shares when it runs in edit mode. *)
Definition finish_edit (user_id : Z) (now : Z) : HM ConvState :=
  save_profile_from_context user_id now;;
  ud_exec (set_tinder_edit_mode (Some false));;
  respond "tinder_saved";;
  tinder_edit_menu user_id.

Definition tinder_age (raw : string) : HM ConvState :=
  let text := str_strip raw in
  if negb (str_isdigit text) then respond "age_not_number";; mret TINDER_AGE
  else
    age ← lift (str_int text);
    if (age <? 18) || (120 <? age) then respond "age_invalid";; mret TINDER_AGE
    else
      ud_exec (set_tinder_age (Some age));;
      respond "tinder_gender_prompt";;
      mret TINDER_GENDER.

Definition tinder_gender_cb (user_id : Z) (gender_value : string) (now : Z)
  : HM ConvState :=
  ud_exec (set_tinder_gender (Some gender_value));;
  respond "tinder_interest_prompt";;
  edit ← ud_read ud_tinder_edit_mode;
  if truthy_flag edit then finish_edit user_id now
  else mret TINDER_INTEREST.

(** The city prompt of the two interest handlers. *)
Definition offer_last_city (user_id : Z) : HM unit :=
  existing_profile ← db_read (get_profile user_id);
  u ← ud_read id;
  let last_city := or_str (ud_tinder_city u) (existing_profile ≫= p_city) in
  ud_exec (set_tinder_last_city_option last_city).

Definition tinder_interest_cb (user_id : Z) (interest_value : string)
    (now : Z) : HM ConvState :=
  ud_exec (set_tinder_interest (Some interest_value));;
  offer_last_city user_id;;
  edit ← ud_read ud_tinder_edit_mode;
  if truthy_flag edit then finish_edit user_id now
  else respond "tinder_city_prompt";; mret TINDER_CITY.

(** The [if]/[elif] chain of [tinder_gender_text] on the lower-cased
    text; [None] is its [else] branch. *)
Definition gender_of_text (text : string) : option string :=
  if contains "м" text || contains "male" text || contains "man" text
     || contains "ч" text
  then Some "Male"
  else if contains "f" text || contains "жен" text || contains "female" text
          || contains "girl" text || contains "ж" text
  then Some "Female"
  else None.

Definition tinder_gender_text (user_id : Z) (raw : string) (now : Z)
  : HM ConvState :=
  let text := str_lower raw in
  match gender_of_text text with
  | None => respond "gender_invalid_choice";; mret TINDER_GENDER
  | Some gender_value =>
      ud_exec (set_tinder_gender (Some gender_value));;
      edit ← ud_read ud_tinder_edit_mode;
      if truthy_flag edit then finish_edit user_id now
      else respond "tinder_interest_prompt";; mret TINDER_INTEREST
  end.

Definition tinder_interest_text (user_id : Z) (raw : string) (now : Z)
  : HM ConvState :=
  let text := str_lower raw in
  let interest_value :=
    if contains "муж" text || contains "man" text || contains "мужчины" text
    then "Male"
    else if contains "жен" text || contains "girl" text
            || contains "women" text || contains "female" text
    then "Female"
    else "Any" in
  ud_exec (set_tinder_interest (Some interest_value));;
  offer_last_city user_id;;
  edit ← ud_read ud_tinder_edit_mode;
  if truthy_flag edit then finish_edit user_id now
  else respond "tinder_city_prompt";; mret TINDER_CITY.

(** [location] is the position of a location message; otherwise the
    message is text. *)
Definition tinder_city (user_id : Z) (location : option (Q * Q))
    (raw : string) (now : Z) : HM ConvState :=
  match location with
  | Some (lat, lon) =>
      ud_exec (set_tinder_lat (Some lat));;
      ud_exec (set_tinder_lon (Some lon));;
      let '(city_label, norm_label) := reverse_geocode_city lat lon in
      ud_exec (set_tinder_city (Some city_label));;
      ud_exec (set_tinder_normalized_city (Some norm_label))
  | None =>
      let text := str_strip raw in
      last_city ← ud_read ud_tinder_last_city_option;
      (match last_city with
       | Some c =>
           if truthy_str last_city && bool_decide (text = t_city_button_last c)
           then
             ud_exec (set_tinder_city (Some c));;
             ud_exec (set_tinder_normalized_city (Some (normalize_city c)))
           else
             ud_exec (set_tinder_city (Some text));;
             ud_exec (set_tinder_normalized_city (Some (normalize_city text)))
       | None =>
           ud_exec (set_tinder_city (Some text));;
           ud_exec (set_tinder_normalized_city (Some (normalize_city text)))
       end);;
      ud_exec (set_tinder_lat None);;
      ud_exec (set_tinder_lon None)
  end;;
  edit ← ud_read ud_tinder_edit_mode;
  if truthy_flag edit then finish_edit user_id now
  else respond "tinder_name_prompt";; mret TINDER_NAME.

Definition tinder_name (user_id : Z) (raw : string) (now : Z)
  : HM ConvState :=
  ud_exec (set_tinder_name (Some (str_strip raw)));;
  edit ← ud_read ud_tinder_edit_mode;
  if truthy_flag edit then finish_edit user_id now
  else respond "tinder_bio_prompt";; mret TINDER_BIO.

Definition tinder_bio (user_id : Z) (raw : string) (now : Z)
  : HM ConvState :=
  ud_exec (set_tinder_bio (Some (str_strip raw)));;
  edit ← ud_read ud_tinder_edit_mode;
  if truthy_flag edit then finish_edit user_id now
  else respond "tinder_media_prompt";; mret TINDER_MEDIA.

Definition _store_media (file_id kind : string) : HM bool :=
  stored ← ud_read ud_tinder_media;
  let media := default [] stored in
  if bool_decide (3 <= length media)%nat then mret false
  else
    ud_exec (set_tinder_media (Some (media ++ [(file_id, kind)])));;
    mret true.

Definition tinder_confirm : HM ConvState :=
  respond "tinder_profile_line";; mret TINDER_CONFIRM.

(** [photo] and [video] are the file ids the message carries, if any. *)
Definition tinder_media (photo video : option string) : HM ConvState :=
  match first_some (pair "photo" <$> photo) (pair "video" <$> video) with
  | None => respond "not_photo";; mret TINDER_MEDIA
  | Some (kind, fid) =>
      ok ← _store_media fid kind;
      if negb ok then respond "Limit reached (3).";; tinder_confirm
      else
        stored ← ud_read ud_tinder_media;
        if bool_decide (3 <= length (default [] stored))%nat then tinder_confirm
        else respond "tinder_media_more";; mret TINDER_MEDIA
  end.

(** The test of [tinder_media_text] for "the user says they are done". *)
Definition is_done_text (text : string) : bool :=
  let done_label := str_lower t_done_button in
  contains (str_lower done_label) text
  || bool_decide (text ∈ ["done"; "готово"; "готово✅"; "готово ✅"; "готово✅ "]).

Definition tinder_media_text (raw : string) : HM ConvState :=
  let text := str_lower (str_strip raw) in
  if is_done_text text then
    stored ← ud_read ud_tinder_media;
    if negb (truthy_list stored) then
      respond "tinder_media_prompt";; mret TINDER_MEDIA
    else respond "👍";; tinder_confirm
  else respond "tinder_media_more";; mret TINDER_MEDIA.

(** config.REFERRAL_BONUS *)
Definition REFERRAL_BONUS : Z := 50.

(** [tinder_save_cb] once the profile row is written: media, statistics,
    the referral bonus of a first profile, and where the user goes next. *)
Definition save_followup (user_id : Z) (is_new_profile : bool)
    (media : option (list (string * string))) : HM ConvState :=
  (if truthy_list media then
     db_exec (clear_profile_media user_id);;
     db_exec
       (fun st =>
          foldl
            (fun st '(idx, (fid, kind)) =>
               add_profile_media user_id fid kind (Z.of_nat idx) st)
            st (imap pair (default [] media)))
   else mret tt);;
  ud_exec (set_tinder_media None);;
  db_exec
    (increment_stat user_id
       (if is_new_profile then "profiles_created" else "profiles_updated") 1);;
  (if is_new_profile then
     '(referrer_id, credited) ← db_read (get_referrer user_id);
     match referrer_id with
     | Some r =>
         if truthy_int referrer_id && bool_decide (credited = Some 0) then
           _ ← db_call (adjust_balance user_id REFERRAL_BONUS);
           _ ← db_call (adjust_balance r REFERRAL_BONUS);
           db_exec (mark_referral_credited user_id);;
           db_exec (increment_stat r "referrals" 1);;
           db_exec (increment_stat user_id "referral_rewards" 1);;
           respond "referral_bonus_claimed"
         else mret tt
     | None => mret tt
     end
   else mret tt);;
  edit ← ud_read ud_tinder_edit_mode;
  if truthy_flag edit then
    ud_exec (set_tinder_edit_mode (Some false));;
    respond "tinder_saved";;
    tinder_edit_menu user_id
  else
    mode ← db_read get_mode;
    if bool_decide (mode = "vote") then
      sent ← send_next_candidate_card user_id;
      (if negb sent then respond "tinder_browse_empty_after_save"
       else mret tt);;
      mret END
    else respond "tinder_saved";; mret END.

(** [full_name] is [query.from_user.full_name]. *)
Definition tinder_save_cb (user_id : Z) (full_name : string) (now : Z)
  : HM ConvState :=
  u ← ud_read id;
  existing ← db_read (get_profile user_id);
  let is_new_profile := bool_decide (existing = None) in
  let age := or_int (ud_tinder_age u) (existing ≫= p_age) in
  let gender := or_str (ud_tinder_gender u) (existing ≫= p_gender) in
  let interest := or_str (ud_tinder_interest u) (existing ≫= p_interest) in
  let city := or_str (ud_tinder_city u) (existing ≫= p_city) in
  let norm_city :=
    or_str (ud_tinder_normalized_city u)
      (match existing with
       | Some e => p_normalized_city e
       | None => Some (normalize_city (default "" (or_str city (Some ""))))
       end) in
  let lat := first_some (ud_tinder_lat u) (existing ≫= p_lat) in
  let lon := first_some (ud_tinder_lon u) (existing ≫= p_lon) in
  let name :=
    or_str (ud_tinder_name u)
      (match existing with Some e => p_name e | None => Some full_name end) in
  let bio := or_str (ud_tinder_bio u) (existing ≫= p_bio) in
  if truthy_flag (ud_edit_for_submit u) then
    ud_exec
      (set_contest_profile
         (Some (draft_row age gender interest city norm_city lat lon name bio)));;
    (if truthy_list (ud_tinder_media u)
     then ud_exec (set_contest_media (Some (default [] (ud_tinder_media u))))
     else mret tt);;
    ud_exec (set_tinder_media None);;
    ud_exec (set_tinder_edit_mode (Some false));;
    respond "tinder_saved";;
    tinder_edit_menu user_id
  else
    db_exec
      (upsert_profile user_id age gender interest city lat lon name bio
         norm_city now);;
    save_followup user_id is_new_profile (ud_tinder_media u).

(** An update as the conversation handler sees it: a text message that
    is not a command, a location, a photo or a video (by file id), a
    button press with its callback data, or a command. *)
Inductive Update : Type :=
| Text (raw : string)
| Location (lat lon : Q)
| Photo (file_id : string)
| Video (file_id : string)
| CallbackQuery (data : string)
| Command (name : string).

(** [_, value = query.data.split(":")] behind a handler registered for
    the pattern [^<pre>]: the value after the prefix, or [ValueError] if
    it holds another colon.  [None]: the pattern does not match. *)
Definition callback_arg (pre data : string) : option (res string) :=
  if String.prefix pre data then
    let arg :=
      String.substring (String.length pre)
        (String.length data - String.length pre)%nat data in
    Some (if contains ":" arg then Raise ValueError else Ok arg)
  else None.

(** The [states] table of [tinder_conv] in [register_handlers]: the
    handler an update reaches in a state, if any. *)
Definition tinder_conv (user_id : Z) (full_name : string) (now : Z)
    (state : ConvState) (u : Update) : option (HM ConvState) :=
  match state, u with
  | TINDER_AGE, Text raw => Some (tinder_age raw)
  | TINDER_GENDER, CallbackQuery data =>
      (fun r => gender_value ← lift r;
                tinder_gender_cb user_id gender_value now)
      <$> callback_arg "tinder_gender:" data
  | TINDER_GENDER, Text raw => Some (tinder_gender_text user_id raw now)
  | TINDER_INTEREST, CallbackQuery data =>
      (fun r => interest_value ← lift r;
                tinder_interest_cb user_id interest_value now)
      <$> callback_arg "tinder_interest:" data
  | TINDER_INTEREST, Text raw => Some (tinder_interest_text user_id raw now)
  | TINDER_CITY, Location lat lon =>
      Some (tinder_city user_id (Some (lat, lon)) "" now)
  | TINDER_CITY, Text raw => Some (tinder_city user_id None raw now)
  | TINDER_NAME, Text raw => Some (tinder_name user_id raw now)
  | TINDER_BIO, Text raw => Some (tinder_bio user_id raw now)
  | TINDER_MEDIA, Photo fid => Some (tinder_media (Some fid) None)
  | TINDER_MEDIA, Video fid => Some (tinder_media None (Some fid))
  | TINDER_MEDIA, Text raw => Some (tinder_media_text raw)
  | TINDER_MEDIA, Command name =>
      if bool_decide (name = "done") then Some tinder_confirm else None
  | TINDER_CONFIRM, CallbackQuery data =>
      if bool_decide (data = "tinder:save")
      then Some (tinder_save_cb user_id full_name now)
      else if bool_decide (data = "tinder:edit")
      then Some (tinder_edit_menu user_id)
      else None
  | _, _ => None
  end.

End Flow.

End Handlers.

(** ** Reference definitions

    What the specification says, written down independently of the code,
    for the statements that compare the two. *)

Module Spec.

Import Game Db.

(** Card values before any ace is demoted: an ace is 11, a face card 10,
    a pip card its number. *)
Definition points_table : list (string * Z) :=
  [("A", 11); ("2", 2); ("3", 3); ("4", 4); ("5", 5); ("6", 6); ("7", 7);
   ("8", 8); ("9", 9); ("10", 10); ("J", 10); ("Q", 10); ("K", 10)].

Definition card_points (card : Card) : Z :=
  match list_find (fun e => e.1 = card_rank card) points_table with
  | Some (_, (_, v)) => v
  | None => 0
  end.

Definition is_ace (card : Card) : bool := bool_decide (card_rank card = "A").

Definition raw_total (hand : Hand) : Z :=
  foldr (fun c n => card_points c + n) 0 hand.

Definition ace_count (hand : Hand) : nat :=
  foldr (fun c n => if is_ace c then S n else n) 0%nat hand.

(** What a finished dealer turn looks like: the cards [drawn] came off the
    top of the deck in order, every hand on the way called for a card and
    the final hand does not. *)
Definition dealer_trace (hand : Hand) (deck : list Card)
    (hand' : Hand) (deck' : list Card) : Prop :=
  exists drawn : list Card,
    deck = deck' ++ reverse drawn
    ∧ hand' = hand ++ drawn
    ∧ (exists total is_soft,
          hand_value hand' = Ok (total, is_soft)
          ∧ dealer_draws total is_soft = false)
    ∧ (forall n : nat, (n < length drawn)%nat ->
         exists total is_soft,
           hand_value (hand ++ take n drawn) = Ok (total, is_soft)
           ∧ dealer_draws total is_soft = true).

(** A card of the standard deck. *)
Definition deck_card (card : Card) : Prop := card ∈ unshuffled_deck.

(** The ids in use never exceed the AUTOINCREMENT counter. *)
Definition matches_wf (st : Store) : Prop :=
  Forall (fun m => m_id m <= tinder_matches_seq st) (tinder_matches st).

(** A candidate the actor may be shown: an active profile that is not
    the actor's, that the actor has not swiped yet, whose gender the
    actor's interest admits ("Any" or equal) and whose interest admits the
    actor's gender ("Any" or equal). *)
Definition eligible (actor : Z) (actor_gender actor_interest : option string)
    (st : Store) (row : Z * Profile) : bool :=
  p_active row.2
  && negb (bool_decide (row.1 = actor))
  && negb (has_swiped actor row.1 st)
  && (sql_eq actor_interest (Some "Any") || sql_eq (p_gender row.2) actor_interest)
  && (sql_eq (p_interest row.2) (Some "Any")
      || sql_eq (p_interest row.2) actor_gender).

(** The candidates of [next_candidate], with or without the restriction to
    the actor's normalized locality. *)
Definition in_locality (locality : option string) (p : Profile) : bool :=
  match locality with
  | Some c => bool_decide (p_normalized_city p = Some c)
  | None => true
  end.

Definition candidates (actor : Z) (actor_gender actor_interest : option string)
    (locality : option string) (st : Store) : list (Z * Profile) :=
  filter
    (fun row =>
       eligible actor actor_gender actor_interest st row
       && in_locality locality row.2 = true)
    (map_to_list (tinder_profiles st)).

(** The most recently updated row of a list, as the query returns it. *)
Definition pick (rows : list (Z * Profile)) : option CandidateRow :=
  (fun r : Z * Profile => candidate_row r.1 r.2) <$> newest rows.

(** "Selection first restricts to candidates sharing the actor's
    normalized locality; if no candidate satisfies the locality-scoped
    query, the query is re-run without the locality restriction." *)
Definition next_candidate (actor : Z) (actor_gender actor_interest : option string)
    (actor_locality : string) (st : Store) : option CandidateRow :=
  match pick (candidates actor actor_gender actor_interest (Some actor_locality) st) with
  | Some row => Some row
  | None => pick (candidates actor actor_gender actor_interest None st)
  end.

(** The balance a read of the wallet returns (20 for a user without a
    wallet row, which the read creates). *)
Definition balance_of (user_id : Z) (st : Store) : Z :=
  (get_balance user_id st).1.

(** Nothing observable changed in the database: every table but
    [user_wallets] is the same, and every user's balance reads the same.
    (A read of a balance may have created the default wallet row.) *)
Definition unchanged (st st' : Store) : Prop :=
  (forall u, balance_of u st' = balance_of u st)
  ∧ user_stats st' = user_stats st
  ∧ blackjack_sessions st' = blackjack_sessions st
  ∧ blackjack_boosts st' = blackjack_boosts st
  ∧ tinder_swipes st' = tinder_swipes st
  ∧ tinder_matches st' = tinder_matches st
  ∧ tinder_profiles st' = tinder_profiles st
  ∧ Db.tinder_media st' = Db.tinder_media st
  ∧ referrals st' = referrals st
  ∧ settings st' = settings st.

(** How a round ends once both hands are final. *)
Inductive Outcome : Set := PlayerBust | PlayerWin | Push | DealerWin.

(** [forced] is the admin boost turning a dealer win or tie into a dealer
    bust. *)
Definition outcome_of (player_total dealer_total : Z) (forced : bool) : Outcome :=
  if 21 <? player_total then PlayerBust
  else if forced || (21 <? dealer_total) || (dealer_total <? player_total)
  then PlayerWin
  else if player_total =? dealer_total then Push
  else DealerWin.

(** The boost test of [resolve_blackjack_outcome]. *)
Definition forced_bust (boost rnd : Q) (player_total dealer_total : Z) : bool :=
  Handlers.Qltb 0 boost
  && (player_total <=? 21)
  && (player_total <=? dealer_total)
  && (dealer_total <=? 21)
  && Handlers.Qltb rnd boost.

(** What the wallet is credited at resolution. *)
Definition payout (bet : Z) (o : Outcome) : Z :=
  match o with
  | PlayerWin => 2 * bet
  | Push => bet
  | PlayerBust | DealerWin => 0
  end.

(** The credit as the code books it. *)
Definition credit (user_id bet : Z) (o : Outcome) (st : Store) : Store :=
  match o with
  | PlayerWin => (adjust_balance user_id (bet * 2) st).2
  | Push => (adjust_balance user_id bet st).2
  | PlayerBust | DealerWin => st
  end.

(** The world after one more message and nothing else. *)
Definition replied (key : string) (w : Handlers.World) : Handlers.World :=
  Handlers.mkWorld (Handlers.db w) (Handlers.user_data w)
    (Handlers.sent w ++ [key]).

(** The validators of the profile flow: the hint with which a step turns
    an update down, [None] if it sends none: the step takes the update,
    or, at the age step, the text passes [isdigit] and [int] raises on
    it, and [tinder_age] raises with it.  [has_media] tells whether the
    draft already holds a photo or video. *)
Definition rejection (str_strip str_lower : string -> string)
    (str_isdigit : string -> bool) (str_int : string -> res Z)
    (t_done_button : string) (has_media : bool)
    (state : Handlers.ConvState) (u : Handlers.Update) : option string :=
  match state, u with
  | Handlers.TINDER_AGE, Handlers.Text raw =>
      if negb (str_isdigit (str_strip raw)) then Some "age_not_number"
      else match str_int (str_strip raw) with
           | Ok age =>
               if (age <? 18) || (120 <? age) then Some "age_invalid" else None
           | Raise _ => None
           end
  | Handlers.TINDER_GENDER, Handlers.Text raw =>
      match Handlers.gender_of_text (str_lower raw) with
      | None => Some "gender_invalid_choice"
      | Some _ => None
      end
  | Handlers.TINDER_MEDIA, Handlers.Text raw =>
      if Handlers.is_done_text str_lower t_done_button
           (str_lower (str_strip raw))
      then if has_media then None else Some "tinder_media_prompt"
      else Some "tinder_media_more"
  | _, _ => None
  end.

(** A handler keeps a property of the database. *)
Definition preserves {A} (P : Store -> Prop) (m : Handlers.HM A) : Prop :=
  forall w, P (Handlers.db w) -> P (Handlers.db (Handlers.world_of (m w))).

(** The three moves of a round in progress. *)
Inductive Action : Set := Hit | Stand | Double.

Definition run_action (a : Action) (user_id : Z) (rnd : Q) : Handlers.HM unit :=
  match a with
  | Hit => Handlers.blackjack_hit user_id
  | Stand => Handlers.blackjack_stand user_id rnd
  | Double => Handlers.blackjack_double user_id rnd
  end.

(** C4 as the specification words it: a bet placed while a session is
    stored starts no new round, so the stored session stays as it is. *)
Definition bet_gated : Prop :=
  forall (user_id bet : Z) (shuffled : list Card) (w : Handlers.World)
         (s : Session),
    load_blackjack_session user_id (Handlers.db w) = Some s ->
    load_blackjack_session user_id
      (Handlers.db
         (Handlers.world_of
            (Handlers.handle_bet_selection user_id bet shuffled w)))
    = Some s.

(** C5 as the specification words it: a move that fails on an exhausted
    deck has debited nothing. *)
Definition exhausted_deck_safe : Prop :=
  forall (a : Action) (user_id : Z) (rnd : Q) (w w' : Handlers.World),
    run_action a user_id rnd w = Handlers.Raised IndexError w' ->
    balance_of user_id (Handlers.db w') = balance_of user_id (Handlers.db w).

End Spec.

(** ** Concrete stores used by the examples below *)

Module Examples.

Import Game Db Handlers.

(** User 2 has liked user 1. *)
Definition liked_back : Store := mark_swipe 2 1 "like" empty_store.

Definition profile_in (city : string) (updated : Z) : Profile :=
  mkProfile (Some 25) (Some "Female") (Some "Any") (Some city) (Some city)
    None None (Some "n") None true 0 updated.

(** Two active profiles: user 5 without a locality, user 7 in "kyiv" and
    more recently updated. *)
Definition two_profiles : Store :=
  with_profiles
    (fun _ => <[5 := profile_in "" 1]> (<[7 := profile_in "kyiv" 2]> ∅))
    empty_store.

(** A user whose dictionary holds nothing yet. *)
Definition fresh_user : UserData :=
  mkUserData None None None None None None None None None None None None
    None None None None None.

(** User 1 holds 100 points and has been asked for a bet. *)
Definition table_100 : World :=
  mkWorld (with_wallets <[1 := mkWallet 100 None]> empty_store)
    (set_bj_pending (Some true) fresh_user) [].

(** Decks as [build_deck] could return them, top card last: the player
    gets the last two cards, the dealer the two before. *)
Definition deck_tail : list Card := ["2H"; "3H"; "4H"; "5H"].
Definition win_deck : list Card := deck_tail ++ ["8D"; "9D"; "9S"; "10S"].
Definition push_deck : list Card := deck_tail ++ ["9D"; "10D"; "9S"; "10S"].
Definition loss_deck : list Card := deck_tail ++ ["9D"; "10D"; "7S"; "10S"].

(** User 1 holds 100 points and a stored round whose deck has run out. *)
Definition exhausted_session : Session :=
  mkSession [] ["10S"; "6S"] ["9D"; "7D"] 10 "active".

Definition exhausted_table : World :=
  mkWorld
    (with_sessions <[1 := exhausted_session]>
       (with_wallets <[1 := mkWallet 100 None]> empty_store))
    fresh_user [].

(** Two active profiles: user 5 in "kyiv", user 7 in "lviv" and more
    recently updated. *)
Definition local_and_remote : Store :=
  with_profiles
    (fun _ => <[5 := profile_in "kyiv" 1]> (<[7 := profile_in "lviv" 2]> ∅))
    empty_store.

(** One active profile, user 7 in "kyiv". *)
Definition one_profile : Store :=
  with_profiles (fun _ => <[7 := profile_in "kyiv" 2]> ∅) empty_store.

End Examples.

(** ** SQLite integers *)

Module Sqlite.

(** A column of type INTEGER holds a signed 64-bit integer.  sqlite3
    refuses to bind a Python [int] outside that range ([OverflowError]),
    and SQL arithmetic that leaves it answers with a REAL.  The functions
    of [Db] compute in [Z]: they are the code as long as every number
    bound to a statement or stored by it is in this range. *)
Definition int64 (z : Z) : Prop := - 2 ^ 63 <= z < 2 ^ 63.

End Sqlite.

(** ** Python strings beyond ASCII *)

Module Latin1.

(** A Python string is held as its UTF-8 bytes.  [isdigit] is
    [str.isdigit] on texts whose characters are below U+0100: besides the
    ASCII digits that range has the three superscript digits U+00B9,
    U+00B2 and U+00B3 (in UTF-8 the byte C2 and then B9, B2 or B3), which
    [str.isdigit] accepts and [int] refuses. *)
Definition is_superscript_digit (b : Ascii.ascii) : bool :=
  let n := Ascii.N_of_ascii b in
  ((n =? 178) || (n =? 179) || (n =? 185))%N.

Fixpoint all_digits (s : string) : bool :=
  match s with
  | EmptyString => true
  | String a s' =>
      match Py.digit_of a with
      | Some _ => all_digits s'
      | None =>
          if (Ascii.N_of_ascii a =? 194)%N then
            match s' with
            | String b s'' => is_superscript_digit b && all_digits s''
            | EmptyString => false
            end
          else false
      end
  end.

Definition isdigit (s : string) : bool :=
  match s with
  | EmptyString => false
  | String _ _ => all_digits s
  end.

End Latin1.

(** ** Reference values of the card engine *)

Module Rules.

Import Game Spec.

(** The value of a card when every ace counts as 1. *)
Definition low_points (card : Card) : Z :=
  if is_ace card then 1 else card_points card.

(** The total of a hand with every ace at 1. *)
Definition hard_total (hand : Hand) : Z :=
  foldr (fun c n => low_points c + n) 0 hand.

Definition has_ace (hand : Hand) : bool := existsb is_ace hand.

(** A hand is soft when one ace can count as 11 without going over 21. *)
Definition soft (hand : Hand) : bool := has_ace hand && (hard_total hand <=? 11).

(** The best total of a hand: the highest total that stays at or below
    21 if there is one, the lowest total otherwise. *)
Definition best_total (hand : Hand) : Z :=
  if soft hand then hard_total hand + 10 else hard_total hand.

(** A card worth ten points. *)
Definition is_ten (card : Card) : bool := card_points card =? 10.

End Rules.

(** ** Rounds of blackjack as play produces them *)

Module Rounds.

Import Game Db Handlers Spec Rules Sqlite.

(** A stored round that came out of a deal and some hits: all cards are
    deck cards, the dealer holds two, the 50 cards that did not go to the
    dealer are in the deck or in the player's hand, and the player has not
    gone over 21. *)
Definition live_round (s : Session) : Prop :=
  Forall deck_card (deck s)
  ∧ Forall deck_card (player_hand s)
  ∧ Forall deck_card (dealer_hand s)
  ∧ length (dealer_hand s) = 2%nat
  ∧ (length (deck s) + length (player_hand s) = 50)%nat
  ∧ best_total (player_hand s) <= 21.

Definition tables_live (st : Store) : Prop :=
  forall u s, load_blackjack_session u st = Some s -> live_round s.

(** What a user can do at the table: place a bet, on which the deck
    [shuffled] is dealt, or make one of the three moves. *)
Inductive Move : Type :=
| Bet (user_id : Z) (bet : Z) (shuffled : list Card)
| Act (user_id : Z) (a : Action) (rnd : Q).

(** The shuffle returned the deck in some order. *)
Definition fair (m : Move) : Prop :=
  match m with
  | Bet _ _ shuffled => shuffled ≡ₚ unshuffled_deck
  | Act _ _ _ => True
  end.

Definition run_move (m : Move) : HM unit :=
  match m with
  | Bet user_id bet shuffled => handle_bet_selection user_id bet shuffled
  | Act user_id a rnd => run_action a user_id rnd
  end.

Fixpoint play (ms : list Move) : HM unit :=
  match ms with
  | [] => mret tt
  | m :: ms => run_move m;; play ms
  end.

(** The amounts on the table: every balance is within [B] of zero and
    every stake of a stored round within [M]. *)
Definition within (B M : Z) (st : Store) : Prop :=
  0 <= M
  ∧ 20 <= B
  ∧ (forall v, Z.abs (balance_of v st) <= B)
  ∧ (forall v s, load_blackjack_session v st = Some s -> Z.abs (bet s) <= M).

(** A move whose user id SQLite can hold and whose stake, if it is a
    bet, is within [M]. *)
Definition modest (M : Z) (m : Move) : Prop :=
  match m with
  | Bet user_id bet _ => int64 user_id ∧ Z.abs bet <= M
  | Act user_id _ _ => int64 user_id
  end.
End Rounds.

(** ** Tables used by the examples of the moves *)

Module Deals.

Import Game Db Handlers Examples.

(** The deck in the order [build_deck] lists it, dealt unshuffled: the
    player gets K♠ K♣, the dealer K♦ K♥. *)
Definition kings_table : World :=
  world_of (handle_bet_selection 1 10 unshuffled_deck table_100).

(** The same deck reversed: the player gets A♥ A♦, the dealer A♣ A♠. *)
Definition aces_table : World :=
  world_of (handle_bet_selection 1 10 (reverse unshuffled_deck) table_100).

(** The table after one hit on [aces_table]: the player holds three
    cards. *)
Definition aces_hit_table : World := world_of (blackjack_hit 1 aces_table).

End Deals.

(** ** db.py and handlers.py: the daily check-in *)

Module Wallets.

Import Game Db Handlers.

(** [record_checkin]: [today] is [date.today().isoformat()] as the
    function reads it. *)
Definition record_checkin (user_id : Z) (today : string) (st : Store)
  : Z * Store :=
  let st := ensure_wallet user_id st in
  let st :=
    with_wallets
      (alter (fun w => mkWallet (balance w + 5) (Some today)) user_id) st in
  (match user_wallets st !! user_id with
   | Some w => balance w
   | None => 0
   end, st).

(** [handle_checkin] reads the date itself ([today]) before
    [record_checkin] reads it again ([today_recorded]). *)
Definition handle_checkin (user_id : Z) (today today_recorded : string)
  : HM unit :=
  last ← db_call (get_last_checkin user_id);
  if bool_decide (last = Some today) then respond "checkin_already"
  else
    _ ← db_call (record_checkin user_id today_recorded);
    game_menu_markup user_id;;
    respond "checkin_success".

(** The last check-in a read of the wallet returns. *)
Definition last_checkin_of (user_id : Z) (st : Store) : option string :=
  (get_last_checkin user_id st).1.

End Wallets.

(** ** db.py: the rest of the dating tables *)

Module Finder.

Import Game Db.

(** [ORDER BY key LIMIT 1]: a row with the least key, the first such row
    of the scan among equals. *)
Fixpoint least {A} (key : A -> Z) (rows : list A) : option A :=
  match rows with
  | [] => None
  | r :: rows' =>
      match least key rows' with
      | Some r' => if key r <=? key r' then Some r else Some r'
      | None => Some r
      end
  end.

(** [ORDER BY key DESC]: the rows by falling key.  Rows with the same
    key stay in the order of the scan; SQLite fixes no order among
    them, and the theorems do not depend on it. *)
Fixpoint insert_desc {A} (key : A -> Z) (r : A) (rows : list A) : list A :=
  match rows with
  | [] => [r]
  | r' :: rows' =>
      if key r' <=? key r then r :: r' :: rows'
      else r' :: insert_desc key r rows'
  end.

Definition order_by_desc {A} (key : A -> Z) (rows : list A) : list A :=
  foldr (insert_desc key) [] rows.

(** [users_who_liked_me].  [created_at] is the column of that name, which
    the record of a swipe does not carry: the time stamp SQLite gave the
    row when it was inserted. *)
Definition users_who_liked_me (created_at : Swipe -> Z)
    (user_id : Z) (st : Store) : list Z :=
  s_user
  <$> order_by_desc created_at
        (filter
           (fun s => s_target s = user_id
                     ∧ s_status s = "like"
                     ∧ has_swiped user_id (s_user s) st = false)
           (tinder_swipes st)).

Definition reset_swipes_for_user (user_id : Z) (st : Store) : Store :=
  let st :=
    with_swipes (filter (fun s => s_user s ≠ user_id) (tinder_swipes st))
      (tinder_swipes_seq st) st in
  with_matches
    (filter (fun m => ¬ (user_a m = user_id ∨ user_b m = user_id))
       (tinder_matches st))
    (tinder_matches_seq st) st.

(** [SELECT user_id FROM tinder_profiles WHERE user_id > ? ORDER BY
    user_id LIMIT 1]. *)
Definition get_next_profile_id (current_id : Z) (st : Store) : option Z :=
  fst <$> least fst
            (filter (fun r => current_id < r.1)
               (map_to_list (tinder_profiles st))).

(** [... WHERE user_id < ? ORDER BY user_id DESC LIMIT 1]. *)
Definition get_prev_profile_id (current_id : Z) (st : Store) : option Z :=
  fst <$> least (fun r => - r.1)
            (filter (fun r => r.1 < current_id)
               (map_to_list (tinder_profiles st))).

End Finder.

(** ** db.py: the contest tables *)

Module Contest.

Import Game Db Finder.

(** [candidates (id AUTOINCREMENT, user_id, name NOT NULL, age, gender,
    instagram, photo_file_id NOT NULL, approved DEFAULT 0)]. *)
Record Candidate := mkCandidate {
  c_id : Z;
  c_user : Z;
  c_name : string;
  c_age : option Z;
  c_gender : option string;
  c_instagram : option string;
  c_photo : string;
  c_approved : Z;
}.

(** [votes (id AUTOINCREMENT, user_id, candidate_id, rating NOT NULL,
    created_at)]. *)
Record Vote := mkVote {
  v_id : Z;
  v_user : Z;
  v_candidate : Z;
  v_rating : Z;
}.

Record Tables := mkTables {
  candidates : list Candidate;
  candidates_seq : Z;
  votes : list Vote;
  votes_seq : Z;
}.

(** The functions below work on the store of [Db] and on these tables. *)
Definition Database : Type := Store * Tables.

Definition with_candidates (rows : list Candidate) (seq : Z) (t : Tables) :=
  mkTables rows seq (votes t) (votes_seq t).

Definition with_votes (rows : list Vote) (seq : Z) (t : Tables) :=
  mkTables (candidates t) (candidates_seq t) rows seq.

Definition has_voted (user_id candidate_id : Z) (t : Tables) : bool :=
  existsb
    (fun v => bool_decide (v_user v = user_id)
              && bool_decide (v_candidate v = candidate_id))
    (votes t).

Definition add_vote (user_id candidate_id rating : Z) (d : Database)
  : bool * Database :=
  let '(st, t) := d in
  if has_voted user_id candidate_id t then (false, d)
  else
    let id := votes_seq t + 1 in
    let t := with_votes (votes t ++ [mkVote id user_id candidate_id rating]) id t in
    (true, (increment_stat user_id "votes_cast" 1 st, t)).

Definition has_candidate_for_user (user_id : Z) (t : Tables) : bool :=
  existsb (fun c => bool_decide (c_user c = user_id)) (candidates t).

(** [upsert_candidate_from_profile]: [SELECT id FROM candidates WHERE
    user_id = ?] takes the first row of the scan; the update resets the
    approval. *)
Definition upsert_candidate_from_profile (user_id : Z) (name : string)
    (age : option Z) (gender : option string) (file_id : string)
    (instagram : option string) (d : Database) : Database :=
  let '(st, t) := d in
  match head (filter (fun c => c_user c = user_id) (candidates t)) with
  | Some row =>
      let cid := c_id row in
      (st,
       with_candidates
         ((fun c =>
             if bool_decide (c_id c = cid) then
               mkCandidate (c_id c) (c_user c) name age gender instagram
                 file_id 0
             else c)
          <$> candidates t)
         (candidates_seq t) t)
  | None =>
      let id := candidates_seq t + 1 in
      let t :=
        with_candidates
          (candidates t
           ++ [mkCandidate id user_id name age gender instagram file_id 0])
          id t in
      (increment_stat user_id "candidates_submitted" 1 st, t)
  end.

(** [AND gender = ?], spliced in [if target_gender]. *)
Definition gender_clause (target_gender : option string) (c : Candidate)
  : bool :=
  if Handlers.truthy_str target_gender
  then sql_eq (c_gender c) target_gender else true.

(** [get_next_unrated_candidate]: the parameters are the gender, if the
    clause is there, and then the user, in the order of the placeholders. *)
Definition get_next_unrated_candidate (user_id : Z)
    (target_gender : option string) (t : Tables) : option Candidate :=
  least c_id
    (filter
       (fun c =>
          c_approved c = 1
          ∧ gender_clause target_gender c = true
          ∧ has_voted user_id (c_id c) t = false)
       (candidates t)).

(** [delete_full_profile]: the dating data and the contest data of one
    user. *)
Definition delete_full_profile (user_id : Z) (d : Database) : Database :=
  let '(st, t) := d in
  let st := with_media (filter (fun m => md_user m ≠ user_id)) st in
  let st :=
    with_swipes
      (filter (fun s => ¬ (s_user s = user_id ∨ s_target s = user_id))
         (tinder_swipes st))
      (tinder_swipes_seq st) st in
  let st :=
    with_matches
      (filter (fun m => ¬ (user_a m = user_id ∨ user_b m = user_id))
         (tinder_matches st))
      (tinder_matches_seq st) st in
  let st := with_profiles (delete user_id) st in
  let t :=
    with_candidates (filter (fun c => c_user c ≠ user_id) (candidates t))
      (candidates_seq t) t in
  let t :=
    with_votes (filter (fun v => v_user v ≠ user_id) (votes t)) (votes_seq t) t in
  (st, t).

End Contest.

(** ** db.py: modes and feature flags *)

Module Settings.

Import Db.

Definition with_settings (f : gmap string string -> gmap string string)
    (st : Store) :=
  mkStore (user_wallets st) (user_stats st) (blackjack_sessions st)
    (blackjack_boosts st) (tinder_swipes st) (tinder_swipes_seq st)
    (tinder_matches st) (tinder_matches_seq st) (tinder_profiles st)
    (tinder_media st) (referrals st) (f (settings st)).

(** [INSERT INTO settings ... ON CONFLICT(key) DO UPDATE]. *)
Definition set_mode (mode : string) (st : Store) : Store :=
  with_settings <["mode" := mode]> st.

Definition set_feature_enabled (name : string) (enabled : bool) (st : Store)
  : Store :=
  with_settings <["feature:" +:+ name := if enabled then "on" else "off"]> st.

End Settings.

(** ** config.py, db.py and helpers.py: who is an admin *)

Module Admins.

Import Db Handlers.

(** config.ADMIN_ID *)
Definition ADMIN_ID : Z := 276784395.

(** The two module-level variables of config.py that change at run
    time. *)
Record Config := mkConfig {
  ADMIN_GUEST_MODE : bool;
  GUEST_PHANTOM_ID : option Z;
}.

(** [admin_users (user_id PRIMARY KEY)]. *)
Definition is_admin_user (user_id : Z) (admin_users : gset Z) : bool :=
  bool_decide (user_id ∈ admin_users).

(** [INSERT OR IGNORE INTO admin_users]. *)
Definition add_admin_user (user_id : Z) (admin_users : gset Z) : gset Z :=
  {[user_id]} ∪ admin_users.

Definition remove_admin_user (user_id : Z) (admin_users : gset Z) : gset Z :=
  admin_users ∖ {[user_id]}.

(** helpers.is_admin *)
Definition is_admin (c : Config) (admin_users : gset Z) (user_id : Z) : bool :=
  if ADMIN_GUEST_MODE c then false
  else if bool_decide (user_id = ADMIN_ID) then true
  else is_admin_user user_id admin_users.

(** config.BOOST_BONUS *)
Definition BOOST_BONUS : Z := 50.

(** A Python float: a finite number, an infinity or a NaN.  A finite
    float is the rational it stands for. *)
Inductive pyfloat : Type :=
| Finite (q : Q)
| PlusInf
| MinusInf
| NaN.

(** [x < y] on floats: every comparison with a NaN is false. *)
Definition float_lt (x y : pyfloat) : bool :=
  match x, y with
  | NaN, _ | _, NaN => false
  | Finite a, Finite b => Qltb a b
  | MinusInf, MinusInf => false
  | MinusInf, _ => true
  | _, MinusInf => false
  | PlusInf, _ => false
  | Finite _, PlusInf => true
  end.

(** [min(x, y)] and [max(x, y)] on two arguments: the first argument
    stays unless the second is strictly smaller (greater). *)
Definition float_min (x y : pyfloat) : pyfloat := if float_lt y x then y else x.
Definition float_max (x y : pyfloat) : pyfloat := if float_lt x y then y else x.

Definition with_boosts (f : gmap Z (option Q) -> gmap Z (option Q))
    (st : Store) :=
  mkStore (user_wallets st) (user_stats st) (blackjack_sessions st)
    (f (blackjack_boosts st)) (tinder_swipes st) (tinder_swipes_seq st)
    (tinder_matches st) (tinder_matches_seq st) (tinder_profiles st)
    (Db.tinder_media st) (referrals st) (settings st).

(** [INSERT INTO blackjack_boosts ... ON CONFLICT(user_id) DO UPDATE]. *)
Definition set_blackjack_boost (user_id : Z) (boost : Q) (st : Store) : Store :=
  with_boosts <[user_id := Some boost]> st.

Section Commands.

(** [int(s)] and [float(s)] on a command argument; [None] is the
    [ValueError] the commands catch. *)
Variable str_int : string -> option Z.
Variable str_float : string -> option pyfloat.

(** The configuration and the admin table as the command finds them;
    [sender] is [update.effective_user.id], [args] is [context.args]. *)
Variables (c : Config) (admin_users : gset Z) (sender : Z).

(** The tables [users] and [user_profiles] are not part of [Store]:
    [Registry] stands for their content, and [ensure_user_context] for
    what the function of that name does to them for the update at hand
    (it records the sender in [users] and seeds the language in
    [user_profiles]; it touches no other table).  Every command calls it
    first, before it looks at who the sender is. *)
Context {Registry : Type}.
Variable ensure_user_context : Registry -> Registry.

(** [x / y] on two floats, [y] not zero: the float the division
    returns, which is the quotient rounded. *)
Variable float_div : Q -> Q -> Q.

(** [blackjack_boost_cmd].  The clamped percentage is finite whatever
    was typed, so the fraction stored is a number. *)
Definition blackjack_boost_cmd (args : list string) (reg : Registry)
    (w : World) : Registry * Result unit :=
  let reg := ensure_user_context reg in
  (reg,
   (if negb (is_admin c admin_users sender) then mret tt
    else
      match args with
      | [a0; a1] =>
          match str_int a0, str_float a1 with
          | Some target_id, Some pct =>
              let pct := float_max (Finite 0) (float_min pct (Finite 100)) in
              match pct with
              | Finite pct =>
                  db_exec (set_blackjack_boost target_id (float_div pct 100));;
                  respond "bj_boost_set"
              | _ => respond "bj_boost_set"
              end
          | Some _, None | None, _ => respond "bj_boost_usage"
          end
      | _ => respond "bj_boost_usage"
      end) w).

(** [grant_boost_points_cmd]; the message to the recipient is sent
    under [try] and is not recorded. *)
Definition grant_boost_points_cmd (args : list string) (reg : Registry)
    (w : World) : Registry * Result unit :=
  let reg := ensure_user_context reg in
  (reg,
   (if negb (is_admin c admin_users sender) then mret tt
    else
      match args with
      | [a0; a1] =>
          match str_int a0, str_int a1 with
          | Some target_id, Some boosts =>
              if boosts <=? 0 then respond "grant_boost_usage"
              else
                let points := boosts * BOOST_BONUS in
                _ ← db_call (adjust_balance target_id points);
                db_exec (increment_stat target_id "boosts_credited" boosts);;
                respond "grant_boost_ok"
          | Some _, None | None, _ => respond "grant_boost_usage"
          end
      | _ => respond "grant_boost_usage"
      end) w).

(** [give_points_cmd]: at least two arguments, any amount. *)
Definition give_points_cmd (args : list string) (reg : Registry)
    (w : World) : Registry * Result unit :=
  let reg := ensure_user_context reg in
  (reg,
   (if negb (is_admin c admin_users sender) then mret tt
    else
      match args with
      | a0 :: a1 :: _ =>
          match str_int a0, str_int a1 with
          | Some target_id, Some delta =>
              _ ← db_call (adjust_balance target_id delta);
              respond "admin_points_given"
          | Some _, None | None, _ => respond "user_id_must_be_number"
          end
      | _ => respond "Usage: /givepoints <user_id> <amount>"
      end) w).

End Commands.

End Admins.

(** ** db.py: referrals *)

Module Referrals.

Import Db.

(** [set_referrer]: [INSERT ... ON CONFLICT(user_id) DO NOTHING], and
    nothing at all for a user who names themselves. *)
Definition set_referrer (user_id referrer_id : Z) (st : Store) : Store :=
  if bool_decide (user_id = referrer_id) then st
  else
    match referrals st !! user_id with
    | Some _ => st
    | None => with_referrals <[user_id := (Some referrer_id, 0)]> st
    end.

End Referrals.

(** ** db.py: the gift-draw numbers *)

Module Santa.

(** [secret_santa (gift_number PRIMARY KEY AUTOINCREMENT, user_id UNIQUE,
    name, instagram, gift_photo_id, assigned_at)]. *)
Record Row := mkRow {
  gift_number : Z;
  user_id : Z;
  name : option string;
  gift_photo_id : option string;
}.

Record Table := mkTable {
  rows : list Row;
  seq : Z;
}.

(** What a statement that violates a constraint raises. *)
Inductive outcome (A : Type) : Type :=
| Done (a : A)
| IntegrityError.
Arguments Done {A} a.
Arguments IntegrityError {A}.

Definition get_santa_number_for_user (uid : Z) (t : Table) : option Z :=
  gift_number <$> head (filter (fun r => user_id r = uid) (rows t)).

(** [INSERT INTO secret_santa (user_id) VALUES (?)]: refused if the user
    already has a row, since [user_id] is UNIQUE. *)
Definition insert_user (uid : Z) (t : Table) : outcome Table :=
  if existsb (fun r => bool_decide (user_id r = uid)) (rows t)
  then IntegrityError
  else
    let n := seq t + 1 in
    Done (mkTable (rows t ++ [mkRow n uid None None]) n).

(** [assign_secret_santa_number]: [if existing] is false for [None] and
    for the number 0. *)
Definition assign_secret_santa_number (uid : Z) (t : Table)
  : outcome (option Z * Table) :=
  match get_santa_number_for_user uid t with
  | Some n =>
      if negb (n =? 0) then Done (Some n, t)
      else
        match insert_user uid t with
        | Done t' => Done (get_santa_number_for_user uid t', t')
        | IntegrityError => IntegrityError
        end
  | None =>
      match insert_user uid t with
      | Done t' => Done (get_santa_number_for_user uid t', t')
      | IntegrityError => IntegrityError
      end
  end.

(** The table as inserts through AUTOINCREMENT leave it: numbers run
    from 1 to the counter and no user has two rows. *)
Definition table_wf (t : Table) : Prop :=
  0 <= seq t
  ∧ Forall (fun r => 1 <= gift_number r <= seq t) (rows t)
  ∧ NoDup (user_id <$> rows t)
  ∧ NoDup (gift_number <$> rows t).

End Santa.

(** ** helpers.py *)

Module Helpers.

Section Text.

(** A Python string is a sequence of code points; [isspace] is
    [str.isspace] on one of them and [space] is U+0020. *)
Context {char : Type}.
Variable isspace : char -> bool.
Variable space : char.

(** [s.split()]: the maximal runs of characters that are not white
    space.  [cur] is the run being read, last character first. *)
Fixpoint split_from (s : list char) (cur : list char) : list (list char) :=
  match s with
  | [] => match cur with [] => [] | _ :: _ => [reverse cur] end
  | ch :: s' =>
      if isspace ch then
        match cur with
        | [] => split_from s' []
        | _ :: _ => reverse cur :: split_from s' []
        end
      else split_from s' (ch :: cur)
  end.

Definition split (s : list char) : list (list char) := split_from s [].

(** [" ".join(parts)] *)
Fixpoint join (parts : list (list char)) : list char :=
  match parts with
  | [] => []
  | [p] => p
  | p :: parts' => p ++ space :: join parts'
  end.

(** A word: at least one character, none of them white space. *)
Definition word (p : list char) : Prop :=
  p ≠ [] ∧ Forall (fun c => isspace c = false) p.

(** [split_name]: [parts[0]] raises [IndexError] when there is no
    part. *)
Definition split_name (full_name : list char) : res (list char * list char) :=
  match split full_name with
  | [] => Raise IndexError
  | first :: rest =>
      if bool_decide (2 <= length (first :: rest))%nat
      then Ok (first, join rest)
      else Ok (first, [])
  end.

End Text.

End Helpers.

(** ** The draft of the profile flow *)

Module Draft.

Import Handlers.


End Draft.

(** * Properties *)

(** Unfolds the plumbing of [HM], leaving the database calls. *)
Ltac hm_run :=
  repeat
    (progress
       (unfold mbind, mret, Handlers.HM_bind, Handlers.HM_ret,
          Handlers.db_call, Handlers.db_exec, Handlers.db_read,
          Handlers.ud_read, Handlers.ud_exec, Handlers.respond,
          Handlers.lift, Handlers.game_menu_markup;
        cbn [Handlers.db Handlers.user_data Handlers.sent
               Handlers.world_of])).

(** ** The card engine *)

Section CardEngine.

Import Game Spec.

Lemma pop_snoc {A} (l : list A) (x : A) : Py.pop (l ++ [x]) = Ok (x, l).
Proof.
  induction l as [|y l IH]; [reflexivity|].
  cbn [app Py.pop]. rewrite IH.
  destruct l; reflexivity.
Qed.

Lemma pop_Ok_inv {A} (l l' : list A) (x : A) :
  Py.pop l = Ok (x, l') -> l = l' ++ [x].
Proof.
  destruct l as [|y l0] using rev_ind; [discriminate|].
  rewrite pop_snoc. congruence.
Qed.

Lemma pop_Raise_inv {A} (l : list A) (e : exn) :
  Py.pop l = Raise e -> l = [] ∧ e = IndexError.
Proof.
  destruct l as [|y l0] using rev_ind.
  - cbn. intros [= <-]. done.
  - rewrite pop_snoc. discriminate.
Qed.

Lemma draw_card_snoc (deck : list Card) (c : Card) :
  draw_card (deck ++ [c]) = Ok (c, deck).
Proof. apply pop_snoc. Qed.

Lemma draw_card_nil : draw_card [] = Raise IndexError.
Proof. reflexivity. Qed.

(** The loop of [dealer_play] as the source writes it: value the hand,
    and either stop or pop the deck and go round again. *)
Lemma dealer_play_unfold (hand : Hand) (deck : list Card) :
  dealer_play hand deck =
  match hand_value hand with
  | Raise e => Raise e
  | Ok (total, is_soft) =>
      if dealer_draws total is_soft then
        match draw_card deck with
        | Raise e => Raise e
        | Ok (c, deck') => dealer_play (hand ++ [c]) deck'
        end
      else Ok (hand, deck)
  end.
Proof.
  unfold dealer_play.
  destruct deck as [|c deck _] using rev_ind.
  - cbn. destruct (hand_value hand) as [[total soft]|e]; [|done].
    destruct (dealer_draws total soft); done.
  - rewrite draw_card_snoc, reverse_snoc. cbn [dealer_loop].
    destruct (hand_value hand) as [[total soft]|e]; [|done].
    destruct (dealer_draws total soft); [done|].
    by rewrite <- reverse_snoc, reverse_involutive.
Qed.

(** One round of the [for] loop on a card of the deck. *)
Lemma hand_sum_deck_card (c : Card) :
  deck_card c ->
  forall rest total aces,
    hand_sum (c :: rest) total aces =
    hand_sum rest (total + card_points c) (if is_ace c then S aces else aces).
Proof.
  unfold deck_card. revert c.
  apply (proj1 (Forall_forall
    (fun c => forall rest total aces,
       hand_sum (c :: rest) total aces =
       hand_sum rest (total + card_points c) (if is_ace c then S aces else aces))
    unshuffled_deck)).
  let l := eval vm_compute in unshuffled_deck in change unshuffled_deck with l.
  repeat (apply Forall_cons_2; [intros rest total aces; reflexivity|]).
  apply Forall_nil_2.
Qed.

Lemma hand_sum_spec (hand : Hand) :
  Forall deck_card hand ->
  forall total aces,
    hand_sum hand total aces =
    Ok (total + raw_total hand, (aces + ace_count hand)%nat).
Proof.
  induction 1 as [|c hand Hc _ IH]; intros total aces.
  - cbn. do 2 f_equal; [lia | f_equal; lia].
  - rewrite (hand_sum_deck_card c Hc), IH.
    unfold raw_total, ace_count. cbn [foldr].
    destruct (is_ace c); do 2 f_equal; lia.
Qed.

(** The [while] loop: [k] aces are demoted, each of them while the total
    still exceeded 21, and the loop stops early only at a total of at
    most 21. *)
Lemma demote_spec (total : Z) (aces : nat) :
  exists k : nat,
    (k <= aces)%nat
    ∧ demote total aces = (total - 10 * Z.of_nat k, (aces - k)%nat)
    ∧ (forall j : nat, (j < k)%nat -> 21 < total - 10 * Z.of_nat j)
    ∧ ((k < aces)%nat -> total - 10 * Z.of_nat k <= 21).
Proof.
  revert total. induction aces as [|aces IH]; intros total.
  - exists 0%nat. cbn. split_and!; [lia | f_equal; lia | intros; lia | intros; lia].
  - cbn [demote]. destruct (21 <? total) eqn:E.
    + apply Z.ltb_lt in E.
      destruct (IH (total - 10)) as (k & Hk & -> & Hlt & Hstop).
      exists (S k). split_and!.
      * lia.
      * f_equal; lia.
      * intros [|j] Hj; [lia|]. specialize (Hlt j). lia.
      * intros Hk'. lia.
    + apply Z.ltb_ge in E.
      exists 0%nat. split_and!; [lia | f_equal; lia | intros; lia | intros; lia].
Qed.

(** C3. On every hand of deck cards [hand_value] returns the total that
    counts face cards as 10 and aces as 11, less 10 for each demoted ace:
    aces are demoted one at a time while the total exceeds 21 and an ace
    still counts as 11, and the soft flag tells whether an ace is left
    counting as 11.  In particular A, A, 9 is a soft 21 and A, A, K a
    hard 12. *)
Theorem hand_value_spec (hand : Hand) :
  Forall deck_card hand ->
  (exists k : nat,
      (k <= ace_count hand)%nat
      ∧ hand_value hand =
        Ok (raw_total hand - 10 * Z.of_nat k, bool_decide (k < ace_count hand)%nat)
      ∧ (forall j : nat, (j < k)%nat -> 21 < raw_total hand - 10 * Z.of_nat j)
      ∧ ((k < ace_count hand)%nat -> raw_total hand - 10 * Z.of_nat k <= 21))
  ∧ hand_value ["AS"; "AH"; "9C"] = Ok (21, true)
  ∧ hand_value ["AS"; "AH"; "KC"] = Ok (12, false).
Proof.
  intros Hdeck. split; [|split; reflexivity].
  destruct (demote_spec (raw_total hand) (ace_count hand))
    as (k & Hk & Hd & Hlt & Hstop).
  exists k. repeat split; [done | | done | done].
  unfold hand_value. rewrite (hand_sum_spec hand Hdeck).
  unfold mbind, res_bind, Py.bind. rewrite Z.add_0_l, Nat.add_0_l, Hd.
  do 2 f_equal. apply bool_decide_ext. lia.
Qed.

Lemma hand_value_spec_witness :
  Forall deck_card ["AS"; "AH"; "9C"]
  ∧ hand_value ["AS"; "AH"; "9C"] = Ok (21, true).
Proof.
  assert (H : Forall deck_card ["AS"; "AH"; "9C"]).
  { repeat (apply Forall_cons_2;
            [apply (bool_decide_unpack _); vm_compute; exact I|]).
    apply Forall_nil_2. }
  split; [exact H|].
  exact (proj1 (proj2 (hand_value_spec ["AS"; "AH"; "9C"] H))).
Defined.

Lemma dealer_draws_iff (total : Z) (is_soft : bool) :
  dealer_draws total is_soft = true
  <-> total < 17 ∨ (total = 17 ∧ is_soft = true).
Proof.
  unfold dealer_draws.
  rewrite orb_true_iff, andb_true_iff, Z.ltb_lt, Z.eqb_eq. tauto.
Qed.

Lemma dealer_play_trace (deck : list Card) :
  forall hand hand' deck',
    dealer_play hand deck = Ok (hand', deck') ->
    dealer_trace hand deck hand' deck'.
Proof.
  induction deck as [|c deck IH] using rev_ind; intros hand hand' deck';
    rewrite dealer_play_unfold;
    destruct (hand_value hand) as [[total soft]|e] eqn:Hv; try discriminate;
    destruct (dealer_draws total soft) eqn:Hd.
  - cbn. discriminate.
  - intros [= <- <-]. exists []. cbn. rewrite !app_nil_r.
    split_and!; [done | done | eauto | intros; lia].
  - rewrite draw_card_snoc. intros Hplay.
    destruct (IH _ _ _ Hplay) as (drawn & -> & -> & Hfin & Hway).
    assert (Hcons : forall l : list Card, (hand ++ [c]) ++ l = hand ++ c :: l)
      by (intros l; by rewrite <- app_assoc).
    exists (c :: drawn). split_and!.
    + rewrite reverse_cons. by rewrite <- app_assoc.
    + apply Hcons.
    + exact Hfin.
    + intros [|n] Hn.
      * cbn. rewrite app_nil_r. eauto.
      * cbn in Hn. specialize (Hway n ltac:(lia)).
        cbn [take]. by rewrite <- Hcons.
  - intros [= <- <-]. exists []. cbn. rewrite !app_nil_r.
    split_and!; [done | done | eauto | intros; lia].
Qed.

(** C7. The dealer draws exactly while the hand is below 17 or is a soft
    17: a hand that needs no card is returned as it is with the deck
    untouched, a hand that needs one takes the top card and is valued
    again (and the turn fails on an empty deck), so a hard 17 draws
    nothing and a soft 17 such as A, 6 draws at least one card; a finished
    turn drew for every hand on the way and stopped at the first that
    needed no card. *)
Theorem dealer_play_policy (hand : Hand) (deck : list Card)
    (total : Z) (is_soft : bool) :
  hand_value hand = Ok (total, is_soft) ->
  (dealer_draws total is_soft = true
   <-> total < 17 ∨ (total = 17 ∧ is_soft = true))
  ∧ (dealer_draws total is_soft = false ->
     dealer_play hand deck = Ok (hand, deck))
  ∧ (dealer_draws total is_soft = true ->
     match deck with
     | [] => dealer_play hand deck = Raise IndexError
     | _ :: _ =>
         exists c deck',
           deck = deck' ++ [c]
           ∧ dealer_play hand deck = dealer_play (hand ++ [c]) deck'
     end)
  ∧ (total = 17 -> is_soft = false -> dealer_play hand deck = Ok (hand, deck))
  ∧ (total = 17 -> is_soft = true ->
     forall hand' deck',
       dealer_play hand deck = Ok (hand', deck') ->
       (length hand < length hand')%nat ∧ (length deck' < length deck)%nat)
  ∧ (forall hand' deck',
       dealer_play hand deck = Ok (hand', deck') ->
       dealer_trace hand deck hand' deck')
  ∧ hand_value ["AS"; "6C"] = Ok (17, true)
  ∧ (forall c deck',
       dealer_play ["AS"; "6C"] (deck' ++ [c]) = dealer_play ["AS"; "6C"; c] deck').
Proof.
  intros Hv. split_and!.
  - apply dealer_draws_iff.
  - intros Hd. by rewrite dealer_play_unfold, Hv, Hd.
  - intros Hd. rewrite dealer_play_unfold, Hv, Hd.
    destruct deck as [|c0 deck0]; [done|].
    destruct (exists_last (l := c0 :: deck0) ltac:(done)) as (deck' & c & E).
    exists c, deck'. split; [done|]. rewrite E. by rewrite draw_card_snoc.
  - intros -> ->. by rewrite dealer_play_unfold, Hv.
  - intros -> -> hand' deck' Hplay.
    destruct (dealer_play_trace _ _ _ _ Hplay) as (drawn & -> & -> & _ & _).
    rewrite dealer_play_unfold, Hv in Hplay. cbn in Hplay.
    destruct drawn as [|d drawn].
    + rewrite app_nil_r in Hplay.
      destruct (draw_card deck') as [[c deck'']|e] eqn:Hdraw; [|discriminate].
      apply pop_Ok_inv in Hdraw as ->.
      apply dealer_play_trace in Hplay as (drawn & Hdeck & Hhand & _).
      apply (f_equal length) in Hhand, Hdeck.
      rewrite !length_app, ?length_reverse in *. cbn in *. lia.
    + rewrite !length_app, length_reverse. cbn. lia.
  - apply dealer_play_trace.
  - reflexivity.
  - intros c deck'. by rewrite dealer_play_unfold, draw_card_snoc.
Qed.

Lemma dealer_play_policy_witness :
  hand_value ["AS"; "6C"] = Ok (17, true)
  ∧ dealer_play ["AS"; "6C"] ["2H"; "KD"] = Ok (["AS"; "6C"; "KD"], ["2H"]).
Proof.
  pose proof (dealer_play_policy ["AS"; "6C"] ["2H"; "KD"] 17 true eq_refl)
    as (_ & _ & _ & _ & _ & _ & Hv & Hstep).
  split; [exact Hv|].
  exact (eq_trans (Hstep "KD" ["2H"]) eq_refl).
Defined.

End CardEngine.

(** ** The matching store *)

Section Matching.

Import Db Spec Examples.

(** C1. With a like from user 2 to user 1 on record, two calls of
    [check_mutual_like 1 2] in a row both return true, and the second adds
    a second row for the pair (1, 2): [tinder_matches] declares no
    uniqueness over (user_a, user_b), so INSERT OR IGNORE ignores
    nothing. *)
Theorem check_mutual_like_twice :
  let r1 := check_mutual_like 1 2 liked_back in
  let r2 := check_mutual_like 1 2 r1.2 in
  r1.1 = true
  ∧ r2.1 = true
  ∧ matches_of 1 2 r1.2 = [mkMatch 1 1 2]
  ∧ matches_of 1 2 r2.2 = [mkMatch 1 1 2; mkMatch 2 1 2].
Proof. vm_compute. done. Qed.

Lemma insert_or_ignore_match_run (a b : Z) (st : Store) :
  matches_wf st ->
  insert_or_ignore_match a b st
  = with_matches
      (tinder_matches st ++ [mkMatch (tinder_matches_seq st + 1) a b])
      (tinder_matches_seq st + 1) st.
Proof.
  intros Hwf. unfold insert_or_ignore_match.
  destruct (existsb _ _) eqn:E; [|done].
  apply existsb_exists in E as (m & Hin & Hc).
  unfold matches_conflict in Hc. apply bool_decide_eq_true in Hc. cbn in Hc.
  apply list_elem_of_In in Hin.
  apply (proj1 (Forall_forall _ _) Hwf) in Hin. lia.
Qed.

Lemma matches_increment_stat (u : Z) (f : string) (d : Z) (st : Store) :
  tinder_matches (increment_stat u f d st) = tinder_matches st
  ∧ tinder_matches_seq (increment_stat u f d st) = tinder_matches_seq st
  ∧ tinder_swipes (increment_stat u f d st) = tinder_swipes st.
Proof. unfold increment_stat. by destruct (_ || _). Qed.

(** With the reciprocal like on record, every call appends a row for the
    canonical pair, whatever the table already holds. *)
Lemma check_mutual_like_inserts (user_id target_id : Z) (st : Store) :
  matches_wf st ->
  (exists s, s ∈ tinder_swipes st
             ∧ s_user s = target_id ∧ s_target s = user_id
             ∧ s_status s = "like") ->
  let r := check_mutual_like user_id target_id st in
  r.1 = true
  ∧ tinder_matches r.2
    = tinder_matches st
      ++ [mkMatch (tinder_matches_seq st + 1)
            (Z.min user_id target_id) (Z.max user_id target_id)]
  ∧ tinder_matches_seq r.2 = tinder_matches_seq st + 1
  ∧ tinder_swipes r.2 = tinder_swipes st
  ∧ matches_wf r.2.
Proof.
  intros Hwf (s & Hin & Hu & Ht & Hs). cbn zeta.
  unfold check_mutual_like.
  assert (Hex : existsb
                  (fun s => bool_decide (s_user s = target_id)
                            && bool_decide (s_target s = user_id)
                            && bool_decide (s_status s = "like"))
                  (tinder_swipes st) = true).
  { apply existsb_exists. exists s. split; [by apply list_elem_of_In|].
    by rewrite !bool_decide_eq_true_2. }
  rewrite Hex, (insert_or_ignore_match_run _ _ st Hwf). cbn [fst snd].
  set (st1 := with_matches _ _ st).
  destruct (matches_increment_stat target_id "matches" 1
              (increment_stat user_id "matches" 1 st1)) as (E1 & E2 & E3).
  destruct (matches_increment_stat user_id "matches" 1 st1) as (F1 & F2 & F3).
  unfold matches_wf. rewrite E1, E2, E3, F1, F2, F3.
  split_and!; [done | done | done | done |].
  unfold st1. cbn [tinder_matches tinder_matches_seq with_matches].
  apply Forall_app. split.
  - eapply Forall_impl; [exact Hwf|]. cbn. intros; lia.
  - apply Forall_cons_2; [cbn; lia | apply Forall_nil_2].
Qed.

(** *** Candidate selection *)

Lemma newest_None (rows : list (Z * Profile)) : newest rows = None <-> rows = [].
Proof.
  destruct rows as [|r rows]; [done|]. cbn.
  destruct (newest rows) as [r'|]; [|done].
  destruct (_ <=? _); done.
Qed.

Lemma newest_Some (rows : list (Z * Profile)) (r : Z * Profile) :
  newest rows = Some r ->
  r ∈ rows ∧ forall r', r' ∈ rows -> p_updated_at r'.2 <= p_updated_at r.2.
Proof.
  revert r. induction rows as [|r0 rows IH]; intros r; [done|]. cbn.
  destruct (newest rows) as [r1|] eqn:E.
  - destruct (IH r1 eq_refl) as [Hin Hmax].
    destruct (p_updated_at r1.2 <=? p_updated_at r0.2) eqn:L; intros [= <-].
    + apply Z.leb_le in L. split; [left|].
      intros r' [->|Hr']%elem_of_cons; [lia|]. specialize (Hmax r' Hr'). lia.
    + apply Z.leb_gt in L. split; [by right|].
      intros r' [->|Hr']%elem_of_cons; [lia|]. by apply Hmax.
  - apply newest_None in E as ->. intros [= <-]. split; [left|].
    intros r' [->|Hr']%elem_of_cons; [lia|]. by apply elem_of_nil in Hr'.
Qed.

Section Query.

Variables (actor : Z) (gender interest : option string) (st : Store).

(** Without the city clause the parameters line up with the placeholders:
    the query selects among the eligible candidates. *)
Lemma run_query_unscoped (city : string) :
  run_query actor gender interest city st false
  = pick (candidates actor gender interest None st).
Proof.
  unfold run_query, pick, candidates.
  apply (f_equal (fmap _)), (f_equal newest), list_filter_iff.
  intros [pid p]. cbn. by rewrite !andb_true_r.
Qed.

Lemma run_query_empty_city :
  run_query actor gender interest "" st true
  = pick (candidates actor gender interest None st).
Proof.
  unfold run_query, pick, candidates.
  apply (f_equal (fmap _)), (f_equal newest), list_filter_iff.
  intros [pid p]. cbn. by rewrite !andb_true_r.
Qed.

(** With the city clause the locality takes the place of the interest in
    [? = 'Any'], the interest that of the gender in [p.interest = ?], and
    the gender is what [p.normalized_city] is compared with. *)
Lemma run_query_scoped (city : string) :
  city ≠ "" ->
  run_query actor gender interest city st true
  = pick (filter
            (fun row =>
               where_clause actor (Some city) interest interest
                 (Some gender) st row = true)
            (map_to_list (tinder_profiles st))).
Proof.
  intros Hne. unfold run_query, pick.
  rewrite bool_decide_eq_false_2 by done. reflexivity.
Qed.

Lemma pick_None (rows : list (Z * Profile)) : pick rows = None <-> rows = [].
Proof. unfold pick. rewrite fmap_None. apply newest_None. Qed.

End Query.

(** C8, as the claim states it, fails for an actor without a locality:
    the code then puts no locality restriction on the first query, so
    user 7 (newer, in "kyiv") is returned where the locality-first reading
    returns user 5, the one profile whose normalized locality is also
    empty. *)
Lemma get_next_candidate_empty_locality :
  get_next_candidate 1 (Some "Male") (Some "Any") "" two_profiles
  ≠ Spec.next_candidate 1 (Some "Male") (Some "Any") "" two_profiles.
Proof. vm_compute. discriminate. Qed.

(** The first query with a locality: the actor is in "kyiv" and so is
    user 5, yet the query compares the profile's locality with the
    actor's gender, finds nothing, and the fallback returns user 7 of
    "lviv", the most recently updated candidate anywhere. *)
Lemma scoped_query_misbound :
  run_query 1 (Some "Male") (Some "Any") "kyiv" local_and_remote true = None
  ∧ get_next_candidate 1 (Some "Male") (Some "Any") "kyiv" local_and_remote
    = Some (candidate_row 7 (profile_in "lviv" 2))
  ∧ Spec.next_candidate 1 (Some "Male") (Some "Any") "kyiv" local_and_remote
    = Some (candidate_row 5 (profile_in "kyiv" 1)).
Proof. vm_compute. done. Qed.

(** C8, amended.  [get_next_candidate] runs its query up to twice.
    Whenever the first run returns nothing, the query is run again
    without a locality restriction and its result is returned: the most
    recently updated eligible candidate anywhere, and [None] only if no
    eligible candidate exists.  For an actor whose normalized locality is
    empty the first run carries no locality restriction either. *)
Theorem get_next_candidate_fallback (actor : Z) (gender interest : option string)
    (city : string) (st : Store) :
  run_query actor gender interest city st true = None ->
  let anywhere := candidates actor gender interest None st in
  get_next_candidate actor gender interest city st = pick anywhere
  ∧ (get_next_candidate actor gender interest city st = None <-> anywhere = [])
  ∧ (anywhere ≠ [] ->
     exists r,
       r ∈ anywhere
       ∧ get_next_candidate actor gender interest city st
         = Some (candidate_row r.1 r.2)
       ∧ forall r', r' ∈ anywhere -> p_updated_at r'.2 <= p_updated_at r.2)
  ∧ get_next_candidate actor gender interest "" st = pick anywhere
  ∧ (forall city',
       get_next_candidate actor gender interest city' st = None ->
       run_query actor gender interest city' st true = None ∧ anywhere = []).
Proof.
  intros Hfirst anywhere.
  assert (Hcode : get_next_candidate actor gender interest city st = pick anywhere).
  { unfold get_next_candidate. by rewrite Hfirst, run_query_unscoped. }
  split_and!.
  - exact Hcode.
  - rewrite Hcode. apply pick_None.
  - intros Hne. rewrite Hcode. unfold pick.
    destruct (newest anywhere) as [r|] eqn:E.
    + exists r. destruct (newest_Some _ _ E). done.
    + by apply newest_None in E.
  - unfold get_next_candidate.
    rewrite run_query_empty_city, run_query_unscoped. fold anywhere.
    by destruct (pick anywhere).
  - intros city'. unfold get_next_candidate.
    destruct (run_query actor gender interest city' st true); [done|].
    rewrite run_query_unscoped. fold anywhere. intros H.
    split; [done|]. by apply pick_None.
Qed.

Lemma get_next_candidate_fallback_witness :
  run_query 1 (Some "Male") (Some "Any") "lviv" one_profile true = None
  ∧ get_next_candidate 1 (Some "Male") (Some "Any") "lviv" one_profile
    = Some (candidate_row 7 (profile_in "kyiv" 2)).
Proof.
  assert (H : run_query 1 (Some "Male") (Some "Any") "lviv" one_profile true
              = None) by reflexivity.
  split; [exact H|].
  exact (eq_trans
           (proj1 (get_next_candidate_fallback 1 (Some "Male") (Some "Any")
                     "lviv" one_profile H))
           (eq_refl : pick (candidates 1 (Some "Male") (Some "Any") None
                              one_profile)
                      = Some (candidate_row 7 (profile_in "kyiv" 2)))).
Defined.

End Matching.

(** ** The wallet and the session table *)

Section Ledger.

Import Game Db Spec.

Lemma balance_of_lookup (u : Z) (st : Store) :
  balance_of u st
  = match user_wallets st !! u with Some w => balance w | None => 20 end.
Proof.
  unfold balance_of, get_balance, ensure_wallet.
  destruct (user_wallets st !! u) as [w|] eqn:E; cbn.
  - by rewrite E.
  - by rewrite lookup_insert_eq.
Qed.

Lemma get_balance_eq (u : Z) (st : Store) :
  get_balance u st = (balance_of u st, ensure_wallet u st).
Proof. reflexivity. Qed.

Lemma balance_of_ensure_wallet (u u' : Z) (st : Store) :
  balance_of u (ensure_wallet u' st) = balance_of u st.
Proof.
  rewrite !balance_of_lookup. unfold ensure_wallet.
  destruct (user_wallets st !! u') as [w|] eqn:E; [done|]. cbn.
  destruct (decide (u' = u)) as [->|Hne].
  - by rewrite lookup_insert_eq, E.
  - by rewrite lookup_insert_ne.
Qed.

Lemma unchanged_refl (st : Store) : unchanged st st.
Proof. by repeat split. Qed.

Lemma unchanged_ensure_wallet (u : Z) (st : Store) :
  unchanged st (ensure_wallet u st).
Proof.
  split; [intros u'; apply balance_of_ensure_wallet|].
  unfold ensure_wallet. by destruct (user_wallets st !! u).
Qed.

Lemma get_last_checkin_eq (u : Z) (st : Store) :
  get_last_checkin u st = ((get_last_checkin u st).1, ensure_wallet u st).
Proof. reflexivity. Qed.

Lemma ensure_wallet_idemp (u : Z) (st : Store) :
  ensure_wallet u (ensure_wallet u st) = ensure_wallet u st.
Proof.
  unfold ensure_wallet at 1.
  destruct (user_wallets (ensure_wallet u st) !! u) eqn:E; [done|].
  exfalso. unfold ensure_wallet in E.
  destruct (user_wallets st !! u) eqn:E'; [congruence|].
  cbn in E. by rewrite lookup_insert_eq in E.
Qed.

Lemma ensure_wallet_lookup (u : Z) (st : Store) :
  exists w,
    user_wallets (ensure_wallet u st) !! u = Some w
    ∧ balance w = balance_of u st.
Proof.
  rewrite balance_of_lookup. unfold ensure_wallet.
  destruct (user_wallets st !! u) as [w|] eqn:E.
  - exists w. by rewrite E.
  - exists (mkWallet 20 None). cbn. by rewrite lookup_insert_eq.
Qed.

Lemma ensure_wallet_lookup_ne (u u' : Z) (st : Store) :
  u ≠ u' ->
  user_wallets (ensure_wallet u' st) !! u = user_wallets st !! u.
Proof.
  intros Hne. unfold ensure_wallet.
  destruct (user_wallets st !! u'); [done|]. cbn. by rewrite lookup_insert_ne.
Qed.

Lemma balance_of_adjust (u u' : Z) (delta : Z) (st : Store) :
  balance_of u (adjust_balance u' delta st).2
  = if decide (u = u') then balance_of u st + delta else balance_of u st.
Proof.
  unfold adjust_balance. cbn [snd]. rewrite balance_of_lookup.
  cbn [user_wallets with_wallets].
  destruct (decide (u = u')) as [->|Hne].
  - rewrite lookup_alter_eq.
    destruct (ensure_wallet_lookup u' st) as (w & -> & Hw). cbn. by rewrite Hw.
  - rewrite lookup_alter_ne by done.
    by rewrite ensure_wallet_lookup_ne, balance_of_lookup.
Qed.

(** Which tables each database call leaves alone. *)
Ltac frame :=
  intros;
  unfold adjust_balance, ensure_wallet, increment_stat,
    save_blackjack_session, clear_blackjack_session;
  repeat match goal with
         | |- context [if ?b then _ else _] => destruct b
         | |- context [match ?o with Some _ => _ | None => _ end] => destruct o
         end;
  reflexivity.

Lemma sessions_ensure_wallet u st :
  blackjack_sessions (ensure_wallet u st) = blackjack_sessions st.
Proof. frame. Qed.
Lemma sessions_adjust_balance u d st :
  blackjack_sessions (adjust_balance u d st).2 = blackjack_sessions st.
Proof. frame. Qed.
Lemma sessions_increment_stat u f d st :
  blackjack_sessions (increment_stat u f d st) = blackjack_sessions st.
Proof. frame. Qed.
Lemma boosts_ensure_wallet u st :
  blackjack_boosts (ensure_wallet u st) = blackjack_boosts st.
Proof. frame. Qed.
Lemma boosts_adjust_balance u d st :
  blackjack_boosts (adjust_balance u d st).2 = blackjack_boosts st.
Proof. frame. Qed.
Lemma boosts_increment_stat u f d st :
  blackjack_boosts (increment_stat u f d st) = blackjack_boosts st.
Proof. frame. Qed.
Lemma boosts_save_session u deck ph dh bet st :
  blackjack_boosts (save_blackjack_session u deck ph dh bet st)
  = blackjack_boosts st.
Proof. frame. Qed.
Lemma boosts_clear_session u st :
  blackjack_boosts (clear_blackjack_session u st) = blackjack_boosts st.
Proof. frame. Qed.
Lemma stats_ensure_wallet u st :
  user_stats (ensure_wallet u st) = user_stats st.
Proof. frame. Qed.
Lemma stats_adjust_balance u d st :
  user_stats (adjust_balance u d st).2 = user_stats st.
Proof. frame. Qed.
Lemma stats_save_session u deck ph dh bet st :
  user_stats (save_blackjack_session u deck ph dh bet st) = user_stats st.
Proof. frame. Qed.
Lemma stats_clear_session u st :
  user_stats (clear_blackjack_session u st) = user_stats st.
Proof. frame. Qed.

End Ledger.

Create Rewrite HintDb store.
#[global] Hint Rewrite sessions_ensure_wallet sessions_adjust_balance
  sessions_increment_stat boosts_ensure_wallet boosts_adjust_balance
  boosts_increment_stat boosts_save_session boosts_clear_session
  stats_ensure_wallet stats_adjust_balance stats_save_session
  stats_clear_session : store.

(** ** Blackjack sessions *)

Section Blackjack.

Import Game Db Handlers Spec Examples.

Lemma no_session_reply (user_id : Z) (w : World) :
  (game_menu_markup user_id;; respond "no_active_game") w
  = Return tt (mkWorld (ensure_wallet user_id (db w)) (user_data w)
                 (sent w ++ ["no_active_game"])).
Proof. reflexivity. Qed.

(** C10. With no stored session, hit, stand and double answer that no
    game is active and change nothing a user can observe: balances, stats,
    sessions and every other table read as before, and the user's
    dictionary is untouched; no card is drawn and nothing is debited or
    paid. *)
Theorem blackjack_action_without_session (user_id : Z) (rnd : Q) (w : World) :
  load_blackjack_session user_id (db w) = None ->
  let w' := mkWorld (ensure_wallet user_id (db w)) (user_data w)
              (sent w ++ ["no_active_game"]) in
  blackjack_hit user_id w = Return tt w'
  ∧ blackjack_stand user_id rnd w = Return tt w'
  ∧ blackjack_double user_id rnd w = Return tt w'
  ∧ unchanged (db w) (db w')
  ∧ load_blackjack_session user_id (db w') = None
  ∧ balance_of user_id (db w') = balance_of user_id (db w).
Proof.
  intros Hnone w'.
  assert (Hun : unchanged (db w) (db w')) by apply unchanged_ensure_wallet.
  split_and!.
  - unfold blackjack_hit. hm_run. by rewrite Hnone.
  - unfold blackjack_stand. hm_run. by rewrite Hnone.
  - unfold blackjack_double. hm_run. by rewrite Hnone.
  - exact Hun.
  - unfold load_blackjack_session in *.
    destruct Hun as (_ & _ & -> & _). done.
  - apply Hun.
Qed.

Lemma blackjack_action_without_session_witness :
  load_blackjack_session 1 (db (mkWorld liked_back fresh_user [])) = None
  ∧ blackjack_hit 1 (mkWorld liked_back fresh_user [])
    = Return tt
        (mkWorld (ensure_wallet 1 liked_back) fresh_user ["no_active_game"]).
Proof.
  split; [reflexivity|].
  exact (proj1 (blackjack_action_without_session 1 0%Q
                  (mkWorld liked_back fresh_user []) eq_refl)).
Defined.

Lemma balance_of_wallets (u : Z) (st st' : Store) :
  user_wallets st' = user_wallets st -> balance_of u st' = balance_of u st.
Proof. intros E. by rewrite !balance_of_lookup, E. Qed.

Lemma balance_of_clear_session (u u' : Z) (st : Store) :
  balance_of u (clear_blackjack_session u' st) = balance_of u st.
Proof. by apply balance_of_wallets. Qed.

Lemma balance_of_save_session (u u' : Z) (deck : list Card) (ph dh : Hand)
    (bet : Z) (st : Store) :
  balance_of u (save_blackjack_session u' deck ph dh bet st) = balance_of u st.
Proof. by apply balance_of_wallets. Qed.

Lemma balance_of_increment_stat (u u' : Z) (field : string) (delta : Z)
    (st : Store) :
  balance_of u (increment_stat u' field delta st) = balance_of u st.
Proof.
  apply balance_of_wallets. unfold increment_stat.
  by destruct (_ || _).
Qed.

Lemma draw_four (rest : list Card) (p1 p2 d1 d2 : Card) :
  draw_card (rest ++ [d2; d1; p2; p1]) = Ok (p1, rest ++ [d2; d1; p2])
  ∧ draw_card (rest ++ [d2; d1; p2]) = Ok (p2, rest ++ [d2; d1])
  ∧ draw_card (rest ++ [d2; d1]) = Ok (d1, rest ++ [d2])
  ∧ draw_card (rest ++ [d2]) = Ok (d2, rest).
Proof.
  split_and!.
  - change [d2; d1; p2; p1] with ([d2; d1; p2] ++ [p1]).
    rewrite app_assoc. apply draw_card_snoc.
  - change [d2; d1; p2] with ([d2; d1] ++ [p2]).
    rewrite app_assoc. apply draw_card_snoc.
  - change [d2; d1] with ([d2] ++ [d1]).
    rewrite app_assoc. apply draw_card_snoc.
  - apply draw_card_snoc.
Qed.

Lemma is_blackjack_hand_value (hand : Hand) (b : bool) :
  is_blackjack hand = Ok b -> exists total soft, hand_value hand = Ok (total, soft).
Proof.
  unfold is_blackjack. destruct (hand_value hand) as [[total soft]|e]; [eauto|done].
Qed.

(** A bet above the balance: one message, nothing else. *)
Lemma handle_bet_selection_reject (user_id bet : Z) (shuffled : list Card)
    (w : World) :
  balance_of user_id (db w) < bet ->
  handle_bet_selection user_id bet shuffled w
  = Return tt (mkWorld (ensure_wallet user_id (db w)) (user_data w)
                 (sent w ++ ["bet_too_high"])).
Proof.
  intros Hlt. unfold handle_bet_selection. hm_run.
  rewrite get_balance_eq. cbn [db user_data sent].
  rewrite (proj2 (Z.ltb_lt _ _) Hlt). hm_run.
  rewrite get_last_checkin_eq, ensure_wallet_idemp. reflexivity.
Qed.

(** An accepted bet on a deck whose four top cards are [p1], [p2] (the
    player's) and [d1], [d2] (the dealer's). *)
Lemma handle_bet_selection_accept (user_id bet : Z) (rest : list Card)
    (p1 p2 d1 d2 : Card) (player_bj dealer_bj : bool) (w : World) :
  bet <= balance_of user_id (db w) ->
  is_blackjack [p1; p2] = Ok player_bj ->
  is_blackjack [d1; d2] = Ok dealer_bj ->
  let placed :=
    save_blackjack_session user_id rest [p1; p2] [d1; d2] bet
      (adjust_balance user_id (- bet)
         (increment_stat user_id "games_played" 1
            (ensure_wallet user_id (db w)))).2 in
  let u' := set_bj_pending (Some false) (user_data w) in
  handle_bet_selection user_id bet (rest ++ [d2; d1; p2; p1]) w
  = if player_bj || dealer_bj then
      let '(msg, st) :=
        if player_bj && dealer_bj then
          ("blackjack_push", (adjust_balance user_id bet placed).2)
        else if player_bj then
          ("blackjack_player_blackjack",
           (adjust_balance user_id (bet * 2) placed).2)
        else ("blackjack_dealer_blackjack", placed) in
      Return tt
        (mkWorld (clear_blackjack_session user_id (ensure_wallet user_id st))
           u' (sent w ++ [msg]))
    else Return tt (mkWorld placed u' (sent w ++ ["blackjack_title"])).
Proof.
  intros Hle Hp Hd. cbn zeta.
  destruct (draw_four rest p1 p2 d1 d2) as (D1 & D2 & D3 & D4).
  destruct (is_blackjack_hand_value _ _ Hp) as (pt & ps & Hpv).
  unfold handle_bet_selection, send_blackjack_state. hm_run.
  rewrite get_balance_eq. cbn [db user_data sent].
  rewrite (proj2 (Z.ltb_ge _ _) Hle). hm_run.
  rewrite D1, D2, D3, D4.
  destruct (adjust_balance user_id (- bet) _) as [b1 st1].
  cbn [db user_data sent snd].
  rewrite Hp, Hd.
  destruct player_bj, dealer_bj; cbn [orb andb].
  - destruct (adjust_balance user_id bet _) as [b2 st2].
    cbn [db user_data sent snd]. by rewrite get_balance_eq.
  - destruct (adjust_balance user_id (bet * 2) _) as [b2 st2].
    cbn [db user_data sent snd]. by rewrite get_balance_eq.
  - by rewrite get_balance_eq.
  - by rewrite Hpv.
Qed.

Lemma resolve_blackjack_outcome_run (user_id : Z) (player_hand dealer_hand : Hand)
    (bet : Z) (rnd : Q) (w : World) (pt dt : Z) (ps ds : bool) :
  hand_value player_hand = Ok (pt, ps) ->
  hand_value dealer_hand = Ok (dt, ds) ->
  let o := outcome_of pt dt
             (forced_bust (get_blackjack_boost user_id (db w)) rnd pt dt) in
  exists msg,
    resolve_blackjack_outcome user_id player_hand dealer_hand bet rnd w
    = Return tt
        (mkWorld
           (clear_blackjack_session user_id
              (ensure_wallet user_id (credit user_id bet o (db w))))
           (user_data w) (sent w ++ [msg])).
Proof.
  intros Hp Hd. cbn zeta.
  unfold resolve_blackjack_outcome. hm_run. rewrite Hp, Hd. hm_run.
  fold (forced_bust (get_blackjack_boost user_id (db w)) rnd pt dt).
  unfold outcome_of.
  destruct (21 <? pt) eqn:E1; hm_run.
  { rewrite get_balance_eq. eexists. reflexivity. }
  destruct (forced_bust _ _ _ _ || (21 <? dt)) eqn:E2; hm_run.
  { cbn [orb credit].
    destruct (adjust_balance user_id (bet * 2) (db w)) as [b st'].
    cbn [db user_data sent snd]. rewrite get_balance_eq. eexists. reflexivity. }
  cbn [orb].
  destruct (dt <? pt) eqn:E3; hm_run.
  { cbn [credit].
    destruct (adjust_balance user_id (bet * 2) (db w)) as [b st'].
    cbn [db user_data sent snd]. rewrite get_balance_eq. eexists. reflexivity. }
  destruct (pt <? dt) eqn:E4; hm_run.
  { assert ((pt =? dt) = false) as -> by lia. cbn [credit].
    rewrite get_balance_eq. eexists. reflexivity. }
  assert ((pt =? dt) = true) as -> by lia. cbn [credit].
  destruct (adjust_balance user_id bet (db w)) as [b st'].
  cbn [db user_data sent snd]. rewrite get_balance_eq. eexists. reflexivity.
Qed.

Lemma balance_of_credit (user_id bet : Z) (o : Outcome) (st : Store) :
  balance_of user_id (credit user_id bet o st)
  = balance_of user_id st + payout bet o.
Proof.
  destruct o; cbn [credit payout]; rewrite ?balance_of_adjust, ?decide_True by done; lia.
Qed.

Lemma balance_after_resolve (user_id : Z) (player_hand dealer_hand : Hand)
    (bet : Z) (rnd : Q) (w : World) (pt dt : Z) (ps ds : bool) :
  hand_value player_hand = Ok (pt, ps) ->
  hand_value dealer_hand = Ok (dt, ds) ->
  let o := outcome_of pt dt
             (forced_bust (get_blackjack_boost user_id (db w)) rnd pt dt) in
  let w' := world_of
              (resolve_blackjack_outcome user_id player_hand dealer_hand bet rnd w) in
  balance_of user_id (db w') = balance_of user_id (db w) + payout bet o
  ∧ load_blackjack_session user_id (db w') = None.
Proof.
  intros Hp Hd o w'.
  destruct (resolve_blackjack_outcome_run user_id _ _ bet rnd w _ _ _ _ Hp Hd)
    as (msg & E).
  unfold w'. rewrite E. cbn [world_of db]. split.
  - by rewrite balance_of_clear_session, balance_of_ensure_wallet,
      balance_of_credit.
  - unfold load_blackjack_session, clear_blackjack_session. cbn.
    apply lookup_delete_eq.
Qed.

(** The database right after an accepted bet. *)
Lemma placed_bet_facts (user_id bet : Z) (rest : list Card) (ph dh : Hand)
    (st : Store) :
  let placed :=
    save_blackjack_session user_id rest ph dh bet
      (adjust_balance user_id (- bet)
         (increment_stat user_id "games_played" 1 (ensure_wallet user_id st))).2 in
  balance_of user_id placed = balance_of user_id st - bet
  ∧ load_blackjack_session user_id placed
    = Some (mkSession rest ph dh bet "active")
  ∧ get_blackjack_boost user_id placed = get_blackjack_boost user_id st
  ∧ (forall u, u ≠ user_id ->
       load_blackjack_session u placed = load_blackjack_session u st).
Proof.
  cbn zeta. split_and!.
  - rewrite balance_of_save_session, balance_of_adjust, decide_True by done.
    rewrite balance_of_increment_stat, balance_of_ensure_wallet. lia.
  - unfold load_blackjack_session, save_blackjack_session. cbn.
    apply lookup_insert_eq.
  - unfold get_blackjack_boost. by autorewrite with store.
  - intros u Hne. unfold load_blackjack_session.
    unfold save_blackjack_session at 1. cbn [blackjack_sessions with_sessions].
    rewrite lookup_insert_ne by done. by autorewrite with store.
Qed.

(** C2. A bet [b] within the balance [B] is debited when it is placed.
    If neither hand is a natural the round is stored and the balance reads
    [B - b]; standing then resolves it, and the wallet ends at [B + b] on
    a player win (dealer bust or higher player total), at [B] on a push
    and at [B - b] on a dealer win.  A natural resolves on the spot by the
    same amounts. *)
Theorem bet_debit_and_payout (user_id B b : Z) (rest : list Card)
    (p1 p2 d1 d2 : Card) (player_bj dealer_bj : bool) (rnd : Q) (w : World) :
  balance_of user_id (db w) = B ->
  b <= B ->
  is_blackjack [p1; p2] = Ok player_bj ->
  is_blackjack [d1; d2] = Ok dealer_bj ->
  let w1 :=
    world_of (handle_bet_selection user_id b (rest ++ [d2; d1; p2; p1]) w) in
  match player_bj, dealer_bj with
  | false, false =>
      balance_of user_id (db w1) = B - b
      ∧ load_blackjack_session user_id (db w1)
        = Some (mkSession rest [p1; p2] [d1; d2] b "active")
      ∧ forall dealer_final deck' pt ps dt ds,
          dealer_play [d1; d2] rest = Ok (dealer_final, deck') ->
          hand_value [p1; p2] = Ok (pt, ps) ->
          hand_value dealer_final = Ok (dt, ds) ->
          let o := outcome_of pt dt
                     (forced_bust (get_blackjack_boost user_id (db w)) rnd pt dt) in
          let w2 := world_of (blackjack_stand user_id rnd w1) in
          balance_of user_id (db w2) = B - b + payout b o
          ∧ match o with
            | PlayerWin => balance_of user_id (db w2) = B + b
            | Push => balance_of user_id (db w2) = B
            | DealerWin | PlayerBust => balance_of user_id (db w2) = B - b
            end
          ∧ load_blackjack_session user_id (db w2) = None
  | true, true =>
      balance_of user_id (db w1) = B
      ∧ load_blackjack_session user_id (db w1) = None
  | true, false =>
      balance_of user_id (db w1) = B + b
      ∧ load_blackjack_session user_id (db w1) = None
  | false, true =>
      balance_of user_id (db w1) = B - b
      ∧ load_blackjack_session user_id (db w1) = None
  end.
Proof.
  intros HB Hle Hp Hd w1. subst B.
  pose proof (handle_bet_selection_accept user_id b rest p1 p2 d1 d2
                player_bj dealer_bj w Hle Hp Hd) as Hrun.
  cbn zeta in Hrun.
  destruct (placed_bet_facts user_id b rest [p1; p2] [d1; d2] (db w))
    as (Hbal & Hsess & Hboost & _).
  cbn zeta in Hbal, Hsess, Hboost.
  assert (Hcleared : forall st,
    load_blackjack_session user_id (clear_blackjack_session user_id st) = None).
  { intros st. unfold load_blackjack_session, clear_blackjack_session. cbn.
    apply lookup_delete_eq. }
  unfold w1. rewrite Hrun. clear Hrun w1.
  destruct player_bj, dealer_bj; cbn [orb andb world_of db].
  - split; [|apply Hcleared].
    rewrite balance_of_clear_session, balance_of_ensure_wallet,
      balance_of_adjust, decide_True, Hbal by done. lia.
  - split; [|apply Hcleared].
    rewrite balance_of_clear_session, balance_of_ensure_wallet,
      balance_of_adjust, decide_True, Hbal by done. lia.
  - split; [|apply Hcleared].
    by rewrite balance_of_clear_session, balance_of_ensure_wallet, Hbal.
  - split_and!; [exact Hbal | exact Hsess |].
    intros dealer_final deck' pt ps dt ds Hplay Hpv Hdv.
    set (placed := save_blackjack_session _ _ _ _ _ _) in *.
    set (w1 := mkWorld placed _ _) in *.
    assert (Hstand :
      blackjack_stand user_id rnd w1
      = resolve_blackjack_outcome user_id [p1; p2] dealer_final b rnd w1).
    { unfold blackjack_stand. hm_run. unfold w1 at 1. cbn [db].
      rewrite Hsess. cbn [Db.dealer_hand Db.deck Db.player_hand Db.bet].
      rewrite Hplay. reflexivity. }
    destruct (balance_after_resolve user_id [p1; p2] dealer_final b rnd w1
                pt dt ps ds Hpv Hdv) as [Hfinal Hnone].
    cbn zeta in Hfinal, Hnone. rewrite <- Hstand in Hfinal, Hnone.
    replace (db w1) with placed in Hfinal by reflexivity.
    rewrite Hboost, Hbal in Hfinal.
    split_and!; [exact Hfinal | | exact Hnone].
    rewrite Hfinal. destruct (outcome_of _ _ _); cbn [payout]; lia.
Qed.

Lemma bet_debit_and_payout_witness :
  balance_of 1 (db table_100) = 100
  ∧ 10 <= 100
  ∧ balance_of 1
      (db (world_of
             (blackjack_stand 1 0%Q
                (world_of (handle_bet_selection 1 10 win_deck table_100)))))
    = 110.
Proof.
  assert (H1 : balance_of 1 (db table_100) = 100) by reflexivity.
  assert (H2 : 10 <= 100) by discriminate.
  split; [exact H1|]. split; [exact H2|].
  pose proof (bet_debit_and_payout 1 100 10 deck_tail "10S" "9S" "9D" "8D"
                false false 0%Q table_100 H1 H2 eq_refl eq_refl)
    as (_ & _ & H).
  exact (proj1 (proj2 (H ["9D"; "8D"] deck_tail 19 false 17 false
                         eq_refl eq_refl eq_refl))).
Defined.

(** The push and the dealer win of the same table: 100 and 90. *)
Example bet_push_100 :
  balance_of 1
    (db (world_of
           (blackjack_stand 1 0%Q
              (world_of (handle_bet_selection 1 10 push_deck table_100)))))
  = 100.
Proof. reflexivity. Qed.

Example bet_dealer_win_90 :
  balance_of 1
    (db (world_of
           (blackjack_stand 1 0%Q
              (world_of (handle_bet_selection 1 10 loss_deck table_100)))))
  = 90.
Proof. reflexivity. Qed.

(** *** Bets while a round is stored *)

(** C4 as stated fails: with the round of [win_deck] still stored, a
    second bet is accepted and its round replaces the stored one. *)
Lemma bet_not_gated : ¬ bet_gated.
Proof.
  intros Hgated.
  set (w1 := world_of (handle_bet_selection 1 10 win_deck table_100)).
  specialize (Hgated 1 5 loss_deck w1
                (mkSession deck_tail ["10S"; "9S"] ["9D"; "8D"] 10 "active")
                eq_refl).
  vm_compute in Hgated. discriminate.
Qed.

(** The same through the chat: the menu button sets the pending flag
    again whether or not a round is stored, and the typed bet then starts
    the new round and is debited on top of the first. *)
Example second_bet_through_prompt :
  let w1 := world_of (handle_bet_selection 1 10 win_deck table_100) in
  let w2 := world_of (start_blackjack 1 w1) in
  let w3 := world_of (quick_reply_handler id Py.isdigit Py.int_of_str
                        1 "5" loss_deck w2) in
  load_blackjack_session 1 (db w1)
  = Some (mkSession deck_tail ["10S"; "9S"] ["9D"; "8D"] 10 "active")
  ∧ load_blackjack_session 1 (db w3)
    = Some (mkSession deck_tail ["10S"; "7S"] ["10D"; "9D"] 5 "active")
  ∧ balance_of 1 (db w3) = 85.
Proof. vm_compute. done. Qed.

(** C4, amended.  A user has at most one session row, because the save
    is an upsert on the user id; a bet that passes the balance check is
    accepted whether or not a session is stored, and afterwards the user's
    row is the new round (or no row, if a natural resolved it at once).
    Other users' sessions are not touched. *)
Theorem bet_replaces_session (user_id bet : Z) (rest : list Card)
    (p1 p2 d1 d2 : Card) (player_bj dealer_bj : bool) (w : World) :
  bet <= balance_of user_id (db w) ->
  is_blackjack [p1; p2] = Ok player_bj ->
  is_blackjack [d1; d2] = Ok dealer_bj ->
  let w' :=
    world_of (handle_bet_selection user_id bet (rest ++ [d2; d1; p2; p1]) w) in
  load_blackjack_session user_id (db w')
  = (if player_bj || dealer_bj then None
     else Some (mkSession rest [p1; p2] [d1; d2] bet "active"))
  ∧ (forall u, u ≠ user_id ->
       load_blackjack_session u (db w') = load_blackjack_session u (db w))
  ∧ (forall s s',
       (user_id, s) ∈ map_to_list (blackjack_sessions (db w')) ->
       (user_id, s') ∈ map_to_list (blackjack_sessions (db w')) ->
       s = s').
Proof.
  intros Hle Hp Hd w'.
  pose proof (handle_bet_selection_accept user_id bet rest p1 p2 d1 d2
                player_bj dealer_bj w Hle Hp Hd) as Hrun.
  cbn zeta in Hrun.
  destruct (placed_bet_facts user_id bet rest [p1; p2] [d1; d2] (db w))
    as (_ & Hsess & _ & Hother).
  cbn zeta in Hsess, Hother.
  assert (Hclear : forall u st,
    load_blackjack_session u (clear_blackjack_session user_id st)
    = if decide (u = user_id) then None else load_blackjack_session u st).
  { intros u st. unfold load_blackjack_session, clear_blackjack_session. cbn.
    destruct (decide (u = user_id)) as [->|Hne].
    - apply lookup_delete_eq.
    - by apply lookup_delete_ne. }
  assert (Hkeep : forall u d st,
    load_blackjack_session u (ensure_wallet user_id (adjust_balance user_id d st).2)
    = load_blackjack_session u st).
  { intros u d st. unfold load_blackjack_session. by autorewrite with store. }
  split_and!.
  - unfold w'. rewrite Hrun.
    destruct player_bj, dealer_bj; cbn [orb andb world_of db];
      rewrite ?Hclear, ?decide_True by done; done.
  - intros u Hne. unfold w'. rewrite Hrun.
    destruct player_bj, dealer_bj; cbn [orb andb world_of db];
      rewrite ?Hclear, ?decide_False, ?Hkeep by done;
      try (unfold load_blackjack_session at 1; autorewrite with store;
           fold (load_blackjack_session u));
      by apply Hother.
  - intros s s' Hs Hs'. apply elem_of_map_to_list in Hs, Hs'. congruence.
Qed.

Lemma bet_replaces_session_witness :
  5 <= balance_of 1
         (db (world_of (handle_bet_selection 1 10 win_deck table_100)))
  ∧ load_blackjack_session 1
      (db (world_of
             (handle_bet_selection 1 5 loss_deck
                (world_of (handle_bet_selection 1 10 win_deck table_100)))))
    = Some (mkSession deck_tail ["10S"; "7S"] ["10D"; "9D"] 5 "active").
Proof.
  assert (H : 5 <= balance_of 1
                     (db (world_of (handle_bet_selection 1 10 win_deck table_100))))
    by (vm_compute; discriminate).
  split; [exact H|].
  exact (proj1 (bet_replaces_session 1 5 deck_tail "10S" "7S" "10D" "9D"
                  false false
                  (world_of (handle_bet_selection 1 10 win_deck table_100))
                  H eq_refl eq_refl)).
Defined.

(** *** An exhausted deck *)

(** C5 as stated fails for double: the second stake is debited before the
    card is drawn, so on an exhausted deck the move fails with the wallet
    already 10 points down. *)
Lemma exhausted_deck_not_safe : ¬ exhausted_deck_safe.
Proof.
  intros Hsafe.
  specialize (Hsafe Double 1 0%Q exhausted_table
                (world_of (blackjack_double 1 0%Q exhausted_table)) eq_refl).
  vm_compute in Hsafe. discriminate.
Qed.

(** C5, amended.  [draw_card] on a non-empty deck removes and returns the
    top card, the last of the list; on an empty deck it raises
    [IndexError] (the code defines no error of its own) and the move stops
    there.  Hit and stand have written nothing by then: balance, session
    and every table are as before.  Double has already debited its second
    stake, once, and leaves the stored session as it was. *)
Theorem draw_card_exhausted (user_id : Z) (rnd : Q) (w : World) (s : Session) :
  load_blackjack_session user_id (db w) = Some s ->
  deck s = [] ->
  (forall deck c, draw_card (deck ++ [c]) = Ok (c, deck))
  ∧ (forall deck e, draw_card deck = Raise e <-> deck = [] ∧ e = IndexError)
  ∧ blackjack_hit user_id w = Raised IndexError w
  ∧ (forall total is_soft,
       hand_value (dealer_hand s) = Ok (total, is_soft) ->
       dealer_draws total is_soft = true ->
       blackjack_stand user_id rnd w = Raised IndexError w)
  ∧ (length (player_hand s) = 2%nat ->
     bet s <= balance_of user_id (db w) ->
     exists w',
       blackjack_double user_id rnd w = Raised IndexError w'
       ∧ balance_of user_id (db w') = balance_of user_id (db w) - bet s
       ∧ load_blackjack_session user_id (db w') = Some s
       ∧ user_data w' = user_data w
       ∧ sent w' = sent w).
Proof.
  intros Hs Hdeck. split_and!.
  - apply draw_card_snoc.
  - intros deck e. split.
    + apply pop_Raise_inv.
    + by intros [-> ->].
  - unfold blackjack_hit. hm_run. rewrite Hs, Hdeck. cbn [draw_card Py.pop].
    by destruct w.
  - intros total is_soft Hv Hd. unfold blackjack_stand. hm_run.
    rewrite Hs, Hdeck, dealer_play_unfold, Hv, Hd. cbn [draw_card Py.pop].
    by destruct w.
  - intros Hlen Hle. unfold blackjack_double. hm_run. rewrite Hs.
    rewrite (bool_decide_eq_true_2 _ Hlen). cbn [negb].
    rewrite get_balance_eq. cbn [db user_data sent].
    rewrite (proj2 (Z.ltb_ge _ _) Hle). hm_run.
    destruct (adjust_balance user_id (- bet s) (ensure_wallet user_id (db w)))
      as [b st'] eqn:E.
    cbn [db user_data sent]. rewrite Hdeck. cbn [draw_card Py.pop].
    eexists. split; [reflexivity|]. cbn [db user_data sent].
    assert (Hst : st' = (adjust_balance user_id (- bet s)
                           (ensure_wallet user_id (db w))).2) by (by rewrite E).
    split_and!; [| |done|done].
    + rewrite Hst, balance_of_adjust, decide_True, balance_of_ensure_wallet by done.
      lia.
    + rewrite Hst. unfold load_blackjack_session in *.
      by autorewrite with store.
Qed.

Lemma draw_card_exhausted_witness :
  load_blackjack_session 1 (db exhausted_table) = Some exhausted_session
  ∧ deck exhausted_session = []
  ∧ blackjack_hit 1 exhausted_table = Raised IndexError exhausted_table.
Proof.
  split; [reflexivity|]. split; [reflexivity|].
  exact (proj1 (proj2 (proj2
           (draw_card_exhausted 1 0%Q exhausted_table exhausted_session
              eq_refl eq_refl)))).
Defined.

(** *** The size of a bet *)

(** The part of C6 the code keeps: a bet above the balance is answered
    with one message and changes nothing a user can observe. *)
Lemma bet_above_balance_rejected (user_id bet : Z) (shuffled : list Card)
    (w : World) :
  balance_of user_id (db w) < bet ->
  exists w',
    handle_bet_selection user_id bet shuffled w = Return tt w'
    ∧ sent w' = sent w ++ ["bet_too_high"]
    ∧ user_data w' = user_data w
    ∧ unchanged (db w) (db w').
Proof.
  intros Hlt. eexists. split; [by apply handle_bet_selection_reject|].
  cbn. split_and!; [done|done|apply unchanged_ensure_wallet].
Qed.

(** C6 fails at a bet of zero.  The typed text "0" passes [isdigit] and
    [bet > balance] is the only test [handle_bet_selection] makes, so the
    round starts: a game is counted and a session with bet 0 is stored. *)
Theorem zero_bet_starts_round :
  let r := quick_reply_handler id Py.isdigit Py.int_of_str 1 "0" win_deck
             table_100 in
  exists w',
    r = Return true w'
    ∧ load_blackjack_session 1 (db w')
      = Some (mkSession deck_tail ["10S"; "9S"] ["9D"; "8D"] 0 "active")
    ∧ stat_of (default ∅ (user_stats (db w') !! 1)) "games_played" = 1
    ∧ sent w' = ["blackjack_title"]
    ∧ balance_of 1 (db w') = 100.
Proof. eexists. vm_compute. split_and!; reflexivity. Qed.

End Blackjack.

(** ** What a handler keeps *)

Section Preservation.

Import Db Handlers Spec.

Context {A B : Type} (P : Store -> Prop).

Lemma preserves_ret (a : A) : preserves P (mret a : HM A).
Proof. by intros w. Qed.

Lemma preserves_bind (m : HM A) (k : A -> HM B) :
  preserves P m -> (forall a, preserves P (k a)) -> preserves P (m ≫= k).
Proof.
  intros Hm Hk w Hw. specialize (Hm w Hw).
  unfold mbind, HM_bind. destruct (m w) as [a w'|e w']; [|done].
  by apply Hk.
Qed.

Lemma preserves_respond (key : string) : preserves P (respond key).
Proof. by intros w. Qed.

Lemma preserves_ud_exec (f : UserData -> UserData) : preserves P (ud_exec f).
Proof. by intros w. Qed.

Lemma preserves_ud_read (f : UserData -> A) : preserves P (ud_read f).
Proof. by intros w. Qed.

Lemma preserves_db_read (f : Store -> A) : preserves P (db_read f).
Proof. by intros w. Qed.

Lemma preserves_db_exec (f : Store -> Store) :
  (forall st, P st -> P (f st)) -> preserves P (db_exec f).
Proof. intros Hf w Hw. by apply Hf. Qed.

Lemma preserves_db_call (f : Store -> A * Store) :
  (forall st, P st -> P (f st).2) -> preserves P (db_call f).
Proof.
  intros Hf w Hw. specialize (Hf _ Hw). unfold db_call.
  by destruct (f (db w)).
Qed.

Lemma preserves_lift (r : res A) : preserves P (lift r).
Proof. intros w Hw. unfold lift. by destruct r. Qed.

End Preservation.

(** ** The profile-builder flow *)

Section ProfileFlow.

Import Game Db Handlers Spec Examples.

Variable str_strip : string -> string.
Variable str_lower : string -> string.
Variable str_isdigit : string -> bool.
Variable str_int : string -> res Z.
Variable t_done_button : string.
Variable t_city_button_last : string -> string.
Variable normalize_city : string -> string.
Variable reverse_geocode_city : Q -> Q -> string * string.

(** *** Rejected input *)

Lemma tinder_age_not_number (raw : string) (w : World) :
  str_isdigit (str_strip raw) = false ->
  tinder_age str_strip str_isdigit str_int raw w
  = Return TINDER_AGE (replied "age_not_number" w).
Proof. intros H. unfold tinder_age. by rewrite H. Qed.

Lemma tinder_age_out_of_range (raw : string) (age : Z) (w : World) :
  str_isdigit (str_strip raw) = true ->
  str_int (str_strip raw) = Ok age ->
  age < 18 ∨ 120 < age ->
  tinder_age str_strip str_isdigit str_int raw w
  = Return TINDER_AGE (replied "age_invalid" w).
Proof.
  intros H1 H2 H3. unfold tinder_age. rewrite H1. hm_run. rewrite H2.
  assert ((age <? 18) || (120 <? age) = true) as ->; [|done].
  apply orb_true_iff. rewrite !Z.ltb_lt. done.
Qed.

Lemma tinder_gender_text_invalid (user_id now : Z) (raw : string) (w : World) :
  gender_of_text (str_lower raw) = None ->
  tinder_gender_text str_lower normalize_city user_id raw now w
  = Return TINDER_GENDER (replied "gender_invalid_choice" w).
Proof. intros H. unfold tinder_gender_text. by rewrite H. Qed.

Lemma tinder_media_not_media (w : World) :
  tinder_media None None w = Return TINDER_MEDIA (replied "not_photo" w).
Proof. reflexivity. Qed.

Lemma tinder_media_text_other (raw : string) (w : World) :
  is_done_text str_lower t_done_button (str_lower (str_strip raw)) = false ->
  tinder_media_text str_strip str_lower t_done_button raw w
  = Return TINDER_MEDIA (replied "tinder_media_more" w).
Proof. intros H. unfold tinder_media_text. by rewrite H. Qed.

Lemma tinder_media_text_done_early (raw : string) (w : World) :
  is_done_text str_lower t_done_button (str_lower (str_strip raw)) = true ->
  truthy_list (ud_tinder_media (user_data w)) = false ->
  tinder_media_text str_strip str_lower t_done_button raw w
  = Return TINDER_MEDIA (replied "tinder_media_prompt" w).
Proof.
  intros H1 H2. unfold tinder_media_text. rewrite H1. hm_run. by rewrite H2.
Qed.

#[local] Abbreviation conv :=
  (tinder_conv str_strip str_lower str_isdigit str_int t_done_button
     t_city_button_last normalize_city reverse_geocode_city).

#[local] Abbreviation rejects :=
  (rejection str_strip str_lower str_isdigit str_int t_done_button).

(** A rejected update: the step answers with its hint and gives back the
    state it was in; database and draft are what they were. *)
Lemma rejected_step (user_id now : Z) (full_name : string)
    (state : ConvState) (u : Update) (key : string) (w : World) :
  rejects (truthy_list (ud_tinder_media (user_data w))) state u = Some key ->
  exists h,
    conv user_id full_name now state u = Some h
    ∧ h w = Return state (replied key w).
Proof.
  destruct state, u; cbn [rejection]; try discriminate; intros H.
  - eexists. split; [reflexivity|]. cbn beta.
    destruct (str_isdigit (str_strip raw)) eqn:E1; cbn [negb] in H.
    + destruct (str_int (str_strip raw)) as [age|e] eqn:E2; [|discriminate].
      destruct ((age <? 18) || (120 <? age)) eqn:E3; [|discriminate].
      injection H as <-.
      apply (tinder_age_out_of_range raw age w E1 E2).
      apply orb_true_iff in E3. by rewrite !Z.ltb_lt in E3.
    + injection H as <-. by apply tinder_age_not_number.
  - eexists. split; [reflexivity|]. cbn beta.
    destruct (gender_of_text (str_lower raw)) eqn:E; [discriminate|].
    injection H as <-. by apply tinder_gender_text_invalid.
  - eexists. split; [reflexivity|]. cbn beta.
    destruct (is_done_text _ _ _) eqn:E1.
    + destruct (truthy_list _) eqn:E2; [discriminate|].
      injection H as <-. by apply tinder_media_text_done_early.
    + injection H as <-. by apply tinder_media_text_other.
Qed.

(** *** No write before the save step *)

(** While a profile is being built (the edit flag is off), no step before
    the confirmation touches the database, whatever the update. *)
Lemma linear_step_keeps_db (user_id now : Z) (full_name : string)
    (state : ConvState) (u : Update) (h : HM ConvState) (w : World) :
  state ≠ TINDER_CONFIRM ->
  conv user_id full_name now state u = Some h ->
  truthy_flag (ud_tinder_edit_mode (user_data w)) = false ->
  db (world_of (h w)) = db w.
Proof.
  intros Hstate Hconv Hedit.
  destruct state, u; cbn [tinder_conv] in Hconv; try discriminate; try done.
  all: try (injection Hconv as <-).
  - (* age *)
    unfold tinder_age. destruct (str_isdigit _); [|done]. hm_run.
    destruct (str_int _) as [age|e]; [|done]. hm_run.
    by destruct (_ || _).
  - (* gender, typed *)
    unfold tinder_gender_text. destruct (gender_of_text _); [|done].
    hm_run. cbn [ud_tinder_edit_mode set_tinder_gender]. by rewrite Hedit.
  - (* gender, button *)
    destruct (callback_arg _ _) as [[arg|e]|]; [| |discriminate];
      injection Hconv as <-; [|done].
    unfold tinder_gender_cb. hm_run.
    cbn [ud_tinder_edit_mode set_tinder_gender]. by rewrite Hedit.
  - (* interest, typed *)
    unfold tinder_interest_text, offer_last_city. hm_run.
    cbn [ud_tinder_edit_mode set_tinder_interest set_tinder_last_city_option].
    by rewrite Hedit.
  - (* interest, button *)
    destruct (callback_arg _ _) as [[arg|e]|]; [| |discriminate];
      injection Hconv as <-; [|done].
    unfold tinder_interest_cb, offer_last_city. hm_run.
    cbn [ud_tinder_edit_mode set_tinder_interest set_tinder_last_city_option].
    by rewrite Hedit.
  - (* city, typed *)
    unfold tinder_city. hm_run.
    destruct (ud_tinder_last_city_option _) as [c|]; hm_run;
      [destruct (_ && _); hm_run|];
      cbn [ud_tinder_edit_mode set_tinder_city set_tinder_normalized_city
             set_tinder_lat set_tinder_lon];
      by rewrite Hedit.
  - (* city, location *)
    unfold tinder_city. hm_run.
    destruct (reverse_geocode_city lat lon) as [city_label norm_label]. hm_run.
    cbn [ud_tinder_edit_mode set_tinder_city set_tinder_normalized_city
           set_tinder_lat set_tinder_lon].
    by rewrite Hedit.
  - (* name *)
    unfold tinder_name. hm_run. cbn [ud_tinder_edit_mode set_tinder_name].
    by rewrite Hedit.
  - (* bio *)
    unfold tinder_bio. hm_run. cbn [ud_tinder_edit_mode set_tinder_bio].
    by rewrite Hedit.
  - (* media, typed *)
    unfold tinder_media_text, tinder_confirm. destruct (is_done_text _ _ _); [|done].
    hm_run. by destruct (truthy_list _).
  - (* photo *)
    unfold tinder_media, _store_media, tinder_confirm. cbn [first_some fmap option_fmap option_map].
    hm_run. destruct (bool_decide _); cbn [negb]; hm_run; [done|].
    cbn [ud_tinder_media set_tinder_media].
    by destruct (bool_decide _).
  - (* video *)
    unfold tinder_media, _store_media, tinder_confirm. cbn [first_some fmap option_fmap option_map].
    hm_run. destruct (bool_decide _); cbn [negb]; hm_run; [done|].
    cbn [ud_tinder_media set_tinder_media].
    by destruct (bool_decide _).
  - (* /done *)
    destruct (bool_decide _); [|discriminate]. by injection Hconv as <-.
Qed.

(** *** The save step *)

Ltac pres :=
  repeat first
    [ apply preserves_bind; [|intros ?]
    | apply preserves_ret
    | apply preserves_respond
    | apply preserves_ud_exec
    | apply preserves_ud_read
    | apply preserves_db_read
    | apply preserves_lift
    | match goal with
      | |- preserves _ (if ?b then _ else _) => destruct b
      | |- preserves _ (match ?x with _ => _ end) => destruct x
      | |- preserves _ (let '(_, _) := ?x in _) => destruct x
      end ].

Lemma profiles_add_media_fold (user_id : Z) (l : list (nat * (string * string)))
    (st : Store) :
  tinder_profiles
    (foldl (fun st '(idx, (fid, kind)) =>
              add_profile_media user_id fid kind (Z.of_nat idx) st) st l)
  = tinder_profiles st.
Proof.
  revert st. induction l as [|[idx [fid kind]] l IH]; intros st; [done|].
  cbn [foldl]. by rewrite IH.
Qed.

Lemma profiles_increment_stat (u : Z) (f : string) (d : Z) (st : Store) :
  tinder_profiles (increment_stat u f d st) = tinder_profiles st.
Proof. unfold increment_stat. by destruct (_ || _). Qed.

Lemma profiles_adjust_balance (u d : Z) (st : Store) :
  tinder_profiles (adjust_balance u d st).2 = tinder_profiles st.
Proof.
  unfold adjust_balance, ensure_wallet. by destruct (user_wallets st !! u).
Qed.

(** Nothing after the upsert touches [tinder_profiles]. *)
Lemma save_followup_keeps_profiles (user_id : Z) (is_new : bool)
    (media : option (list (string * string))) (rows : gmap Z Profile) :
  preserves (fun st => tinder_profiles st = rows)
    (save_followup user_id is_new media).
Proof.
  unfold save_followup, tinder_edit_menu, start_tinder_flow,
    send_next_candidate_card.
  pres.
  all: try (apply preserves_db_exec; intros st <-).
  all: try (apply preserves_db_call; intros st <-).
  all: try done.
  all: first [ apply profiles_add_media_fold
             | apply profiles_increment_stat
             | apply profiles_adjust_balance
             | idtac ].
Qed.

(** The row the save step writes for a user who had none: the collected
    fields, active, stamped [now]. *)
Lemma tinder_save_cb_writes (user_id now : Z) (full_name : string) (w : World) :
  truthy_flag (ud_edit_for_submit (user_data w)) = false ->
  get_profile user_id (db w) = None ->
  let u := user_data w in
  let city := or_str (ud_tinder_city u) None in
  get_profile user_id
    (db (world_of (tinder_save_cb normalize_city user_id full_name now w)))
  = Some
      (mkProfile (or_int (ud_tinder_age u) None)
         (or_str (ud_tinder_gender u) None)
         (or_str (ud_tinder_interest u) None)
         city
         (or_str (ud_tinder_normalized_city u)
            (Some (normalize_city (default "" (or_str city (Some ""))))))
         (first_some (ud_tinder_lat u) None)
         (first_some (ud_tinder_lon u) None)
         (or_str (ud_tinder_name u) (Some full_name))
         (or_str (ud_tinder_bio u) None)
         true now now).
Proof.
  intros Hsubmit Hnone. cbn zeta.
  unfold tinder_save_cb.
  hm_run. rewrite Hnone. hm_run. change (id (user_data w)) with (user_data w).
  cbn [option_bind]. rewrite Hsubmit. hm_run.
  unfold get_profile in *.
  match goal with
  | |- tinder_profiles (db (world_of (save_followup ?a ?b ?c ?w1))) !! _ = _ =>
      rewrite (save_followup_keeps_profiles a b c (tinder_profiles (db w1))
                 w1 eq_refl)
  end.
  unfold upsert_profile. cbn [db tinder_profiles with_profiles].
  rewrite Hnone, lookup_insert_eq. reflexivity.
Qed.

(** The part of the contract of the profile flow the code keeps.  An
    update that a step turns down with a hint (a non-numeric or
    out-of-range age, an unrecognised gender, text at the media step that
    is not "done", or "done" before any media) is answered with the hint
    of that step; the flow stays in the same state and neither the
    database nor the draft changes.  Within the conversation no step
    before the confirmation writes to the database, and the save step
    writes the one profile row with the fields it finds in the draft. *)
Theorem failed_validation_commits_nothing (user_id now : Z) (full_name : string)
    (state : ConvState) (u : Update) (key : string) (w : World) :
  rejects (truthy_list (ud_tinder_media (user_data w))) state u = Some key ->
  (exists h,
      conv user_id full_name now state u = Some h
      ∧ h w = Return state (replied key w)
      ∧ db (world_of (h w)) = db w
      ∧ user_data (world_of (h w)) = user_data w
      ∧ get_profile user_id (db (world_of (h w))) = get_profile user_id (db w))
  ∧ (forall state' u' h' w',
       state' ≠ TINDER_CONFIRM ->
       conv user_id full_name now state' u' = Some h' ->
       truthy_flag (ud_tinder_edit_mode (user_data w')) = false ->
       db (world_of (h' w')) = db w')
  ∧ (forall w',
       truthy_flag (ud_edit_for_submit (user_data w')) = false ->
       get_profile user_id (db w') = None ->
       exists row,
         get_profile user_id
           (db (world_of (tinder_save_cb normalize_city user_id full_name now w')))
         = Some row
         ∧ p_age row = or_int (ud_tinder_age (user_data w')) None
         ∧ p_gender row = or_str (ud_tinder_gender (user_data w')) None
         ∧ p_interest row = or_str (ud_tinder_interest (user_data w')) None
         ∧ p_city row = or_str (ud_tinder_city (user_data w')) None
         ∧ p_name row = or_str (ud_tinder_name (user_data w')) (Some full_name)
         ∧ p_bio row = or_str (ud_tinder_bio (user_data w')) None
         ∧ p_active row = true).
Proof.
  intros Hrej. split_and!.
  - destruct (rejected_step user_id now full_name state u key w Hrej)
      as (h & Hconv & Hrun).
    exists h. rewrite Hrun. by split_and!.
  - intros state' u' h' w'. apply linear_step_keeps_db.
  - intros w' Hsubmit Hnone. eexists. split.
    + by apply tinder_save_cb_writes.
    + by split_and!.
Qed.

End ProfileFlow.

(** The example of the specification: "abc" at the age step of a new
    profile leaves the flow at the age step and no profile row. *)
Lemma failed_validation_commits_nothing_witness :
  Spec.rejection id id Py.isdigit Py.int_of_str "done" false
    Handlers.TINDER_AGE (Handlers.Text "abc") = Some "age_not_number"
  ∧ Handlers.tinder_age id Py.isdigit Py.int_of_str "abc" Examples.table_100
    = Handlers.Return Handlers.TINDER_AGE
        (Spec.replied "age_not_number" Examples.table_100)
  ∧ Db.get_profile 1
      (Handlers.db
         (Handlers.world_of
            (Handlers.tinder_age id Py.isdigit Py.int_of_str "abc"
               Examples.table_100)))
    = None.
Proof.
  assert (H : Spec.rejection id id Py.isdigit Py.int_of_str "done"
                (Handlers.truthy_list
                   (Handlers.ud_tinder_media
                      (Handlers.user_data Examples.table_100)))
                Handlers.TINDER_AGE (Handlers.Text "abc")
              = Some "age_not_number") by reflexivity.
  split; [exact H|].
  destruct (failed_validation_commits_nothing id id Py.isdigit Py.int_of_str
              "done" id id (fun _ _ => ("", "")) 1 0 "n"
              Handlers.TINDER_AGE (Handlers.Text "abc") "age_not_number"
              Examples.table_100 H)
    as ((h & Hconv & Hrun & _ & _ & Hprofile) & _).
  injection Hconv as <-.
  split; [exact Hrun | exact Hprofile].
Defined.

(** C9 fails in two places.  At the age step the text "²" passes
    [isdigit] and is no number for [int]: [tinder_age] raises
    [ValueError] instead of asking again, so no hint is sent and no state
    is returned.  And the save handler does not ask for a full record:
    run on the draft that holds only the age just accepted (the callback
    router [button] calls it for [tinder:save] in any state of the
    conversation, and [/find] offers that button as soon as the draft
    holds an age), it writes a profile row whose other fields are
    empty. *)
Theorem age_step_breaks_contract :
  let age_step := Handlers.tinder_age id Latin1.isdigit Py.int_of_str in
  let text := "²" in
  (Latin1.isdigit text = true
   ∧ Py.int_of_str text = Raise ValueError
   ∧ age_step text Examples.table_100
     = Handlers.Raised ValueError Examples.table_100)
  ∧ exists w1 row,
      age_step "30" Examples.table_100 = Handlers.Return Handlers.TINDER_GENDER w1
      ∧ Db.get_profile 1 (Handlers.db w1) = None
      ∧ Db.get_profile 1
          (Handlers.db
             (Handlers.world_of (Handlers.tinder_save_cb id 1 "Ann" 7 w1)))
        = Some row
      ∧ Db.p_age row = Some 30
      ∧ Db.p_gender row = None
      ∧ Db.p_interest row = None
      ∧ Db.p_city row = None
      ∧ Db.p_bio row = None.
Proof.
  cbn zeta. split.
  - split_and!; reflexivity.
  - eexists _, _. split; [reflexivity|].
    split; [reflexivity|].
    split; [vm_compute; reflexivity|].
    split_and!; reflexivity.
Qed.


Section CardValues.

Import Game Spec Rules.

Lemma deck_card_points (c : Card) :
  deck_card c ->
  1 <= low_points c <= 10
  ∧ card_points c = (if is_ace c then 11 else low_points c).
Proof.
  unfold deck_card. revert c.
  apply (proj1 (Forall_forall
    (fun c => 1 <= low_points c <= 10
              ∧ card_points c = (if is_ace c then 11 else low_points c))
    unshuffled_deck)).
  let l := eval vm_compute in unshuffled_deck in change unshuffled_deck with l.
  repeat (apply Forall_cons_2; [vm_compute; intuition discriminate|]).
  apply Forall_nil_2.
Qed.

Lemma raw_total_hard (hand : Hand) :
  Forall deck_card hand ->
  raw_total hand = hard_total hand + 10 * Z.of_nat (ace_count hand)
  ∧ Z.of_nat (length hand) <= hard_total hand
  ∧ Z.of_nat (ace_count hand) <= hard_total hand
  ∧ has_ace hand = bool_decide (0 < ace_count hand)%nat.
Proof.
  induction 1 as [|c hand Hc _ (IH1 & IH2 & IH3 & IH4)].
  - done.
  - destruct (deck_card_points c Hc) as (Hlow & Hpts).
    unfold raw_total, hard_total, ace_count, has_ace in *.
    cbn [foldr existsb length]. rewrite IH1, IH4, Hpts.
    unfold low_points in *.
    destruct (is_ace c); cbn [orb]; split_and!; try lia.
    + by rewrite bool_decide_true by lia.
    + done.
Qed.

Lemma hand_value_closed (hand : Hand) :
  Forall deck_card hand ->
  hand_value hand = Ok (best_total hand, soft hand).
Proof.
  intros Hdeck.
  destruct (hand_value_spec hand Hdeck) as ((k & Hk & -> & Hlt & Hstop) & _).
  destruct (raw_total_hard hand Hdeck) as (Hraw & _ & Hace & Hhas).
  unfold best_total, soft. rewrite Hhas.
  destruct (decide (k = ace_count hand)) as [->|Hne].
  - rewrite (bool_decide_false (_ < _)%nat) by lia.
    destruct (ace_count hand) as [|a] eqn:Ea.
    + rewrite bool_decide_false by lia. cbn [andb]. do 2 f_equal. lia.
    + rewrite bool_decide_true by lia. cbn [andb].
      specialize (Hlt a ltac:(lia)).
      rewrite (proj2 (Z.leb_gt _ _)) by lia. do 2 f_equal. lia.
  - specialize (Hstop ltac:(lia)).
    rewrite (bool_decide_true (k < _)%nat) by lia.
    rewrite (bool_decide_true (0 < _)%nat) by lia. cbn [andb].
    rewrite (proj2 (Z.leb_le _ _)) by lia. do 2 f_equal. lia.
Qed.

(** X1. [hand_value] returns the best total of a hand of deck cards: with
    every ace at 1, plus 10 exactly when the hand holds an ace and this
    stays at or below 21; the flag tells whether that happened. *)
Theorem hand_value_best_total (hand : Hand) :
  Forall deck_card hand ->
  hand_value hand = Ok (best_total hand, soft hand)
  ∧ (best_total hand <= 21 <-> hard_total hand <= 21)
  ∧ (soft hand = true -> best_total hand <= 21).
Proof.
  intros Hdeck. split; [by apply hand_value_closed|].
  unfold best_total, soft.
  destruct (has_ace hand); cbn [andb]; [|split; [done|discriminate]].
  destruct (hard_total hand <=? 11) eqn:E.
  - apply Z.leb_le in E. lia.
  - apply Z.leb_gt in E. split; [done|discriminate].
Qed.

Lemma hand_value_best_total_witness :
  Forall deck_card ["AS"; "7H"; "9C"]
  ∧ hand_value ["AS"; "7H"; "9C"] = Ok (17, false).
Proof.
  assert (H : Forall deck_card ["AS"; "7H"; "9C"]).
  { repeat (apply Forall_cons_2;
            [apply (bool_decide_unpack _); vm_compute; exact I|]).
    apply Forall_nil_2. }
  split; [exact H|].
  exact (proj1 (hand_value_best_total ["AS"; "7H"; "9C"] H)).
Defined.

Lemma int_of_str_Raise (s : string) (e : exn) :
  Py.int_of_str s = Raise e -> e = ValueError.
Proof.
  unfold Py.int_of_str. destruct s; [by intros [= <-]|].
  destruct (Py.parse_digits _ _); [discriminate|by intros [= <-]].
Qed.

Lemma hand_sum_swap (x y : Card) (hand : Hand) (total : Z) (aces : nat) :
  hand_sum (x :: y :: hand) total aces = hand_sum (y :: x :: hand) total aces.
Proof.
  cbn [hand_sum].
  assert (Hc : forall a b c : Z, a + b + c = a + c + b) by (intros; lia).
  repeat case_bool_decide;
    try (rewrite Hc; reflexivity);
    destruct (Py.int_of_str (card_rank x)) as [n|e] eqn:Ex;
    destruct (Py.int_of_str (card_rank y)) as [m|e'] eqn:Ey;
    cbn; rewrite ?Ex, ?Ey; cbn;
    try (rewrite Hc; reflexivity); try reflexivity.
  apply int_of_str_Raise in Ex, Ey. congruence.
Qed.

Lemma hand_sum_perm (hand hand' : Hand) :
  hand ≡ₚ hand' ->
  forall total aces, hand_sum hand total aces = hand_sum hand' total aces.
Proof.
  induction 1 as [|c l l' _ IH|x y l|l l' l'' _ IH1 _ IH2]; intros total aces.
  - done.
  - cbn [hand_sum]. repeat case_bool_decide; try apply IH.
    destruct (Py.int_of_str _); cbn; [apply IH|done].
  - apply hand_sum_swap.
  - by rewrite IH1.
Qed.

(** X2. On deck cards the value of a hand does not depend on the order
    of its cards, and neither does the blackjack test: two hands of deck
    cards that are permutations of each other get the same total and the
    same soft flag, and neither call raises. *)
Theorem hand_value_permutation (hand hand' : Hand) :
  Forall deck_card hand ->
  hand ≡ₚ hand' ->
  hand_value hand = hand_value hand'
  ∧ is_blackjack hand = is_blackjack hand'
  ∧ exists total soft b,
      hand_value hand' = Ok (total, soft) ∧ is_blackjack hand' = Ok b.
Proof.
  intros Hdeck Hp.
  assert (Hdeck' : Forall deck_card hand').
  { apply Forall_forall. intros c Hc. rewrite Forall_forall in Hdeck.
    apply Hdeck. by rewrite Hp. }
  assert (Hv : hand_value hand = hand_value hand').
  { unfold hand_value. by rewrite (hand_sum_perm _ _ Hp). }
  split; [done|]. split.
  - unfold is_blackjack. rewrite Hv, (Permutation_length Hp). done.
  - exists (best_total hand'), (soft hand'),
      (bool_decide (length hand' = 2%nat) && (best_total hand' =? 21)).
    split; [by apply hand_value_closed|].
    unfold is_blackjack. by rewrite (hand_value_closed hand' Hdeck').
Qed.

Lemma hand_value_permutation_witness :
  hand_value ["AS"; "KD"; "5C"] = hand_value ["5C"; "AS"; "KD"].
Proof.
  refine (proj1 (hand_value_permutation ["AS"; "KD"; "5C"] ["5C"; "AS"; "KD"]
                   _ _)).
  - apply (bool_decide_unpack _). vm_compute. exact I.
  - apply (bool_decide_unpack _). vm_compute. exact I.
Defined.

(** X3. On deck cards [is_blackjack] never raises, and it answers yes
    exactly for a two-card hand made of an ace and a card worth ten, in
    either order. *)
Theorem is_blackjack_iff (hand : Hand) :
  Forall deck_card hand ->
  is_blackjack hand =
  Ok (match hand with
      | [c1; c2] => (is_ace c1 && is_ten c2) || (is_ace c2 && is_ten c1)
      | _ => false
      end).
Proof.
  intros Hdeck. unfold is_blackjack.
  rewrite (hand_value_closed hand Hdeck). cbn.
  destruct hand as [|c1 [|c2 [|c3 hand]]]; try reflexivity.
  apply Forall_cons in Hdeck as (H1 & (H2 & _)%Forall_cons).
  apply deck_card_points in H1 as (Hl1 & Hp1), H2 as (Hl2 & Hp2).
  f_equal. cbn [length bool_decide decide_rel]. rewrite bool_decide_true by done.
  cbn [andb]. unfold best_total, soft, has_ace, hard_total, is_ten.
  cbn [existsb foldr]. rewrite Hp1, Hp2. unfold low_points in *.
  destruct (is_ace c1), (is_ace c2); cbn [orb andb];
    repeat match goal with
           | |- context [?a <=? ?b] => destruct (Z.leb_spec a b)
           | |- context [?a =? ?b] => destruct (Z.eqb_spec a b)
           end; cbn [orb andb]; try reflexivity; lia.
Qed.

Lemma is_blackjack_iff_witness :
  is_blackjack ["KD"; "AS"] = Ok true ∧ is_blackjack ["10D"; "5S"; "6C"] = Ok false.
Proof.
  split.
  - refine (eq_trans (is_blackjack_iff ["KD"; "AS"] _) eq_refl).
    repeat (apply Forall_cons_2;
            [apply (bool_decide_unpack _); vm_compute; exact I|]).
    apply Forall_nil_2.
  - refine (eq_trans (is_blackjack_iff ["10D"; "5S"; "6C"] _) eq_refl).
    repeat (apply Forall_cons_2;
            [apply (bool_decide_unpack _); vm_compute; exact I|]).
    apply Forall_nil_2.
Defined.

Lemma hard_total_snoc (hand : Hand) (c : Card) :
  hard_total (hand ++ [c]) = hard_total hand + low_points c.
Proof.
  unfold hard_total. induction hand as [|d hand IH]; cbn [app foldr]; lia.
Qed.

Lemma has_ace_snoc (hand : Hand) (c : Card) :
  has_ace (hand ++ [c]) = has_ace hand || is_ace c.
Proof.
  unfold has_ace. rewrite existsb_app. cbn. by rewrite orb_false_r.
Qed.

(** A hand that calls for a card is at 16 or less with every ace at 1. *)
Lemma dealer_draws_hard (hand : Hand) :
  dealer_draws (best_total hand) (soft hand) = true <-> 
  hard_total hand < 17 ∧ (soft hand = true -> hard_total hand <= 7).
Proof.
  rewrite dealer_draws_iff. unfold best_total.
  destruct (soft hand) eqn:E.
  - unfold soft in E. apply andb_true_iff in E as (_ & E%Z.leb_le). lia.
  - intuition (try discriminate; lia).
Qed.

Lemma best_total_snoc (hand : Hand) (c : Card) :
  deck_card c ->
  best_total (hand ++ [c]) <= Z.max 21 (best_total hand + 10).
Proof.
  intros (Hlow & _)%deck_card_points.
  unfold best_total, soft. rewrite hard_total_snoc, has_ace_snoc.
  destruct (has_ace hand), (is_ace c); cbn [orb andb];
    repeat match goal with
           | |- context [?a <=? ?b] => destruct (Z.leb_spec a b)
           end; lia.
Qed.

Lemma dealer_play_total (deck : list Card) :
  Forall deck_card deck ->
  forall hand : Hand,
    Forall deck_card hand ->
    17 - hard_total hand <= Z.of_nat (length deck) ->
    exists (hand' : Hand) (deck' : list Card),
      dealer_play hand deck = Ok (hand', deck')
      ∧ Forall deck_card hand'
      ∧ 17 <= best_total hand'
      ∧ (hand' = hand ∨ best_total hand' <= 26)
      ∧ (length hand' + length deck' = length hand + length deck)%nat.
Proof.
  induction deck as [|c deck IH] using rev_ind; intros Hdeck hand Hhand Hlen;
    rewrite dealer_play_unfold, (hand_value_closed hand Hhand);
    destruct (dealer_draws (best_total hand) (soft hand)) eqn:Hd.
  - apply dealer_draws_hard in Hd. cbn in Hlen. lia.
  - exists hand, []. split_and!; try done; [|by left].
    destruct (Z.lt_ge_cases (best_total hand) 17) as [Hlt|]; [|done].
    rewrite (proj2 (dealer_draws_iff _ _)) in Hd by (by left). done.
  - rewrite draw_card_snoc.
    apply Forall_app in Hdeck as (Hdeck & (Hc & _)%Forall_cons).
    pose proof (deck_card_points c Hc) as (Hlow & _).
    destruct (IH Hdeck (hand ++ [c])) as (hand' & deck' & Hplay & Hok & H17 & Hup & Hcount).
    { apply Forall_app. split; [done|]. by apply Forall_cons_2. }
    { rewrite hard_total_snoc. rewrite length_app in Hlen. cbn in Hlen. lia. }
    exists hand', deck'. split_and!; try done.
    + right. destruct Hup as [->|]; [|done].
      pose proof (best_total_snoc hand c Hc) as Hb.
      apply dealer_draws_iff in Hd as [Hd|(Hd & Hs)]; [lia|].
      (* a soft 17 holds 7 with every ace at 1 *)
      assert (H7 : hard_total hand = 7).
      { unfold best_total in Hd. rewrite Hs in Hd. lia. }
      clear Hb. unfold best_total, soft.
      rewrite hard_total_snoc, has_ace_snoc, H7.
      destruct (has_ace hand || is_ace c); cbn [andb];
        [destruct (Z.leb_spec (7 + low_points c) 11)|]; lia.
    + rewrite !length_app in *. cbn in *. lia.
  - exists hand, (deck ++ [c]). split_and!; try done; [|by left].
    destruct (Z.lt_ge_cases (best_total hand) 17) as [Hlt|]; [|done].
    rewrite (proj2 (dealer_draws_iff _ _)) in Hd by (by left). done.
Qed.

(** X4. With deck cards in the hand and at least 17 cards left in the
    deck (fewer are enough for a hand that already holds points) the
    dealer's turn always finishes: it raises nothing, ends on a total of
    at least 17, of at most 26 if a card was drawn, and every card drawn
    went from the deck to the hand. *)
Theorem dealer_play_finishes (hand : Hand) (deck : list Card) :
  Forall deck_card hand ->
  Forall deck_card deck ->
  17 - hard_total hand <= Z.of_nat (length deck) ->
  exists (hand' : Hand) (deck' : list Card) (total : Z) (is_soft : bool),
    dealer_play hand deck = Ok (hand', deck')
    ∧ hand_value hand' = Ok (total, is_soft)
    ∧ 17 <= total
    ∧ (hand' = hand ∨ total <= 26)
    ∧ dealer_trace hand deck hand' deck'.
Proof.
  intros Hhand Hdeck Hlen.
  destruct (dealer_play_total deck Hdeck hand Hhand Hlen)
    as (hand' & deck' & Hplay & Hok & H17 & Hup & _).
  exists hand', deck', (best_total hand'), (soft hand').
  split_and!; try done.
  - by apply hand_value_closed.
  - by apply dealer_play_trace.
Qed.

Lemma dealer_play_finishes_witness :
  exists hand' deck' total is_soft,
    dealer_play ["AS"; "6C"] ["2C"; "3C"; "4C"; "5C"; "6D"; "7D"; "8D"; "9D"; "3D"; "2H"; "KD"] = Ok (hand', deck')
    ∧ hand_value hand' = Ok (total, is_soft)
    ∧ 17 <= total
    ∧ (hand' = ["AS"; "6C"] ∨ total <= 26)
    ∧ dealer_trace ["AS"; "6C"] ["2C"; "3C"; "4C"; "5C"; "6D"; "7D"; "8D"; "9D"; "3D"; "2H"; "KD"] hand' deck'.
Proof.
  apply (dealer_play_finishes ["AS"; "6C"] ["2C"; "3C"; "4C"; "5C"; "6D"; "7D"; "8D"; "9D"; "3D"; "2H"; "KD"]).
  - repeat (apply Forall_cons_2;
            [apply (bool_decide_unpack _); vm_compute; exact I|]).
    apply Forall_nil_2.
  - repeat (apply Forall_cons_2;
            [apply (bool_decide_unpack _); vm_compute; exact I|]).
    apply Forall_nil_2.
  - apply Z.leb_le. vm_compute. reflexivity.
Defined.

(** X5. Whatever permutation the shuffle produces, [build_deck] returns
    the 52 cards of the deck, each of them once, and every one is a rank
    followed by a suit. *)
Theorem build_deck_cards (shuffle : list Card -> list Card) :
  (forall l, shuffle l ≡ₚ l) ->
  length (build_deck shuffle) = 52%nat
  ∧ NoDup (build_deck shuffle)
  ∧ (forall c, c ∈ build_deck shuffle <->
               exists r s, r ∈ ranks ∧ s ∈ suits ∧ c = r +:+ s)
  ∧ Forall deck_card (build_deck shuffle).
Proof.
  intros Hperm. unfold build_deck. specialize (Hperm unshuffled_deck).
  split_and!.
  - by rewrite Hperm.
  - rewrite Hperm. apply (bool_decide_unpack _). by vm_compute.
  - intros c. rewrite Hperm. unfold unshuffled_deck.
    rewrite list_elem_of_bind. split.
    + intros (r & (s & Hc%list_elem_of_singleton & Hs)%list_elem_of_bind & Hr). eauto.
    + intros (r & s & Hr & Hs & ->). exists r. split; [|done].
      apply list_elem_of_bind. exists s. split; [|done]. by apply list_elem_of_singleton.
  - apply Forall_forall. intros c Hc. unfold deck_card. by rewrite <- Hperm.
Qed.

Lemma build_deck_cards_witness : length (build_deck reverse) = 52%nat.
Proof.
  refine (proj1 (build_deck_cards reverse _)).
  intros l. apply reverse_Permutation.
Defined.

End CardValues.

Section Moves.

Import Game Db Handlers Spec Rules Sqlite Rounds Examples Deals.

Lemma load_save_session (u u' : Z) (deck : list Card) (ph dh : Hand) (bet : Z)
    (st : Store) :
  load_blackjack_session u (save_blackjack_session u' deck ph dh bet st)
  = if decide (u = u') then Some (mkSession deck ph dh bet "active")
    else load_blackjack_session u st.
Proof.
  unfold load_blackjack_session, save_blackjack_session. cbn.
  destruct (decide (u = u')) as [->|Hne].
  - apply lookup_insert_eq.
  - by apply lookup_insert_ne.
Qed.

Lemma load_clear_session (u u' : Z) (st : Store) :
  load_blackjack_session u (clear_blackjack_session u' st)
  = if decide (u = u') then None else load_blackjack_session u st.
Proof.
  unfold load_blackjack_session, clear_blackjack_session. cbn.
  destruct (decide (u = u')) as [->|Hne].
  - apply lookup_delete_eq.
  - by apply lookup_delete_ne.
Qed.

Lemma load_ensure_wallet (u u' : Z) (st : Store) :
  load_blackjack_session u (ensure_wallet u' st) = load_blackjack_session u st.
Proof. unfold load_blackjack_session. by autorewrite with store. Qed.

Lemma load_adjust_balance (u u' d : Z) (st : Store) :
  load_blackjack_session u (adjust_balance u' d st).2
  = load_blackjack_session u st.
Proof. unfold load_blackjack_session. by autorewrite with store. Qed.

Lemma load_increment_stat (u u' : Z) (f : string) (d : Z) (st : Store) :
  load_blackjack_session u (increment_stat u' f d st)
  = load_blackjack_session u st.
Proof. unfold load_blackjack_session. by autorewrite with store. Qed.

Lemma load_credit (u u' bet : Z) (o : Outcome) (st : Store) :
  load_blackjack_session u (credit u' bet o st) = load_blackjack_session u st.
Proof. destruct o; cbn [credit]; by rewrite ?load_adjust_balance. Qed.

Lemma balance_of_credit_other (u u' bet : Z) (o : Outcome) (st : Store) :
  u ≠ u' -> balance_of u (credit u' bet o st) = balance_of u st.
Proof.
  intros Hne.
  destruct o; cbn [credit]; by rewrite ?balance_of_adjust, ?decide_False by done.
Qed.

(** A hit on a stored round whose deck is not empty. *)
Lemma blackjack_hit_run (u : Z) (w : World) (s : Session)
    (deck' : list Card) (c : Card) :
  load_blackjack_session u (db w) = Some s ->
  deck s = deck' ++ [c] ->
  Forall deck_card (player_hand s ++ [c]) ->
  dealer_hand s ≠ [] ->
  let ph := player_hand s ++ [c] in
  let saved := save_blackjack_session u deck' ph (dealer_hand s) (bet s) (db w) in
  blackjack_hit u w
  = if 21 <? best_total ph then
      Return tt (mkWorld (ensure_wallet u (clear_blackjack_session u saved))
                   (user_data w) (sent w ++ ["blackjack_bust"]))
    else
      Return tt (mkWorld saved (user_data w) (sent w ++ ["blackjack_title"])).
Proof.
  intros Hs Hdeck Hcards Hdh. cbn zeta.
  unfold blackjack_hit, send_blackjack_state. hm_run.
  rewrite Hs, Hdeck, draw_card_snoc. hm_run.
  rewrite !(hand_value_closed _ Hcards). hm_run.
  destruct (21 <? best_total _); hm_run.
  - by rewrite get_balance_eq.
  - destruct (dealer_hand s); done.
Qed.

(** X6. A hit moves the top card of the deck to the player's hand and
    never touches a balance: the stake was debited when the bet was
    placed.  The round stays stored with the longer hand unless the hand
    went over 21, in which case it is removed; other users' rounds are
    not touched. *)
Theorem blackjack_hit_step (u : Z) (w : World) (s : Session)
    (deck' : list Card) (c : Card) :
  load_blackjack_session u (db w) = Some s ->
  deck s = deck' ++ [c] ->
  Forall deck_card (player_hand s ++ [c]) ->
  dealer_hand s ≠ [] ->
  let ph := player_hand s ++ [c] in
  let bust := 21 <? best_total ph in
  exists w',
    blackjack_hit u w = Return tt w'
    ∧ load_blackjack_session u (db w')
      = (if bust then None
         else Some (mkSession deck' ph (dealer_hand s) (bet s) "active"))
    ∧ (forall u', balance_of u' (db w') = balance_of u' (db w))
    ∧ (forall u', u' ≠ u ->
         load_blackjack_session u' (db w') = load_blackjack_session u' (db w))
    ∧ user_stats (db w') = user_stats (db w)
    ∧ sent w' = sent w ++ [if bust then "blackjack_bust" else "blackjack_title"].
Proof.
  intros Hs Hdeck Hcards Hdh ph bust.
  pose proof (blackjack_hit_run u w s deck' c Hs Hdeck Hcards Hdh) as Hrun.
  cbn zeta in Hrun. fold ph in Hrun. fold bust in Hrun.
  destruct bust; eexists; (split; [exact Hrun|]); cbn [db sent].
  - split_and!.
    + by rewrite load_ensure_wallet, load_clear_session, decide_True.
    + intros u'. by rewrite balance_of_ensure_wallet, balance_of_clear_session,
        balance_of_save_session.
    + intros u' Hne. by rewrite load_ensure_wallet, load_clear_session,
        decide_False, load_save_session, decide_False.
    + by autorewrite with store.
    + done.
  - split_and!.
    + by rewrite load_save_session, decide_True.
    + intros u'. by rewrite balance_of_save_session.
    + intros u' Hne. by rewrite load_save_session, decide_False.
    + by autorewrite with store.
    + done.
Qed.

Lemma hard_le_best (hand : Hand) : hard_total hand <= best_total hand.
Proof. unfold best_total. destruct (soft hand); lia. Qed.

Lemma best_le_21 (hand : Hand) : best_total hand <= 21 <-> hard_total hand <= 21.
Proof.
  unfold best_total, soft. destruct (has_ace hand); cbn [andb]; [|done].
  destruct (Z.leb_spec (hard_total hand) 11); lia.
Qed.

(** A live round has at least 29 cards left in the deck. *)
Lemma live_round_deck (s : Session) :
  live_round s -> (29 <= length (deck s))%nat.
Proof.
  intros (_ & Hph & _ & _ & Hlen & Hbest).
  destruct (raw_total_hard _ Hph) as (_ & Hl & _).
  pose proof (hard_le_best (player_hand s)). lia.
Qed.

(** A stand on a stored round whose dealer finishes. *)
Lemma blackjack_stand_run (u : Z) (rnd : Q) (w : World) (s : Session)
    (dealer_final : Hand) (deck' : list Card) :
  load_blackjack_session u (db w) = Some s ->
  dealer_play (dealer_hand s) (deck s) = Ok (dealer_final, deck') ->
  Forall deck_card (player_hand s) ->
  Forall deck_card dealer_final ->
  let o := outcome_of (best_total (player_hand s)) (best_total dealer_final)
             (forced_bust (get_blackjack_boost u (db w)) rnd
                (best_total (player_hand s)) (best_total dealer_final)) in
  exists msg,
    blackjack_stand u rnd w
    = Return tt
        (mkWorld
           (clear_blackjack_session u (ensure_wallet u (credit u (bet s) o (db w))))
           (user_data w) (sent w ++ [msg])).
Proof.
  intros Hs Hplay Hph Hdf. cbn zeta.
  unfold blackjack_stand. hm_run. rewrite Hs, Hplay. hm_run.
  apply (resolve_blackjack_outcome_run u (player_hand s) dealer_final (bet s) rnd w
           _ _ _ _ (hand_value_closed _ Hph) (hand_value_closed _ Hdf)).
Qed.

(** A double that is turned down. *)
Lemma blackjack_double_refused_run (u : Z) (rnd : Q) (w : World) (s : Session) :
  load_blackjack_session u (db w) = Some s ->
  (length (player_hand s) ≠ 2%nat ->
   blackjack_double u rnd w
   = Return tt (mkWorld (db w) (user_data w) (sent w ++ ["double_not_allowed"])))
  ∧ (length (player_hand s) = 2%nat ->
     balance_of u (db w) < bet s ->
     blackjack_double u rnd w
     = Return tt (mkWorld (ensure_wallet u (db w)) (user_data w)
                    (sent w ++ ["not_enough_points"]))).
Proof.
  intros Hs. split.
  - intros Hlen. unfold blackjack_double. hm_run. rewrite Hs.
    by rewrite (bool_decide_eq_false_2 _ Hlen).
  - intros Hlen Hlt. unfold blackjack_double. hm_run. rewrite Hs.
    rewrite (bool_decide_eq_true_2 _ Hlen). cbn [negb].
    rewrite get_balance_eq. cbn [db user_data sent].
    by rewrite (proj2 (Z.ltb_lt _ _) Hlt).
Qed.

(** A double that is taken: the second stake is debited, one card is
    drawn, and the round ends either on the player's bust or on the
    dealer's turn. *)
Lemma blackjack_double_run (u : Z) (rnd : Q) (w : World) (s : Session)
    (deck' : list Card) (c : Card) :
  load_blackjack_session u (db w) = Some s ->
  length (player_hand s) = 2%nat ->
  bet s <= balance_of u (db w) ->
  deck s = deck' ++ [c] ->
  Forall deck_card (player_hand s ++ [c]) ->
  let ph := player_hand s ++ [c] in
  let debited := (adjust_balance u (- bet s) (ensure_wallet u (db w))).2 in
  (21 < best_total ph ->
   blackjack_double u rnd w
   = Return tt
       (mkWorld (ensure_wallet u (clear_blackjack_session u debited))
          (user_data w) (sent w ++ ["blackjack_bust"])))
  ∧ (best_total ph <= 21 ->
     forall dealer_final deck'',
       dealer_play (dealer_hand s) deck' = Ok (dealer_final, deck'') ->
       Forall deck_card dealer_final ->
       let o := outcome_of (best_total ph) (best_total dealer_final)
                  (forced_bust (get_blackjack_boost u (db w)) rnd
                     (best_total ph) (best_total dealer_final)) in
       exists msg,
         blackjack_double u rnd w
         = Return tt
             (mkWorld
                (clear_blackjack_session u
                   (ensure_wallet u
                      (credit u (bet s * 2) o (clear_blackjack_session u debited))))
                (user_data w) (sent w ++ [msg]))).
Proof.
  intros Hs Hlen Hle Hdeck Hcards. cbn zeta.
  assert (Hstart :
    blackjack_double u rnd w
    = (let ph := player_hand s ++ [c] in
       '(total, _) ← lift (hand_value ph);
       if 21 <? total then
         (db_exec (clear_blackjack_session u);;
          _ ← db_call (get_balance u);
          respond "blackjack_bust")
       else
         '(dealer_hand, _) ← lift (dealer_play (dealer_hand s) deck');
         db_exec (clear_blackjack_session u);;
         resolve_blackjack_outcome u ph dealer_hand (bet s * 2) rnd)
        (mkWorld (adjust_balance u (- bet s) (ensure_wallet u (db w))).2
           (user_data w) (sent w))).
  { unfold blackjack_double. hm_run. rewrite Hs.
    rewrite (bool_decide_eq_true_2 _ Hlen). cbn [negb].
    rewrite get_balance_eq. cbn [db user_data sent].
    rewrite (proj2 (Z.ltb_ge _ _) Hle). hm_run.
    destruct (adjust_balance u (- bet s) _) as [b st'].
    cbn [db user_data sent snd].
    rewrite Hdeck, draw_card_snoc. reflexivity. }
  rewrite Hstart. clear Hstart. cbn zeta.
  hm_run. rewrite (hand_value_closed _ Hcards). hm_run.
  split.
  - intros Hbust. rewrite (proj2 (Z.ltb_lt _ _) Hbust). hm_run.
    by rewrite get_balance_eq.
  - intros Hok dealer_final deck'' Hplay Hdf.
    rewrite (proj2 (Z.ltb_ge _ _) Hok). rewrite Hplay. hm_run.
    set (w1 := mkWorld _ _ _).
    destruct (resolve_blackjack_outcome_run u (player_hand s ++ [c]) dealer_final
                (bet s * 2) rnd w1 _ _ _ _
                (hand_value_closed _ Hcards) (hand_value_closed _ Hdf)) as (msg & E).
    cbn zeta in E. exists msg. rewrite E. unfold w1. cbn [db user_data sent].
    unfold get_blackjack_boost. by autorewrite with store.
Qed.

Lemma blackjack_hit_step_witness :
  load_blackjack_session 1 (db (world_of (blackjack_hit 1 kings_table))) = None
  ∧ balance_of 1 (db (world_of (blackjack_hit 1 kings_table))) = 90
  ∧ sent (world_of (blackjack_hit 1 kings_table))
    = ["blackjack_title"; "blackjack_bust"].
Proof.
  destruct (blackjack_hit_step 1 kings_table
              (mkSession (take 48 unshuffled_deck) ["KS"; "KC"] ["KD"; "KH"] 10
                 "active")
              (take 47 unshuffled_deck) "QS")
    as (w' & Hrun & Hload & Hbal & _ & _ & Hsent).
  - reflexivity.
  - reflexivity.
  - apply (bool_decide_unpack _). vm_compute. exact I.
  - discriminate.
  - rewrite Hrun. cbn [world_of]. split_and!.
    + exact Hload.
    + exact (eq_trans (Hbal 1) eq_refl).
    + exact Hsent.
Defined.

(** X7. A double on a hand that does not hold exactly two cards, or with
    a balance below the stake, is answered with one message and changes
    nothing a user can observe: no card is drawn, nothing is debited and
    the round stays stored as it was. *)
Theorem blackjack_double_refused (u : Z) (rnd : Q) (w : World) (s : Session) :
  load_blackjack_session u (db w) = Some s ->
  length (player_hand s) ≠ 2%nat ∨ balance_of u (db w) < bet s ->
  exists w',
    blackjack_double u rnd w = Return tt w'
    ∧ unchanged (db w) (db w')
    ∧ load_blackjack_session u (db w') = Some s
    ∧ user_data w' = user_data w
    ∧ sent w'
      = sent w ++ [if decide (length (player_hand s) = 2%nat)
                   then "not_enough_points" else "double_not_allowed"].
Proof.
  intros Hs Hwhy.
  destruct (blackjack_double_refused_run u rnd w s Hs) as (Hcards & Hpoor).
  destruct (decide (length (player_hand s) = 2%nat)) as [Hlen|Hlen].
  - destruct Hwhy as [|Hlt]; [done|].
    eexists. split; [by apply Hpoor|]. cbn [db user_data sent].
    split_and!; [apply unchanged_ensure_wallet| |done|done].
    by rewrite load_ensure_wallet.
  - eexists. split; [by apply Hcards|]. cbn [db user_data sent].
    split_and!; [apply unchanged_refl|done|done|done].
Qed.

Lemma blackjack_double_refused_witness :
  exists w',
    blackjack_double 1 0%Q aces_hit_table = Return tt w'
    ∧ unchanged (db aces_hit_table) (db w')
    ∧ sent w' = sent aces_hit_table ++ ["double_not_allowed"].
Proof.
  destruct (blackjack_double_refused 1 0%Q aces_hit_table
              (mkSession (take 47 (reverse unshuffled_deck)) ["AH"; "AD"; "2H"]
                 ["AC"; "AS"] 10 "active"))
    as (w' & Hrun & Hsame & _ & _ & Hsent).
  - reflexivity.
  - left. cbn. discriminate.
  - exists w'. split_and!; [exact Hrun|exact Hsame|exact Hsent].
Defined.

Lemma balance_of_double_debit (u : Z) (s : Session) (st : Store) :
  balance_of u
    (clear_blackjack_session u (adjust_balance u (- bet s) (ensure_wallet u st)).2)
  = balance_of u st - bet s.
Proof.
  rewrite balance_of_clear_session, balance_of_adjust, decide_True,
    balance_of_ensure_wallet by done. lia.
Qed.

(** X8. A double that is taken on a live round debits the stake a second
    time, draws one card and ends the round.  If the player goes over 21
    the wallet stays at the balance less the second stake.  Otherwise the
    dealer plays and the round is settled on the doubled stake: twice the
    doubled stake back on a win, the doubled stake back on a push,
    nothing on a loss.  Either way no round is stored afterwards. *)
Theorem blackjack_double_settles (u : Z) (rnd : Q) (w : World) (s : Session)
    (deck' : list Card) (c : Card) :
  load_blackjack_session u (db w) = Some s ->
  live_round s ->
  length (player_hand s) = 2%nat ->
  bet s <= balance_of u (db w) ->
  deck s = deck' ++ [c] ->
  let ph := player_hand s ++ [c] in
  exists w',
    blackjack_double u rnd w = Return tt w'
    ∧ load_blackjack_session u (db w') = None
    ∧ (21 < best_total ph ->
       balance_of u (db w') = balance_of u (db w) - bet s)
    ∧ (best_total ph <= 21 ->
       exists dealer_final deck'',
         dealer_play (dealer_hand s) deck' = Ok (dealer_final, deck'')
         ∧ balance_of u (db w')
           = balance_of u (db w) - bet s
             + payout (bet s * 2)
                 (outcome_of (best_total ph) (best_total dealer_final)
                    (forced_bust (get_blackjack_boost u (db w)) rnd
                       (best_total ph) (best_total dealer_final)))).
Proof.
  intros Hs Hlive Hlen Hle Hdeck ph.
  pose proof (live_round_deck s Hlive) as Hlong.
  destruct Hlive as (Hd & Hph & Hdh & Hdh2 & Hcount & _).
  rewrite Hdeck in Hd, Hlong.
  apply Forall_app in Hd as (Hd' & (Hc & _)%Forall_cons).
  assert (Hcards : Forall deck_card ph).
  { apply Forall_app. split; [done|]. by apply Forall_cons_2. }
  destruct (blackjack_double_run u rnd w s deck' c Hs Hlen Hle Hdeck Hcards)
    as (Hbust & Hplay).
  destruct (Z.lt_ge_cases 21 (best_total ph)) as [Hover|Hok].
  - eexists. split; [by apply Hbust|]. cbn [db].
    split_and!; [| |lia].
    + by rewrite load_ensure_wallet, load_clear_session, decide_True.
    + intros _. by rewrite balance_of_ensure_wallet, balance_of_double_debit.
  - destruct (dealer_play_total deck' Hd' (dealer_hand s) Hdh)
      as (dealer_final & deck'' & Hdealer & Hdf & _).
    { destruct (raw_total_hard _ Hdh) as (_ & Hl & _).
      rewrite length_app in Hlong. cbn in Hlong. lia. }
    destruct (Hplay Hok dealer_final deck'' Hdealer Hdf) as (msg & Hrun).
    eexists. split; [exact Hrun|]. cbn [db].
    split_and!; [|lia|].
    + by rewrite load_clear_session, decide_True.
    + intros _. exists dealer_final, deck''. split; [done|].
      by rewrite balance_of_clear_session, balance_of_ensure_wallet,
        balance_of_credit, balance_of_double_debit.
Qed.

Lemma blackjack_double_settles_witness :
  exists w',
    blackjack_double 1 0%Q aces_table = Return tt w'
    ∧ load_blackjack_session 1 (db w') = None
    ∧ balance_of 1 (db w') = 80.
Proof.
  destruct (blackjack_double_settles 1 0%Q aces_table
              (mkSession (take 48 (reverse unshuffled_deck)) ["AH"; "AD"]
                 ["AC"; "AS"] 10 "active")
              (take 47 (reverse unshuffled_deck)) "2H")
    as (w' & Hrun & Hload & _ & Hbal).
  - reflexivity.
  - unfold live_round. cbn [deck player_hand dealer_hand].
    split_and!;
      try (apply (bool_decide_unpack _); vm_compute; exact I);
      reflexivity.
  - reflexivity.
  - vm_compute. discriminate.
  - reflexivity.
  - exists w'. split_and!; [exact Hrun|exact Hload|].
    destruct Hbal as (dealer_final & deck'' & Hplay & ->).
    { vm_compute. discriminate. }
    vm_compute in Hplay. injection Hplay as <- <-. reflexivity.
Defined.

(** *** Play never runs out of cards *)

Lemma tables_live_sessions (st st' : Store) :
  blackjack_sessions st' = blackjack_sessions st ->
  tables_live st -> tables_live st'.
Proof.
  intros E Hlive u s. unfold load_blackjack_session. rewrite E. apply Hlive.
Qed.

Lemma tables_live_clear (u : Z) (st : Store) :
  tables_live st -> tables_live (clear_blackjack_session u st).
Proof.
  intros Hlive u' s. rewrite load_clear_session.
  destruct (decide (u' = u)); [done|apply Hlive].
Qed.

Lemma tables_live_save (u : Z) (deck : list Card) (ph dh : Hand) (bet : Z)
    (st : Store) :
  live_round (mkSession deck ph dh bet "active") ->
  tables_live st ->
  tables_live (save_blackjack_session u deck ph dh bet st).
Proof.
  intros Hnew Hlive u' s. rewrite load_save_session.
  destruct (decide (u' = u)); [by intros [= <-]|apply Hlive].
Qed.

Lemma tables_live_clear_save (u : Z) (deck : list Card) (ph dh : Hand)
    (bet : Z) (st : Store) :
  tables_live st ->
  tables_live
    (clear_blackjack_session u (save_blackjack_session u deck ph dh bet st)).
Proof.
  intros Hlive u' s. rewrite load_clear_session.
  destruct (decide (u' = u)); [done|].
  rewrite load_save_session, decide_False by done. apply Hlive.
Qed.

Lemma tables_live_ensure_wallet (u : Z) (st : Store) :
  tables_live st -> tables_live (ensure_wallet u st).
Proof. apply tables_live_sessions. by autorewrite with store. Qed.

Lemma tables_live_adjust (u d : Z) (st : Store) :
  tables_live st -> tables_live (adjust_balance u d st).2.
Proof. apply tables_live_sessions. by autorewrite with store. Qed.

Lemma tables_live_credit (u bet : Z) (o : Outcome) (st : Store) :
  tables_live st -> tables_live (credit u bet o st).
Proof. destruct o; cbn [credit]; auto using tables_live_adjust. Qed.

Lemma within_weaken (B B' M : Z) (st : Store) :
  B <= B' -> within B M st -> within B' M st.
Proof.
  intros Hle (HM & HB & Hbal & Hbet). split_and!; [done|lia| |done].
  intros v. specialize (Hbal v). lia.
Qed.

Lemma within_ensure_wallet (B M u : Z) (st : Store) :
  within B M st -> within B M (ensure_wallet u st).
Proof.
  intros (HM & HB & Hbal & Hbet). split_and!; [done|done| |].
  - intros v. by rewrite balance_of_ensure_wallet.
  - intros v s. rewrite load_ensure_wallet. apply Hbet.
Qed.

Lemma within_increment_stat (B M u : Z) (f : string) (d : Z) (st : Store) :
  within B M st -> within B M (increment_stat u f d st).
Proof.
  intros (HM & HB & Hbal & Hbet). split_and!; [done|done| |].
  - intros v. by rewrite balance_of_increment_stat.
  - intros v s. rewrite load_increment_stat. apply Hbet.
Qed.

Lemma within_clear (B M u : Z) (st : Store) :
  within B M st -> within B M (clear_blackjack_session u st).
Proof.
  intros (HM & HB & Hbal & Hbet). split_and!; [done|done| |].
  - intros v. by rewrite balance_of_clear_session.
  - intros v s. rewrite load_clear_session.
    destruct (decide (v = u)); [done|apply Hbet].
Qed.

Lemma within_save (B M u : Z) (deck : list Card) (ph dh : Hand) (bet : Z)
    (st : Store) :
  Z.abs bet <= M ->
  within B M st -> within B M (save_blackjack_session u deck ph dh bet st).
Proof.
  intros Hb (HM & HB & Hbal & Hbet). split_and!; [done|done| |].
  - intros v. by rewrite balance_of_save_session.
  - intros v s. rewrite load_save_session.
    destruct (decide (v = u)); [by intros [= <-]|apply Hbet].
Qed.

Lemma within_adjust (B M D u d : Z) (st : Store) :
  Z.abs d <= D ->
  within B M st -> within (B + D) M (adjust_balance u d st).2.
Proof.
  intros Hd (HM & HB & Hbal & Hbet). split_and!; [done|lia| |].
  - intros v. rewrite balance_of_adjust. specialize (Hbal v).
    destruct (decide (v = u)); lia.
  - intros v s. rewrite load_adjust_balance. apply Hbet.
Qed.

Lemma within_credit (B M K u bet : Z) (o : Outcome) (st : Store) :
  Z.abs bet <= K ->
  within B M st -> within (B + 2 * K) M (credit u bet o st).
Proof.
  intros Hb Hw.
  assert (HK : 0 <= K) by lia.
  destruct o; cbn [credit];
    first [ apply within_adjust; [lia|done]
          | apply (within_weaken (B + K)); [lia|]; by apply within_adjust
          | apply (within_weaken B); [lia|done] ].
Qed.

Lemma hit_keeps_table (u B M : Z) (w : World) :
  tables_live (db w) ->
  within B M (db w) ->
  exists w',
    blackjack_hit u w = Return tt w'
    ∧ tables_live (db w') ∧ within B M (db w').
Proof.
  intros Hlive Hin.
  destruct (load_blackjack_session u (db w)) as [s|] eqn:Hs.
  - pose proof (Hlive u s Hs) as Hround.
    pose proof (live_round_deck s Hround) as Hlong.
    assert (Hstake : Z.abs (bet s) <= M) by (by apply Hin in Hs).
    destruct Hround as (Hd & Hph & Hdh & Hdh2 & Hcount & _).
    destruct (deck s) as [|c0 deck0] eqn:Hdeck using rev_ind; [cbn in Hlong; lia|].
    clear IHdeck0.
    apply Forall_app in Hd as (Hd' & (Hc & _)%Forall_cons).
    assert (Hcards : Forall deck_card (player_hand s ++ [c0])).
    { apply Forall_app. split; [done|]. by apply Forall_cons_2. }
    assert (Hne : dealer_hand s ≠ []) by (by destruct (dealer_hand s)).
    pose proof (blackjack_hit_run u w s deck0 c0 Hs Hdeck Hcards Hne) as Hrun.
    cbn zeta in Hrun. rewrite Hrun.
    destruct (Z.ltb_spec 21 (best_total (player_hand s ++ [c0]))) as [Hover|Hok];
      eexists; (split; [reflexivity|]); cbn [db].
    + split.
      * by apply tables_live_ensure_wallet, tables_live_clear_save.
      * by apply within_ensure_wallet, within_clear, within_save.
    + split; [|by apply within_save].
      apply tables_live_save; [|done].
      unfold live_round. cbn [deck player_hand dealer_hand].
      rewrite !length_app in *. cbn [length] in *. split_and!; try done; lia.
  - unfold blackjack_hit. hm_run. rewrite Hs. hm_run.
    rewrite get_last_checkin_eq. eexists. split; [reflexivity|]. cbn [db].
    split; [by apply tables_live_ensure_wallet|by apply within_ensure_wallet].
Qed.

Lemma stand_keeps_table (u B M : Z) (rnd : Q) (w : World) :
  tables_live (db w) ->
  within B M (db w) ->
  exists w',
    blackjack_stand u rnd w = Return tt w'
    ∧ tables_live (db w') ∧ within (B + 2 * M) M (db w').
Proof.
  intros Hlive Hin.
  assert (HM : 0 <= M) by apply Hin.
  destruct (load_blackjack_session u (db w)) as [s|] eqn:Hs.
  - pose proof (Hlive u s Hs) as Hround.
    pose proof (live_round_deck s Hround) as Hlong.
    assert (Hstake : Z.abs (bet s) <= M) by (by apply Hin in Hs).
    destruct Hround as (Hd & Hph & Hdh & Hdh2 & Hcount & _).
    destruct (dealer_play_total (deck s) Hd (dealer_hand s) Hdh)
      as (dealer_final & deck' & Hdealer & Hdf & _).
    { destruct (raw_total_hard _ Hdh) as (_ & Hl & _). lia. }
    destruct (blackjack_stand_run u rnd w s dealer_final deck' Hs Hdealer Hph Hdf)
      as (msg & Hrun).
    eexists. split; [exact Hrun|]. cbn [db]. split.
    + by apply tables_live_clear, tables_live_ensure_wallet, tables_live_credit.
    + by apply within_clear, within_ensure_wallet, within_credit.
  - unfold blackjack_stand. hm_run. rewrite Hs. hm_run.
    rewrite get_last_checkin_eq. eexists. split; [reflexivity|]. cbn [db].
    split; [by apply tables_live_ensure_wallet|].
    apply (within_weaken B); [lia|]. by apply within_ensure_wallet.
Qed.

Lemma double_keeps_table (u B M : Z) (rnd : Q) (w : World) :
  tables_live (db w) ->
  within B M (db w) ->
  exists w',
    blackjack_double u rnd w = Return tt w'
    ∧ tables_live (db w') ∧ within (B + 5 * M) M (db w').
Proof.
  intros Hlive Hin.
  assert (HM : 0 <= M) by apply Hin.
  assert (Hsame : forall st, within B M st -> within (B + 5 * M) M st)
    by (intros st; apply within_weaken; lia).
  destruct (load_blackjack_session u (db w)) as [s|] eqn:Hs.
  - assert (Hstake : Z.abs (bet s) <= M) by (by apply Hin in Hs).
    destruct (blackjack_double_refused_run u rnd w s Hs) as (Hcards & Hpoor).
    destruct (decide (length (player_hand s) = 2%nat)) as [Hlen|Hlen];
      [|eexists; split; [by apply Hcards|split; [done|by apply Hsame]]].
    destruct (Z.lt_ge_cases (balance_of u (db w)) (bet s)) as [Hlt|Hle].
    { eexists. split; [by apply Hpoor|]. cbn [db].
      split; [by apply tables_live_ensure_wallet|].
      by apply Hsame, within_ensure_wallet. }
    pose proof (Hlive u s Hs) as Hround.
    pose proof (live_round_deck s Hround) as Hlong.
    destruct Hround as (Hd & Hph & Hdh & Hdh2 & Hcount & _).
    destruct (deck s) as [|c0 deck0] eqn:Hdeck using rev_ind; [cbn in Hlong; lia|].
    clear IHdeck0.
    apply Forall_app in Hd as (Hd' & (Hc & _)%Forall_cons).
    assert (Hcards' : Forall deck_card (player_hand s ++ [c0])).
    { apply Forall_app. split; [done|]. by apply Forall_cons_2. }
    destruct (blackjack_double_run u rnd w s deck0 c0 Hs Hlen Hle Hdeck Hcards')
      as (Hbust & Hplay).
    assert (Hdebited :
      within (B + M) M (adjust_balance u (- bet s) (ensure_wallet u (db w))).2).
    { apply within_adjust; [lia|]. by apply within_ensure_wallet. }
    destruct (Z.lt_ge_cases 21 (best_total (player_hand s ++ [c0]))) as [Hover|Hok].
    + eexists. split; [by apply Hbust|]. cbn [db]. split.
      * by apply tables_live_ensure_wallet, tables_live_clear, tables_live_adjust,
          tables_live_ensure_wallet.
      * apply (within_weaken (B + M)); [lia|].
        by apply within_ensure_wallet, within_clear.
    + destruct (dealer_play_total deck0 Hd' (dealer_hand s) Hdh)
        as (dealer_final & deck'' & Hdealer & Hdf & _).
      { destruct (raw_total_hard _ Hdh) as (_ & Hl & _).
        rewrite length_app in Hlong. cbn in Hlong. lia. }
      destruct (Hplay Hok dealer_final deck'' Hdealer Hdf) as (msg & Hrun).
      eexists. split; [exact Hrun|]. cbn [db]. split.
      * by apply tables_live_clear, tables_live_ensure_wallet, tables_live_credit,
          tables_live_clear, tables_live_adjust, tables_live_ensure_wallet.
      * apply (within_weaken (B + M + 2 * (2 * M))); [lia|].
        apply within_clear, within_ensure_wallet, within_credit; [lia|].
        by apply within_clear.
  - unfold blackjack_double. hm_run. rewrite Hs. hm_run.
    rewrite get_last_checkin_eq. eexists. split; [reflexivity|]. cbn [db].
    split; [by apply tables_live_ensure_wallet|].
    by apply Hsame, within_ensure_wallet.
Qed.

Lemma is_blackjack_best (hand : Hand) :
  Forall deck_card hand ->
  is_blackjack hand
  = Ok (bool_decide (length hand = 2%nat) && (best_total hand =? 21)).
Proof.
  intros Hdeck. unfold is_blackjack. by rewrite (hand_value_closed hand Hdeck).
Qed.

Lemma last_four {A} (l : list A) :
  (4 <= length l)%nat ->
  exists rest a b c d, l = rest ++ [a; b; c; d].
Proof.
  intros Hlen.
  destruct l as [|d l _] using rev_ind; [cbn in Hlen; lia|].
  destruct l as [|c l _] using rev_ind; [cbn in Hlen; lia|].
  destruct l as [|b l _] using rev_ind; [cbn in Hlen; lia|].
  destruct l as [|a l _] using rev_ind; [cbn in Hlen; lia|].
  exists l, a, b, c, d. by rewrite <- !app_assoc.
Qed.

Lemma bet_keeps_table (u bet B M : Z) (shuffled : list Card) (w : World) :
  shuffled ≡ₚ unshuffled_deck ->
  Z.abs bet <= M ->
  tables_live (db w) ->
  within B M (db w) ->
  exists w',
    handle_bet_selection u bet shuffled w = Return tt w'
    ∧ tables_live (db w') ∧ within (B + 3 * M) M (db w').
Proof.
  intros Hperm Hstake Hlive Hin.
  assert (HM : 0 <= M) by apply Hin.
  destruct (Z.lt_ge_cases (balance_of u (db w)) bet) as [Hlt|Hle].
  { rewrite handle_bet_selection_reject by done.
    eexists. split; [reflexivity|]. cbn [db].
    split; [by apply tables_live_ensure_wallet|].
    apply (within_weaken B); [lia|]. by apply within_ensure_wallet. }
  assert (Hcards : Forall deck_card shuffled).
  { apply Forall_forall. intros c Hc. unfold deck_card. by rewrite <- Hperm. }
  assert (Hlen : length shuffled = 52%nat) by (by rewrite Hperm).
  destruct (last_four shuffled ltac:(lia)) as (rest & d2 & d1 & p2 & p1 & ->).
  apply Forall_app in Hcards
    as (Hrest & (Hd2 & (Hd1 & (Hp2 & (Hp1 & _)%Forall_cons)%Forall_cons)%Forall_cons)%Forall_cons).
  assert (Hph : Forall deck_card [p1; p2]) by (by repeat apply Forall_cons_2).
  assert (Hdh : Forall deck_card [d1; d2]) by (by repeat apply Forall_cons_2).
  pose proof (handle_bet_selection_accept u bet rest p1 p2 d1 d2 _ _ w Hle
                (is_blackjack_best _ Hph) (is_blackjack_best _ Hdh)) as Hrun.
  cbn zeta in Hrun. rewrite Hrun. clear Hrun.
  set (placed := save_blackjack_session _ _ _ _ _ _).
  assert (Hplaced : tables_live placed).
  { apply tables_live_save.
    - unfold live_round. cbn [deck player_hand dealer_hand].
      rewrite length_app in Hlen. cbn [length] in *.
      split_and!; try done; [lia|].
      apply best_le_21.
      apply deck_card_points in Hp1 as (? & _), Hp2 as (? & _).
      unfold hard_total. cbn [foldr]. lia.
    - by apply tables_live_adjust, (tables_live_sessions (ensure_wallet u (db w)));
        [by autorewrite with store|apply tables_live_ensure_wallet]. }
  assert (Hwithin : within (B + M) M placed).
  { apply within_save; [done|]. apply within_adjust; [lia|].
    by apply within_increment_stat, within_ensure_wallet. }
  destruct (_ || _).
  - destruct (_ && _); [|destruct (bool_decide _ && _)]; cbn [fst snd];
      eexists; (split; [reflexivity|]); cbn [db]; (split;
      [auto using tables_live_clear, tables_live_ensure_wallet, tables_live_adjust|]).
    + apply (within_weaken (B + M + M)); [lia|].
      apply within_clear, within_ensure_wallet, within_adjust; [lia|done].
    + apply (within_weaken (B + M + 2 * M)); [lia|].
      apply within_clear, within_ensure_wallet, within_adjust; [lia|done].
    + apply (within_weaken (B + M)); [lia|].
      by apply within_clear, within_ensure_wallet.
  - eexists. split; [reflexivity|]. cbn [db]. split; [done|].
    apply (within_weaken (B + M)); [lia|done].
Qed.

(** X9. Play never runs out of cards.  From a table whose stored rounds
    are live (an empty table, for one), any sequence of bets on shuffled
    decks, hits, stands and doubles by any users runs to its end: no move
    raises, whatever the cards, as long as the amounts stay within what
    SQLite holds: the user ids are 64-bit integers, every stake is
    within [M] and every balance within [B] of zero at the start, and
    [B + 5 * M] times the number of moves is below 2^63.  The stored
    rounds are live again afterwards, each with at least 29 cards in its
    deck, and every balance is still a 64-bit integer. *)
Theorem play_never_fails (ms : list Move) (w : World) (B M : Z) :
  Forall fair ms ->
  Forall (modest M) ms ->
  tables_live (db w) ->
  within B M (db w) ->
  B + 5 * M * Z.of_nat (length ms) < 2 ^ 63 ->
  exists w',
    play ms w = Return tt w'
    ∧ tables_live (db w')
    ∧ (forall u s, load_blackjack_session u (db w') = Some s ->
         (29 <= length (deck s))%nat)
    ∧ within (B + 5 * M * Z.of_nat (length ms)) M (db w')
    ∧ (forall v, int64 (balance_of v (db w'))).
Proof.
  intros Hfair Hmodest Hlive Hin Hbudget.
  assert (Hmain : forall ms w B,
    Forall fair ms -> Forall (modest M) ms ->
    tables_live (db w) -> within B M (db w) ->
    exists w',
      play ms w = Return tt w' ∧ tables_live (db w')
      ∧ within (B + 5 * M * Z.of_nat (length ms)) M (db w')).
  { clear. intros ms. induction ms as [|m ms IH]; intros w B Hfair Hmodest Hlive Hin.
    - exists w. split_and!; [done|done|].
      apply (within_weaken B); [cbn; lia|done].
    - apply Forall_cons in Hfair as [Hm Hfair].
      apply Forall_cons in Hmodest as [Hmm Hmodest].
      assert (HM : 0 <= M) by apply Hin.
      assert (Hstep : exists w1,
        run_move m w = Return tt w1
        ∧ tables_live (db w1) ∧ within (B + 5 * M) M (db w1)).
      { destruct m as [u bet shuffled|u [] rnd]; cbn [run_move run_action].
        - destruct Hmm as [_ Hstake].
          destruct (bet_keeps_table u bet B M shuffled w Hm Hstake Hlive Hin)
            as (w1 & Hrun & Hl & Hw).
          exists w1. split_and!; [done|done|].
          apply (within_weaken (B + 3 * M)); [lia|done].
        - destruct (hit_keeps_table u B M w Hlive Hin) as (w1 & Hrun & Hl & Hw).
          exists w1. split_and!; [done|done|].
          apply (within_weaken B); [lia|done].
        - destruct (stand_keeps_table u B M rnd w Hlive Hin)
            as (w1 & Hrun & Hl & Hw).
          exists w1. split_and!; [done|done|].
          apply (within_weaken (B + 2 * M)); [lia|done].
        - by apply double_keeps_table. }
      destruct Hstep as (w1 & Hrun & Hlive1 & Hin1).
      destruct (IH w1 (B + 5 * M) Hfair Hmodest Hlive1 Hin1)
        as (w' & Hplay & Hlive' & Hin').
      exists w'. split_and!; [|done|].
      + cbn [play]. unfold mbind, HM_bind. by rewrite Hrun.
      + apply (within_weaken (B + 5 * M + 5 * M * Z.of_nat (length ms)));
          [|done].
        cbn [length]. lia. }
  destruct (Hmain ms w B Hfair Hmodest Hlive Hin) as (w' & Hplay & Hlive' & Hin').
  exists w'. split_and!; [done|done| |done|].
  - intros u s Hs. by apply live_round_deck, (Hlive' u).
  - intros v. destruct Hin' as (_ & _ & Hbal & _). specialize (Hbal v).
    unfold int64. lia.
Qed.
Lemma play_never_fails_witness :
  exists w',
    play [Bet 1 10 (reverse unshuffled_deck); Act 1 Hit 0%Q; Act 2 Double 0%Q;
          Act 1 Stand 0%Q] table_100
    = Return tt w'
    ∧ tables_live (db w').
Proof.
  destruct (play_never_fails
              [Bet 1 10 (reverse unshuffled_deck); Act 1 Hit 0%Q;
               Act 2 Double 0%Q; Act 1 Stand 0%Q] table_100 100 10)
    as (w' & Hplay & Hlive & _).
  - repeat apply Forall_cons_2; try exact I; [|apply Forall_nil_2].
    apply reverse_Permutation.
  - repeat apply Forall_cons_2; try apply Forall_nil_2; unfold modest, int64;
      lia.
  - intros u s Hs. unfold load_blackjack_session in Hs. cbn in Hs.
    rewrite lookup_empty in Hs. discriminate Hs.
  - unfold within. split_and!; [lia|lia| |].
    + intros v. rewrite balance_of_lookup. cbn.
      destruct (decide (v = 1)) as [->|Hne].
      * rewrite lookup_insert_eq. cbn. lia.
      * rewrite lookup_insert_ne, lookup_empty by done. lia.
    + intros v s Hs. unfold load_blackjack_session in Hs. cbn in Hs.
      rewrite lookup_empty in Hs. discriminate Hs.
  - cbn. lia.
  - exists w'. split; [exact Hplay|exact Hlive].
Defined.

(** *** The admin boost *)

Lemma Qltb_true (x y : Q) : Qltb x y = true <-> (x < y)%Q.
Proof.
  unfold Qltb. rewrite negb_true_iff, <- not_true_iff_false, Qle_bool_iff.
  split; [apply Qnot_le_lt|apply Qlt_not_le].
Qed.

(** X10. The boost an admin sets for a user decides ties and losses
    only.  With a boost of 1 or more (100%) a player who has not gone
    over 21 is always paid twice the stake, also against a higher dealer
    total; with a boost of 0 or less the totals alone decide, whatever
    the random draw. *)
Theorem boost_settles (u : Z) (ph dh : Hand) (bet : Z) (rnd : Q) (w : World)
    (pt dt : Z) (ps ds : bool) :
  hand_value ph = Ok (pt, ps) ->
  hand_value dh = Ok (dt, ds) ->
  (rnd < 1)%Q ->
  let boost := get_blackjack_boost u (db w) in
  let w' := world_of (resolve_blackjack_outcome u ph dh bet rnd w) in
  ((1 <= boost)%Q -> pt <= 21 ->
   balance_of u (db w') = balance_of u (db w) + 2 * bet)
  ∧ ((boost <= 0)%Q ->
     balance_of u (db w')
     = balance_of u (db w) + payout bet (outcome_of pt dt false)).
Proof.
  intros Hp Hd Hrnd boost w'.
  destruct (balance_after_resolve u ph dh bet rnd w pt dt ps ds Hp Hd) as (Hbal & _).
  cbn zeta in Hbal. fold w' in Hbal. fold boost in Hbal. rewrite Hbal. split.
  - intros Hfull Hok. f_equal.
    assert (H0 : Qltb 0 boost = true).
    { apply Qltb_true. eapply Qlt_le_trans; [|exact Hfull]. reflexivity. }
    assert (H1 : Qltb rnd boost = true).
    { apply Qltb_true. eapply Qlt_le_trans; [exact Hrnd|exact Hfull]. }
    unfold outcome_of, forced_bust. rewrite H0, H1.
    rewrite (proj2 (Z.ltb_ge _ _) Hok), (proj2 (Z.leb_le _ _) Hok).
    cbn [andb]. rewrite andb_true_r.
    destruct (Z.leb_spec pt dt), (Z.leb_spec dt 21), (Z.ltb_spec 21 dt),
      (Z.ltb_spec dt pt); cbn [andb orb payout]; lia.
  - intros Hnone. do 2 f_equal. unfold forced_bust.
    assert (H0 : Qltb 0 boost = false).
    { apply not_true_iff_false. rewrite Qltb_true. by apply Qle_not_lt. }
    by rewrite H0.
Qed.

Lemma boost_settles_witness :
  balance_of 1
    (db (world_of (resolve_blackjack_outcome 1 ["10S"; "7S"] ["10D"; "9D"] 10
                     (1 # 2) table_100)))
  = 100.
Proof.
  refine (eq_trans
            (proj2 (boost_settles 1 ["10S"; "7S"] ["10D"; "9D"] 10 (1 # 2)
                      table_100 17 19 false false eq_refl eq_refl _) _)
            eq_refl).
  - reflexivity.
  - discriminate.
Defined.

End Moves.

Section WalletLedger.

Import Game Db Handlers Spec Sqlite Wallets Examples.

Lemma ensure_wallet_present (u : Z) (w : Wallet) (st : Store) :
  user_wallets st !! u = Some w -> ensure_wallet u st = st.
Proof. intros E. unfold ensure_wallet. by rewrite E. Qed.

Lemma adjust_balance_wallets (u d : Z) (st : Store) :
  exists w,
    user_wallets (ensure_wallet u st) !! u = Some w
    ∧ balance w = balance_of u st
    ∧ user_wallets (adjust_balance u d st).2
      = <[u := mkWallet (balance w + d) (last_checkin w)]>
          (user_wallets (ensure_wallet u st)).
Proof.
  destruct (ensure_wallet_lookup u st) as (w & Hw & Hb).
  exists w. split_and!; [done|done|].
  unfold adjust_balance. cbn [snd user_wallets with_wallets].
  apply map_eq. intros k. destruct (decide (k = u)) as [->|Hne].
  - by rewrite lookup_alter_eq, lookup_insert_eq, Hw.
  - by rewrite lookup_alter_ne, lookup_insert_ne.
Qed.

(** X11. Within the range of SQLite integers (the user id, the deltas
    and the balances before and after), [adjust_balance] returns the
    balance it leaves: the balance the wallet read before (20 for a user
    without a wallet row) plus the delta, with no floor at zero, so a
    debit above the balance leaves a negative balance.  Other users'
    balances are not touched, and two adjustments in a row leave the
    store one adjustment by the sum leaves. *)
Theorem adjust_balance_adds (u d1 d2 : Z) (st : Store) :
  int64 u -> int64 d1 -> int64 d2 -> int64 (d1 + d2) ->
  int64 (balance_of u st) ->
  int64 (balance_of u st + d1) ->
  int64 (balance_of u st + d1 + d2) ->
  (adjust_balance u d1 st).1 = balance_of u st + d1
  ∧ balance_of u (adjust_balance u d1 st).2 = balance_of u st + d1
  ∧ int64 (balance_of u (adjust_balance u d1 st).2)
  ∧ (forall u', u' ≠ u ->
       balance_of u' (adjust_balance u d1 st).2 = balance_of u' st)
  ∧ adjust_balance u d2 (adjust_balance u d1 st).2
    = adjust_balance u (d1 + d2) st
  ∧ int64 (adjust_balance u d2 (adjust_balance u d1 st).2).1.
Proof.
  intros _ _ _ _ _ Hmid Hend.
  destruct (adjust_balance_wallets u d1 st) as (w & Hw & Hb & Hmap).
  assert (Hret : forall d st0,
    (adjust_balance u d st0).1 = balance_of u (adjust_balance u d st0).2).
  { intros d st0. rewrite balance_of_lookup. unfold adjust_balance.
    cbn [fst snd user_wallets with_wallets].
    destruct (ensure_wallet_lookup u st0) as (w0 & Hw0 & _).
    by rewrite lookup_alter_eq, Hw0. }
  assert (Hst :
    (adjust_balance u d2 (adjust_balance u d1 st).2).2
    = (adjust_balance u (d1 + d2) st).2).
  { set (st1 := (adjust_balance u d1 st).2).
    assert (Hpresent : ensure_wallet u st1 = st1).
    { eapply ensure_wallet_present. unfold st1. rewrite Hmap.
      apply lookup_insert_eq. }
    unfold adjust_balance at 1. cbn [snd]. rewrite Hpresent.
    unfold st1, adjust_balance. cbn [snd].
    destruct (ensure_wallet u st) as [wallets ? ? ? ? ? ? ? ? ? ? ?].
    unfold with_wallets. cbn. f_equal.
    apply map_eq. intros k. destruct (decide (k = u)) as [->|Hne].
    - rewrite !lookup_alter_eq. destruct (wallets !! u) as [w0|]; cbn; [|done].
      do 2 f_equal. lia.
    - by rewrite !lookup_alter_ne. }
  split_and!.
  - by rewrite Hret, balance_of_adjust, decide_True.
  - by rewrite balance_of_adjust, decide_True.
  - by rewrite balance_of_adjust, decide_True.
  - intros u' Hne. by rewrite balance_of_adjust, decide_False.
  - rewrite (surjective_pairing (adjust_balance u d2 _)).
    rewrite (surjective_pairing (adjust_balance u (d1 + d2) st)).
    rewrite Hst. f_equal.
    by rewrite Hret, Hst, <- Hret.
  - rewrite Hret, !balance_of_adjust, !decide_True by done. exact Hend.
Qed.

Lemma adjust_balance_adds_witness :
  (adjust_balance 1 (-150) (db table_100)).1 = -50
  ∧ adjust_balance 1 30 (adjust_balance 1 (-150) (db table_100)).2
    = adjust_balance 1 (-120) (db table_100).
Proof.
  destruct (adjust_balance_adds 1 (-150) 30 (db table_100))
    as (Hret & _ & _ & _ & Hsum & _);
    try (unfold int64; vm_compute; split; [discriminate|reflexivity]).
  split; [exact Hret|exact Hsum].
Defined.

(** *** The daily check-in *)

Lemma last_checkin_of_lookup (u : Z) (st : Store) :
  last_checkin_of u st
  = match user_wallets st !! u with Some w => last_checkin w | None => None end.
Proof.
  unfold last_checkin_of, get_last_checkin, ensure_wallet. cbn [fst].
  destruct (user_wallets st !! u) as [w|] eqn:E.
  - by rewrite E.
  - cbn. by rewrite lookup_insert_eq.
Qed.

Lemma record_checkin_facts (u : Z) (today : string) (st : Store) :
  let st' := (record_checkin u today st).2 in
  balance_of u st' = balance_of u st + 5
  ∧ last_checkin_of u st' = Some today
  ∧ (forall u', u' ≠ u ->
       balance_of u' st' = balance_of u' st
       ∧ last_checkin_of u' st' = last_checkin_of u' st)
  ∧ (record_checkin u today st).1 = balance_of u st + 5
  ∧ user_stats st' = user_stats st
  ∧ blackjack_sessions st' = blackjack_sessions st.
Proof.
  cbn zeta.
  destruct (ensure_wallet_lookup u st) as (w & Hw & Hb).
  assert (Hmine :
    user_wallets (record_checkin u today st).2 !! u
    = Some (mkWallet (balance w + 5) (Some today))).
  { unfold record_checkin. cbn [snd user_wallets with_wallets].
    by rewrite lookup_alter_eq, Hw. }
  assert (Hothers : forall u', u' ≠ u ->
    user_wallets (record_checkin u today st).2 !! u' = user_wallets st !! u').
  { intros u' Hne. unfold record_checkin. cbn [snd user_wallets with_wallets].
    by rewrite lookup_alter_ne, ensure_wallet_lookup_ne. }
  split_and!.
  - rewrite balance_of_lookup, Hmine. cbn. by rewrite Hb.
  - by rewrite last_checkin_of_lookup, Hmine.
  - intros u' Hne.
    by rewrite !balance_of_lookup, !last_checkin_of_lookup, Hothers.
  - unfold record_checkin in *. cbn [fst snd] in *. rewrite Hmine. cbn.
    by rewrite Hb.
  - unfold record_checkin, ensure_wallet. cbn [snd].
    by destruct (user_wallets st !! u).
  - unfold record_checkin, ensure_wallet. cbn [snd].
    by destruct (user_wallets st !! u).
Qed.

Lemma handle_checkin_run (u : Z) (today today' : string) (w : World) :
  handle_checkin u today today' w
  = if bool_decide (last_checkin_of u (db w) = Some today) then
      Return tt (mkWorld (ensure_wallet u (db w)) (user_data w)
                   (sent w ++ ["checkin_already"]))
    else
      Return tt (mkWorld (record_checkin u today' (db w)).2 (user_data w)
                   (sent w ++ ["checkin_success"])).
Proof.
  unfold handle_checkin. hm_run. rewrite get_last_checkin_eq.
  cbn [db user_data sent]. fold (last_checkin_of u (db w)).
  case_bool_decide; [done|]. hm_run.
  assert (Hidem : forall st,
    record_checkin u today' (ensure_wallet u st) = record_checkin u today' st).
  { intros st. unfold record_checkin. by rewrite ensure_wallet_idemp. }
  rewrite Hidem.
  destruct (record_checkin u today' (db w)) as [b st'] eqn:E.
  cbn [db user_data sent]. rewrite get_last_checkin_eq. cbn [db user_data sent snd].
  f_equal. f_equal.
  assert (Hst : st' = (record_checkin u today' (db w)).2) by (by rewrite E).
  destruct (ensure_wallet_lookup u (db w)) as (w0 & Hw0 & _).
  apply (ensure_wallet_present u (mkWallet (balance w0 + 5) (Some today'))).
  rewrite Hst. unfold record_checkin.
  cbn [snd user_wallets with_wallets]. by rewrite lookup_alter_eq, Hw0.
Qed.

(** X12. The check-in pays once a day.  If the wallet's last check-in is
    not today's date the user gets 5 points and the date is recorded;
    otherwise the handler answers that the check-in is done and nothing
    changes.  So a second check-in on the same day pays nothing. *)
Theorem checkin_once_a_day (u : Z) (today : string) (w : World) :
  let w1 := world_of (handle_checkin u today today w) in
  let w2 := world_of (handle_checkin u today today w1) in
  (last_checkin_of u (db w) ≠ Some today ->
   balance_of u (db w1) = balance_of u (db w) + 5
   ∧ sent w1 = sent w ++ ["checkin_success"])
  ∧ (last_checkin_of u (db w) = Some today ->
     unchanged (db w) (db w1)
     ∧ sent w1 = sent w ++ ["checkin_already"])
  ∧ last_checkin_of u (db w1) = Some today
  ∧ unchanged (db w1) (db w2)
  ∧ sent w2 = sent w1 ++ ["checkin_already"]
  ∧ (forall u', u' ≠ u -> balance_of u' (db w2) = balance_of u' (db w)).
Proof.
  intros w1 w2.
  destruct (record_checkin_facts u today (db w)) as (Hbal & Hlast & Hother & _).
  cbn zeta in Hbal, Hlast, Hother.
  assert (Hlast1 : last_checkin_of u (db w1) = Some today).
  { unfold w1. rewrite handle_checkin_run. case_bool_decide as Hd; cbn [world_of db].
    - rewrite last_checkin_of_lookup in *.
      destruct (ensure_wallet_lookup u (db w)) as (w0 & Hw0 & _).
      rewrite Hw0. unfold ensure_wallet in Hw0.
      destruct (user_wallets (db w) !! u) eqn:E; [|done].
      rewrite E in Hw0. by injection Hw0 as <-.
    - done. }
  assert (Hrun2 : handle_checkin u today today w1
                  = Return tt (mkWorld (ensure_wallet u (db w1)) (user_data w1)
                                 (sent w1 ++ ["checkin_already"]))).
  { rewrite handle_checkin_run. by rewrite bool_decide_true. }
  split_and!.
  - intros Hnew. unfold w1. rewrite handle_checkin_run.
    by rewrite bool_decide_false.
  - intros Hdone. unfold w1. rewrite handle_checkin_run.
    rewrite bool_decide_true by done. cbn [world_of db sent].
    split; [apply unchanged_ensure_wallet|done].
  - done.
  - unfold w2. rewrite Hrun2. cbn [world_of db]. apply unchanged_ensure_wallet.
  - unfold w2. by rewrite Hrun2.
  - intros u' Hne. unfold w2. rewrite Hrun2. cbn [world_of db].
    rewrite balance_of_ensure_wallet.
    unfold w1. rewrite handle_checkin_run.
    case_bool_decide; cbn [world_of db].
    + apply balance_of_ensure_wallet.
    + by apply Hother.
Qed.

End WalletLedger.

Section Swipes.

Import Game Db Handlers Spec Finder Examples.

Lemma has_swiped_iff (u t : Z) (st : Store) :
  has_swiped u t st = true
  <-> exists s, s ∈ tinder_swipes st ∧ s_user s = u ∧ s_target s = t.
Proof.
  unfold has_swiped. rewrite existsb_exists. split.
  - intros (s & Hin%list_elem_of_In & H%andb_true_iff).
    rewrite !bool_decide_eq_true in H. exists s. tauto.
  - intros (s & Hin%list_elem_of_In & Hu & Ht). exists s.
    by rewrite !bool_decide_eq_true_2.
Qed.

Lemma swipes_increment_stat (u : Z) (f : string) (d : Z) (st : Store) :
  tinder_swipes (increment_stat u f d st) = tinder_swipes st
  ∧ tinder_profiles (increment_stat u f d st) = tinder_profiles st
  ∧ user_wallets (increment_stat u f d st) = user_wallets st.
Proof. unfold increment_stat. by destruct (_ || _). Qed.

Lemma has_swiped_swipes (u t : Z) (st st' : Store) :
  tinder_swipes st' = tinder_swipes st -> has_swiped u t st' = has_swiped u t st.
Proof. unfold has_swiped. by intros ->. Qed.

Lemma swipes_mark_swipe (u t : Z) (status : string) (st : Store) :
  tinder_swipes (mark_swipe u t status st)
  = tinder_swipes st ++ [mkSwipe (tinder_swipes_seq st + 1) u t status]
  ∧ tinder_profiles (mark_swipe u t status st) = tinder_profiles st
  ∧ user_wallets (mark_swipe u t status st) = user_wallets st.
Proof.
  unfold mark_swipe.
  set (st1 := with_swipes _ _ st).
  destruct (swipes_increment_stat u "swipes" 1 st1) as (E1 & E2 & E3).
  destruct (swipes_increment_stat u "likes_given" 1
              (increment_stat u "swipes" 1 st1)) as (F1 & F2 & F3).
  destruct (bool_decide (status = "like")); rewrite ?F1, ?F2, ?F3, E1, E2, E3;
    by repeat split.
Qed.

Lemma has_swiped_mark_swipe (u t u' t' : Z) (status : string) (st : Store) :
  has_swiped u' t' (mark_swipe u t status st)
  = has_swiped u' t' st || (bool_decide (u = u') && bool_decide (t = t')).
Proof.
  unfold has_swiped.
  destruct (swipes_mark_swipe u t status st) as (-> & _).
  rewrite existsb_app. cbn. by rewrite orb_false_r.
Qed.

(** What a candidate query can return. *)
Lemma run_query_sound (u : Z) (g i : option string) (city : string)
    (st : Store) (b : bool) (row : CandidateRow) :
  run_query u g i city st b = Some row ->
  exists pid p,
    row = candidate_row pid p
    ∧ tinder_profiles st !! pid = Some p
    ∧ p_active p = true
    ∧ pid ≠ u
    ∧ has_swiped u pid st = false.
Proof.
  unfold run_query. intros H. apply fmap_Some in H as ([pid p] & Hnew & ->).
  apply newest_Some in Hnew as (Hin & _).
  apply list_elem_of_filter in Hin as (Hwhere & Hin).
  apply elem_of_map_to_list in Hin.
  exists pid, p. split; [done|]. split; [done|].
  unfold where_clause in Hwhere.
  do 3 (apply andb_true_iff in Hwhere as (Hwhere & _)).
  apply andb_true_iff in Hwhere as (Hwhere & Hsw).
  apply andb_true_iff in Hwhere as (Hact & Hself).
  apply negb_true_iff in Hsw, Hself. apply bool_decide_eq_false in Hself.
  done.
Qed.

Lemma query_of_next_candidate (u : Z) (g i : option string) (city : string)
    (st : Store) (row : CandidateRow) :
  get_next_candidate u g i city st = Some row ->
  exists b, run_query u g i city st b = Some row.
Proof.
  unfold get_next_candidate.
  destruct (run_query u g i city st true) as [row'|] eqn:E; [|by exists false].
  intros [= <-]. by exists true.
Qed.

(** X15. Whatever it is asked, [get_next_candidate] only returns the row
    of a stored profile that is active, is not the actor's own and has
    not been swiped by the actor, and it returns the columns of that
    profile unchanged. *)
Theorem get_next_candidate_sound (u : Z) (g i : option string) (city : string)
    (st : Store) (row : CandidateRow) :
  get_next_candidate u g i city st = Some row ->
  exists pid p,
    row = candidate_row pid p
    ∧ get_profile pid st = Some p
    ∧ p_active p = true
    ∧ pid ≠ u
    ∧ has_swiped u pid st = false.
Proof.
  intros (b & Hq)%query_of_next_candidate.
  apply run_query_sound in Hq as (pid & p & Hrow & Hp & Hact & Hself & Hnew).
  exists pid, p. split_and!; done.
Qed.

Lemma get_next_candidate_sound_witness :
  exists pid p,
    candidate_row 7 (profile_in "kyiv" 2) = candidate_row pid p
    ∧ get_profile pid one_profile = Some p
    ∧ p_active p = true
    ∧ pid ≠ 1
    ∧ has_swiped 1 pid one_profile = false.
Proof.
  apply (get_next_candidate_sound 1 (Some "Male") (Some "Any") "lviv"
           one_profile).
  reflexivity.
Defined.

(** X13. A swipe is recorded for the pair and for nothing else: after
    [mark_swipe u t] the target counts as swiped by [u], every other
    pair reads as before, no later candidate query for [u] returns [t],
    and nothing but the swipe table and the counters is written. *)
Theorem mark_swipe_recorded (u t : Z) (status : string) (st : Store) :
  let st' := mark_swipe u t status st in
  has_swiped u t st' = true
  ∧ (forall u' t', (u', t') ≠ (u, t) ->
       has_swiped u' t' st' = has_swiped u' t' st)
  ∧ (forall g i city row,
       get_next_candidate u g i city st' = Some row ->
       forall p, row ≠ candidate_row t p)
  ∧ tinder_profiles st' = tinder_profiles st
  ∧ tinder_matches st' = tinder_matches st
  ∧ (forall u', balance_of u' st' = balance_of u' st).
Proof.
  intros st'. unfold st'.
  destruct (swipes_mark_swipe u t status st) as (Hsw & Hprof & Hwal).
  split_and!.
  - rewrite has_swiped_mark_swipe, !bool_decide_eq_true_2 by done.
    apply orb_true_r.
  - intros u' t' Hne. rewrite has_swiped_mark_swipe.
    destruct (decide (u' = u)) as [->|]; destruct (decide (t' = t)) as [->|];
      rewrite ?bool_decide_eq_true_2, ?bool_decide_eq_false_2 by done;
      cbn [andb]; rewrite ?orb_false_r; congruence.
  - intros g i city row Hrow p ->.
    apply query_of_next_candidate in Hrow as (b & Hq).
    apply run_query_sound in Hq as (pid & p' & Heq & _ & _ & _ & Hnot).
    injection Heq as <-.
    rewrite has_swiped_mark_swipe, !bool_decide_eq_true_2 in Hnot by done.
    by rewrite orb_true_r in Hnot.
  - done.
  - unfold mark_swipe.
    destruct (matches_increment_stat u "swipes" 1
                (with_swipes
                   (tinder_swipes st ++ [mkSwipe (tinder_swipes_seq st + 1) u t status])
                   (tinder_swipes_seq st + 1) st)) as (E1 & _).
    case_bool_decide; [|exact E1].
    by destruct (matches_increment_stat u "likes_given" 1
                   (increment_stat u "swipes" 1
                      (with_swipes
                         (tinder_swipes st
                          ++ [mkSwipe (tinder_swipes_seq st + 1) u t status])
                         (tinder_swipes_seq st + 1) st))) as (-> & _).
  - intros u'. by apply balance_of_wallets.
Qed.

(** X14. [mark_like_and_check] records the like and reports a match
    exactly when the target had liked the actor before, or when actor and
    target are the same user: the like just recorded then answers
    itself. *)
Theorem mark_like_and_check_iff (u t : Z) (st : Store) :
  let r := mark_like_and_check u t st in
  (r.1 = true
   <-> u = t
       ∨ exists s, s ∈ tinder_swipes st
                   ∧ s_user s = t ∧ s_target s = u ∧ s_status s = "like")
  ∧ has_swiped u t r.2 = true
  ∧ (r.1 = false -> tinder_matches r.2 = tinder_matches st).
Proof.
  cbn zeta. unfold mark_like_and_check, check_mutual_like.
  destruct (swipes_mark_swipe u t "like" st) as (Hsw & _).
  set (st1 := mark_swipe u t "like" st) in *.
  assert (Hex :
    existsb
      (fun s => bool_decide (s_user s = t) && bool_decide (s_target s = u)
                && bool_decide (s_status s = "like"))
      (tinder_swipes st1) = true
    <-> u = t
        ∨ exists s, s ∈ tinder_swipes st
                    ∧ s_user s = t ∧ s_target s = u ∧ s_status s = "like").
  { rewrite Hsw, existsb_app, orb_true_iff, existsb_exists. cbn.
    rewrite orb_false_r, !andb_true_iff, !bool_decide_eq_true. split.
    - intros [(s & Hin%list_elem_of_In & H)|H].
      + rewrite !andb_true_iff, !bool_decide_eq_true in H. right. exists s. tauto.
      + left. tauto.
    - intros [->|(s & Hin%list_elem_of_In & Hu & Ht & Hs)].
      + right. done.
      + left. exists s. by rewrite !bool_decide_eq_true_2. }
  assert (Hrec : has_swiped u t st1 = true).
  { unfold st1. rewrite has_swiped_mark_swipe, !bool_decide_eq_true_2 by done.
    apply orb_true_r. }
  destruct (existsb _ (tinder_swipes st1)) eqn:E; cbn [fst snd].
  - split_and!; [tauto| |discriminate].
    erewrite has_swiped_swipes; [exact Hrec|].
    destruct (matches_increment_stat t "matches" 1
                (increment_stat u "matches" 1
                   (insert_or_ignore_match (Z.min u t) (Z.max u t) st1)))
      as (_ & _ & ->).
    destruct (matches_increment_stat u "matches" 1
                (insert_or_ignore_match (Z.min u t) (Z.max u t) st1))
      as (_ & _ & ->).
    unfold insert_or_ignore_match.
    destruct (existsb (matches_conflict _) _); reflexivity.
  - split_and!; [|done|].
    + split; [discriminate|]. intros H. apply Hex in H. discriminate.
    + intros _. unfold st1, mark_swipe.
      set (st0 := with_swipes _ _ st).
      destruct (matches_increment_stat u "swipes" 1 st0) as (E1 & _).
      destruct (matches_increment_stat u "likes_given" 1
                  (increment_stat u "swipes" 1 st0)) as (E2 & _).
      rewrite bool_decide_eq_true_2 by done. by rewrite E2, E1.
Qed.

Lemma insert_desc_perm {A} (key : A -> Z) (r : A) (rows : list A) :
  insert_desc key r rows ≡ₚ r :: rows.
Proof.
  induction rows as [|r' rows IH]; [done|]. cbn [insert_desc].
  destruct (key r' <=? key r); [done|].
  rewrite IH. apply Permutation_swap.
Qed.

Lemma order_by_desc_perm {A} (key : A -> Z) (rows : list A) :
  order_by_desc key rows ≡ₚ rows.
Proof.
  induction rows as [|r rows IH]; [done|]. unfold order_by_desc in *.
  cbn [foldr]. by rewrite insert_desc_perm, IH.
Qed.

(** Falling keys: no row comes after a row with a smaller key. *)
Lemma falling_cons {A} (key : A -> Z) (r : A) (rows : list A) :
  (forall i j a b, (r :: rows) !! i = Some a -> (r :: rows) !! j = Some b ->
     (i < j)%nat -> key b <= key a)
  <-> Forall (fun b => key b <= key r) rows
      ∧ (forall i j a b, rows !! i = Some a -> rows !! j = Some b ->
           (i < j)%nat -> key b <= key a).
Proof.
  split.
  - intros H. split.
    + apply Forall_forall. intros b [j Hj]%list_elem_of_lookup.
      apply (H 0%nat (S j) r b); [done|done|lia].
    + intros i j a b Hi Hj Hlt. apply (H (S i) (S j) a b); [done|done|lia].
  - intros [Hall H] i j a b Hi Hj Hlt.
    destruct i as [|i], j as [|j]; try lia.
    + cbn in Hi, Hj. injection Hi as <-.
      rewrite Forall_forall in Hall. apply Hall.
      by apply list_elem_of_lookup_2 in Hj.
    + cbn in Hi, Hj. apply (H i j a b); [done|done|lia].
Qed.

Lemma insert_desc_falling {A} (key : A -> Z) (r : A) (rows : list A) :
  (forall i j a b, rows !! i = Some a -> rows !! j = Some b ->
     (i < j)%nat -> key b <= key a) ->
  forall i j a b,
    insert_desc key r rows !! i = Some a ->
    insert_desc key r rows !! j = Some b ->
    (i < j)%nat -> key b <= key a.
Proof.
  induction rows as [|r' rows IH]; intros Hrows.
  - intros i j a b Hi Hj Hlt. destruct i, j; cbn in *; try lia; done.
  - cbn [insert_desc]. destruct (Z.leb_spec (key r') (key r)) as [Hle|Hgt].
    + apply falling_cons. split; [|done].
      apply falling_cons in Hrows as [Hall _].
      apply Forall_cons_2; [done|].
      eapply Forall_impl; [exact Hall|]. cbn. intros b Hb. lia.
    + apply falling_cons. apply falling_cons in Hrows as [Hall Hrows].
      split; [|by apply IH].
      apply Forall_forall. intros b Hb.
      rewrite insert_desc_perm in Hb.
      apply elem_of_cons in Hb as [->|Hb]; [lia|].
      rewrite Forall_forall in Hall. by apply Hall.
Qed.

Lemma order_by_desc_falling {A} (key : A -> Z) (rows : list A) :
  forall i j a b,
    order_by_desc key rows !! i = Some a ->
    order_by_desc key rows !! j = Some b ->
    (i < j)%nat -> key b <= key a.
Proof.
  induction rows as [|r rows IH].
  - intros i j a b Hi. by destruct i.
  - unfold order_by_desc in *. cbn [foldr]. by apply insert_desc_falling.
Qed.
(** X16. [users_who_liked_me] lists exactly the users who have a like
    for the user on record and whom the user has not swiped, one entry
    per such like, newest like first: no entry comes after an entry with
    an older time stamp.  Once the user has answered a like, with a like
    or a pass, that user is no longer listed. *)
Theorem users_who_liked_me_iff (created_at : Swipe -> Z) (u t : Z)
    (st : Store) :
  (t ∈ users_who_liked_me created_at u st
   <-> (exists s, s ∈ tinder_swipes st
                  ∧ s_user s = t ∧ s_target s = u ∧ s_status s = "like")
       ∧ has_swiped u t st = false)
  ∧ (exists rows,
       users_who_liked_me created_at u st = s_user <$> rows
       ∧ rows ≡ₚ filter
                   (fun s => s_target s = u ∧ s_status s = "like"
                             ∧ has_swiped u (s_user s) st = false)
                   (tinder_swipes st)
       ∧ forall i j a b,
           rows !! i = Some a -> rows !! j = Some b -> (i < j)%nat ->
           created_at b <= created_at a)
  ∧ (forall status,
       t ∉ users_who_liked_me created_at u (mark_swipe u t status st)).
Proof.
  assert (Hiff : forall st0,
    t ∈ users_who_liked_me created_at u st0
    <-> (exists s, s ∈ tinder_swipes st0
                   ∧ s_user s = t ∧ s_target s = u ∧ s_status s = "like")
        ∧ has_swiped u t st0 = false).
  { intros st0. unfold users_who_liked_me.
    rewrite list_elem_of_fmap. setoid_rewrite order_by_desc_perm.
    setoid_rewrite list_elem_of_filter. split.
    - intros (s & -> & (Ht & Hs & Hnot) & Hin). split; [|done]. by exists s.
    - intros ((s & Hin & <- & Ht & Hs) & Hnot). by exists s. }
  split; [apply Hiff|]. split.
  - eexists. split; [reflexivity|]. split.
    + apply order_by_desc_perm.
    + apply order_by_desc_falling.
  - intros status Hin. apply Hiff in Hin as (_ & Hnot).
    rewrite has_swiped_mark_swipe, !bool_decide_eq_true_2 in Hnot by done.
    by rewrite orb_true_r in Hnot.
Qed.

Lemma users_who_liked_me_iff_witness :
  2 ∈ users_who_liked_me s_id 1 liked_back
  ∧ 2 ∉ users_who_liked_me s_id 1 (mark_swipe 1 2 "dislike" liked_back).
Proof.
  destruct (users_who_liked_me_iff s_id 1 2 liked_back) as (Hiff & _ & Hgone).
  split; [|apply Hgone].
  apply Hiff. split; [|reflexivity].
  exists (mkSwipe 1 2 1 "like"). split; [|done].
  change (tinder_swipes liked_back) with [mkSwipe 1 2 1 "like"]. left.
Defined.

(** X17. [reset_swipes_for_user] forgets what the user swiped and every
    match the user is part of, and nothing else: nobody counts as swiped
    by the user any more, what other users swiped stays on record (also
    their likes for this user), and matches between other users stay. *)
Theorem reset_swipes_for_user_forgets (u : Z) (st : Store) :
  let st' := reset_swipes_for_user u st in
  (forall t, has_swiped u t st' = false)
  ∧ (forall u' t, u' ≠ u -> has_swiped u' t st' = has_swiped u' t st)
  ∧ (forall s, s ∈ tinder_swipes st' <-> s ∈ tinder_swipes st ∧ s_user s ≠ u)
  ∧ (forall m, m ∈ tinder_matches st'
               <-> m ∈ tinder_matches st ∧ user_a m ≠ u ∧ user_b m ≠ u)
  ∧ tinder_profiles st' = tinder_profiles st
  ∧ tinder_swipes_seq st' = tinder_swipes_seq st
  ∧ tinder_matches_seq st' = tinder_matches_seq st.
Proof.
  cbn zeta. unfold reset_swipes_for_user.
  cbn [tinder_swipes tinder_matches tinder_profiles tinder_swipes_seq
         tinder_matches_seq with_swipes with_matches].
  assert (Hsw : forall s,
    s ∈ filter (fun s => s_user s ≠ u) (tinder_swipes st)
    <-> s ∈ tinder_swipes st ∧ s_user s ≠ u).
  { intros s. rewrite list_elem_of_filter. tauto. }
  split_and!; try done.
  - intros t. apply not_true_iff_false. rewrite has_swiped_iff.
    cbn [tinder_swipes with_swipes with_matches].
    intros (s & Hin%Hsw & Hu & _). tauto.
  - intros u' t Hne. apply eq_true_iff_eq. rewrite !has_swiped_iff.
    cbn [tinder_swipes with_swipes with_matches].
    split; intros (s & Hin & Hu & Ht); exists s.
    + apply Hsw in Hin. tauto.
    + split; [|done]. apply Hsw. split; [tauto|congruence].
  - intros m. rewrite list_elem_of_filter. tauto.
Qed.

(** *** Browsing the profiles in the order of their ids *)

Lemma least_None {A} (key : A -> Z) (rows : list A) :
  least key rows = None <-> rows = [].
Proof.
  destruct rows as [|r rows]; [done|]. cbn.
  destruct (least key rows); [|done]. by destruct (_ <=? _).
Qed.

Lemma least_Some {A} (key : A -> Z) (rows : list A) (r : A) :
  least key rows = Some r ->
  r ∈ rows ∧ forall r', r' ∈ rows -> key r <= key r'.
Proof.
  revert r. induction rows as [|r0 rows IH]; intros r; [done|]. cbn.
  destruct (least key rows) as [r1|] eqn:E.
  - destruct (IH r1 eq_refl) as [Hin Hmin].
    destruct (Z.leb_spec (key r0) (key r1)); intros [= <-].
    + split; [left|].
      intros r' [->|Hr']%elem_of_cons; [lia|]. specialize (Hmin r' Hr'). lia.
    + split; [by right|].
      intros r' [->|Hr']%elem_of_cons; [lia|]. by apply Hmin.
  - apply least_None in E as ->. intros [= <-]. split; [left|].
    intros r' [->|Hr']%elem_of_cons; [lia|]. by apply elem_of_nil in Hr'.
Qed.

Lemma get_next_profile_id_Some (c n : Z) (st : Store) :
  get_next_profile_id c st = Some n
  <-> c < n ∧ is_Some (get_profile n st)
      ∧ forall k, c < k < n -> get_profile k st = None.
Proof.
  unfold get_next_profile_id, get_profile. split.
  - intros ([k p] & (Hin & Hmin)%least_Some & ->)%fmap_Some.
    apply list_elem_of_filter in Hin as (Hgt & Hin%elem_of_map_to_list).
    cbn in *. split_and!; [done|by eexists|].
    intros k' Hk'. destruct (tinder_profiles st !! k') as [p'|] eqn:E; [|done].
    specialize (Hmin (k', p')). cbn in Hmin.
    rewrite list_elem_of_filter, elem_of_map_to_list in Hmin. cbn in Hmin.
    specialize (Hmin ltac:(split; [lia|done])). lia.
  - intros (Hgt & (p & Hp) & Hnone).
    destruct (least _ _) as [[k p']|] eqn:E.
    + apply least_Some in E as (Hin & Hmin).
      apply list_elem_of_filter in Hin as (Hk & Hin%elem_of_map_to_list).
      cbn in *. f_equal.
      specialize (Hmin (n, p)). cbn in Hmin.
      rewrite list_elem_of_filter, elem_of_map_to_list in Hmin.
      specialize (Hmin ltac:(done)).
      destruct (decide (k = n)) as [|Hne]; [done|].
      rewrite Hnone in Hin by lia. done.
    + apply least_None in E.
      assert (Hin : (n, p) ∈ filter (fun r : Z * Profile => c < r.1)
                                (map_to_list (tinder_profiles st))).
      { apply list_elem_of_filter. by rewrite elem_of_map_to_list. }
      rewrite E in Hin. by apply elem_of_nil in Hin.
Qed.

Lemma get_prev_profile_id_Some (c n : Z) (st : Store) :
  get_prev_profile_id c st = Some n
  <-> n < c ∧ is_Some (get_profile n st)
      ∧ forall k, n < k < c -> get_profile k st = None.
Proof.
  unfold get_prev_profile_id, get_profile. split.
  - intros ([k p] & (Hin & Hmin)%least_Some & ->)%fmap_Some.
    apply list_elem_of_filter in Hin as (Hgt & Hin%elem_of_map_to_list).
    cbn in *. split_and!; [done|by eexists|].
    intros k' Hk'. destruct (tinder_profiles st !! k') as [p'|] eqn:E; [|done].
    specialize (Hmin (k', p')). cbn in Hmin.
    rewrite list_elem_of_filter, elem_of_map_to_list in Hmin. cbn in Hmin.
    specialize (Hmin ltac:(split; [lia|done])). lia.
  - intros (Hgt & (p & Hp) & Hnone).
    destruct (least _ _) as [[k p']|] eqn:E.
    + apply least_Some in E as (Hin & Hmin).
      apply list_elem_of_filter in Hin as (Hk & Hin%elem_of_map_to_list).
      cbn in *. f_equal.
      specialize (Hmin (n, p)). cbn in Hmin.
      rewrite list_elem_of_filter, elem_of_map_to_list in Hmin.
      specialize (Hmin ltac:(done)).
      destruct (decide (k = n)) as [|Hne]; [done|].
      rewrite Hnone in Hin by lia. done.
    + apply least_None in E.
      assert (Hin : (n, p) ∈ filter (fun r : Z * Profile => r.1 < c)
                                (map_to_list (tinder_profiles st))).
      { apply list_elem_of_filter. by rewrite elem_of_map_to_list. }
      rewrite E in Hin. by apply elem_of_nil in Hin.
Qed.

(** X18. The admin's next and previous buttons walk the profiles in the
    order of their ids without skipping any: [get_next_profile_id]
    returns the least id above the current one that has a profile,
    [get_prev_profile_id] the greatest below, [None] when there is none,
    and from a profile going forward and then back returns to it. *)
Theorem profile_navigation (c : Z) (st : Store) :
  (forall n, get_next_profile_id c st = Some n
             <-> c < n ∧ is_Some (get_profile n st)
                 ∧ forall k, c < k < n -> get_profile k st = None)
  ∧ (forall n, get_prev_profile_id c st = Some n
               <-> n < c ∧ is_Some (get_profile n st)
                   ∧ forall k, n < k < c -> get_profile k st = None)
  ∧ (get_next_profile_id c st = None
     <-> forall k, c < k -> get_profile k st = None)
  ∧ (is_Some (get_profile c st) ->
     forall n, get_next_profile_id c st = Some n ->
               get_prev_profile_id n st = Some c).
Proof.
  split_and!.
  - intros n. apply get_next_profile_id_Some.
  - intros n. apply get_prev_profile_id_Some.
  - split.
    + intros Hnone k Hk.
      destruct (get_profile k st) as [p|] eqn:E; [|done]. exfalso.
      unfold get_next_profile_id in Hnone.
      apply fmap_None, least_None in Hnone.
      assert (Hin : (k, p) ∈ filter (fun r : Z * Profile => c < r.1)
                                (map_to_list (tinder_profiles st))).
      { apply list_elem_of_filter. by rewrite elem_of_map_to_list. }
      rewrite Hnone in Hin. by apply elem_of_nil in Hin.
    + intros Hnone. destruct (get_next_profile_id c st) as [n|] eqn:E; [|done].
      apply get_next_profile_id_Some in E as (Hgt & (p & Hp) & _).
      rewrite Hnone in Hp by done. done.
  - intros Hc n (Hgt & Hn & Hnone)%get_next_profile_id_Some.
    apply get_prev_profile_id_Some. done.
Qed.

End Swipes.

Section Voting.

Import Game Db Handlers Spec Finder Contest Examples.

Lemma has_voted_iff (u c : Z) (t : Tables) :
  has_voted u c t = true
  <-> exists v, v ∈ votes t ∧ v_user v = u ∧ v_candidate v = c.
Proof.
  unfold has_voted. rewrite existsb_exists. split.
  - intros (v & Hin%list_elem_of_In & H%andb_true_iff).
    rewrite !bool_decide_eq_true in H. exists v. tauto.
  - intros (v & Hin%list_elem_of_In & Hu & Hc). exists v.
    by rewrite !bool_decide_eq_true_2.
Qed.

(** The votes a user has given a candidate. *)
Lemma add_vote_run (u c r : Z) (st : Store) (t : Tables) :
  add_vote u c r (st, t)
  = if has_voted u c t then (false, (st, t))
    else (true,
          (increment_stat u "votes_cast" 1 st,
           with_votes (votes t ++ [mkVote (votes_seq t + 1) u c r])
             (votes_seq t + 1) t)).
Proof. reflexivity. Qed.

Lemma has_voted_add_vote (u c r : Z) (d : Database) :
  has_voted u c (add_vote u c r d).2.2 = true.
Proof.
  destruct d as [st t]. rewrite add_vote_run.
  destruct (has_voted u c t) eqn:E; cbn [fst snd]; [done|].
  unfold has_voted. cbn [votes with_votes]. rewrite existsb_app. cbn.
  rewrite !bool_decide_eq_true_2 by done. apply orb_true_r.
Qed.

(** X19. A user has one vote per candidate.  [add_vote] stores the vote
    and counts it if the user has none for the candidate yet; otherwise
    it answers [False] and leaves every table as it is, so the first
    rating stands.  Afterwards the user has voted for the candidate, a
    second call is always turned down, and no other pair is affected. *)
Theorem add_vote_once (u c r : Z) (d : Database) :
  let r1 := add_vote u c r d in
  r1.1 = negb (has_voted u c d.2)
  ∧ (r1.1 = false -> r1.2 = d)
  ∧ (r1.1 = true ->
     votes r1.2.2 = votes d.2 ++ [mkVote (votes_seq d.2 + 1) u c r]
     ∧ candidates r1.2.2 = candidates d.2
     ∧ r1.2.1 = increment_stat u "votes_cast" 1 d.1)
  ∧ has_voted u c r1.2.2 = true
  ∧ (forall r', add_vote u c r' r1.2 = (false, r1.2))
  ∧ (forall u' c', (u', c') ≠ (u, c) ->
       has_voted u' c' r1.2.2 = has_voted u' c' d.2).
Proof.
  destruct d as [st t]. cbn zeta. rewrite add_vote_run. cbn [fst snd].
  destruct (has_voted u c t) eqn:E; cbn [fst snd negb].
  - split_and!; try done.
    intros r'. by rewrite add_vote_run, E.
  - assert (Hnow : has_voted u c
                     (with_votes (votes t ++ [mkVote (votes_seq t + 1) u c r])
                        (votes_seq t + 1) t) = true).
    { pose proof (has_voted_add_vote u c r (st, t)) as H.
      by rewrite add_vote_run, E in H. }
    split_and!; try done.
    + intros r'. by rewrite add_vote_run, Hnow.
    + intros u' c' Hne. unfold has_voted. cbn [votes with_votes].
      rewrite existsb_app. cbn. rewrite orb_false_r.
      destruct (decide (u = u')) as [->|]; destruct (decide (c = c')) as [->|];
        rewrite ?bool_decide_eq_true_2, ?bool_decide_eq_false_2 by done;
        cbn [andb]; rewrite ?orb_false_r; congruence.
Qed.

(** X20. The next candidate shown for rating is the approved candidate
    with the least id that the user has not voted for (of the wanted
    gender, if one is given); there is none only if no such candidate
    exists; and once the user has voted for the candidate shown, it is
    not shown to that user again. *)
Theorem get_next_unrated_candidate_least (u : Z) (g : option string)
    (t : Tables) :
  let wanted c :=
    c ∈ candidates t ∧ c_approved c = 1 ∧ gender_clause g c = true
    ∧ has_voted u (c_id c) t = false in
  (forall c, get_next_unrated_candidate u g t = Some c ->
     wanted c ∧ forall c', wanted c' -> c_id c <= c_id c')
  ∧ (get_next_unrated_candidate u g t = None <-> forall c, ¬ wanted c)
  ∧ (forall c r st c',
       get_next_unrated_candidate u g t = Some c ->
       get_next_unrated_candidate u g (add_vote u (c_id c) r (st, t)).2.2
       = Some c' ->
       c_id c' ≠ c_id c).
Proof.
  cbn zeta.
  assert (Hsound : forall t0 c,
    get_next_unrated_candidate u g t0 = Some c ->
    (c ∈ candidates t0 ∧ c_approved c = 1 ∧ gender_clause g c = true
     ∧ has_voted u (c_id c) t0 = false)
    ∧ forall c', c' ∈ candidates t0 ∧ c_approved c' = 1
                 ∧ gender_clause g c' = true
                 ∧ has_voted u (c_id c') t0 = false -> c_id c <= c_id c').
  { intros t0 c (Hin & Hmin)%least_Some.
    apply list_elem_of_filter in Hin as (Hc & Hin). split; [tauto|].
    intros c' (Hin' & Hc'). apply Hmin, list_elem_of_filter. tauto. }
  split_and!.
  - apply Hsound.
  - unfold get_next_unrated_candidate. rewrite least_None. split.
    + intros Hnil c (Hin & Hc).
      assert (H : c ∈ filter
                    (fun c => c_approved c = 1 ∧ gender_clause g c = true
                              ∧ has_voted u (c_id c) t = false)
                    (candidates t)) by (apply list_elem_of_filter; tauto).
      rewrite Hnil in H. by apply elem_of_nil in H.
    + intros Hnone.
      destruct (filter _ (candidates t)) as [|c l] eqn:E; [done|]. exfalso.
      assert (H : c ∈ c :: l) by left. rewrite <- E in H.
      apply list_elem_of_filter in H. apply (Hnone c). tauto.
  - intros c r st c' Hc Hc' Heq.
    apply Hsound in Hc' as ((_ & _ & _ & Hnot) & _).
    pose proof (has_voted_add_vote u (c_id c) r (st, t)) as Hvoted.
    rewrite Heq in Hnot. congruence.
Qed.

(** X21. [delete_full_profile] removes the user's dating profile, media,
    every swipe the user gave or received, every match the user is part
    of, the user's contest entries and the votes the user cast.  After
    it no candidate query returns the user.  It keeps everything else:
    other users' rows, the votes other users cast (also those for the
    deleted entries), and the user's wallet, statistics, stored round and
    referral. *)
Theorem delete_full_profile_clears (u : Z) (d : Database) :
  let d' := delete_full_profile u d in
  get_profile u d'.1 = None
  ∧ (forall u', u' ≠ u -> get_profile u' d'.1 = get_profile u' d.1)
  ∧ (forall s, s ∈ tinder_swipes d'.1
               <-> s ∈ tinder_swipes d.1 ∧ s_user s ≠ u ∧ s_target s ≠ u)
  ∧ (forall m, m ∈ tinder_matches d'.1
               <-> m ∈ tinder_matches d.1 ∧ user_a m ≠ u ∧ user_b m ≠ u)
  ∧ (forall m, m ∈ Db.tinder_media d'.1
               <-> m ∈ Db.tinder_media d.1 ∧ md_user m ≠ u)
  ∧ (forall c, c ∈ candidates d'.2 <-> c ∈ candidates d.2 ∧ c_user c ≠ u)
  ∧ (forall v, v ∈ votes d'.2 <-> v ∈ votes d.2 ∧ v_user v ≠ u)
  ∧ (forall u' g i city row,
       get_next_candidate u' g i city d'.1 = Some row ->
       forall p, row ≠ candidate_row u p)
  ∧ user_wallets d'.1 = user_wallets d.1
  ∧ user_stats d'.1 = user_stats d.1
  ∧ blackjack_sessions d'.1 = blackjack_sessions d.1
  ∧ referrals d'.1 = referrals d.1.
Proof.
  destruct d as [st t]. cbn zeta. unfold delete_full_profile. cbn [fst snd].
  assert (Hgone :
    get_profile u
      (with_profiles (delete u)
         (with_matches
            (filter (fun m => ¬ (user_a m = u ∨ user_b m = u)) (tinder_matches st))
            (tinder_matches_seq st)
            (with_swipes
               (filter (fun s => ¬ (s_user s = u ∨ s_target s = u))
                  (tinder_swipes st))
               (tinder_swipes_seq st)
               (with_media (filter (fun m => md_user m ≠ u)) st)))) = None).
  { unfold get_profile. cbn. apply lookup_delete_eq. }
  split_and!; try done.
  - intros u' Hne. unfold get_profile. cbn. by apply lookup_delete_ne.
  - intros s. cbn. rewrite list_elem_of_filter. tauto.
  - intros m. cbn. rewrite list_elem_of_filter. tauto.
  - intros m. cbn. rewrite list_elem_of_filter. tauto.
  - intros c. cbn. rewrite list_elem_of_filter. tauto.
  - intros v. cbn. rewrite list_elem_of_filter. tauto.
  - intros u' g i city row Hrow p ->.
    apply query_of_next_candidate in Hrow as (b & Hq).
    apply run_query_sound in Hq as (pid & p' & Heq & Hp & _).
    injection Heq as <-. cbn in Hp.
    rewrite lookup_delete_eq in Hp. discriminate.
Qed.

End Voting.

Section Flags.

Import Db Settings.

Lemma feature_key_inj (n n' : string) :
  "feature:" +:+ n = "feature:" +:+ n' -> n = n'.
Proof. cbn. by intros [=]. Qed.

Lemma feature_key_not_mode (n : string) : "feature:" +:+ n ≠ "mode".
Proof. cbn. discriminate. Qed.

(** X22. Modes and feature flags share the settings table without
    getting in each other's way.  A flag reads as it was last set and is
    on when it was never set; setting one flag changes no other flag and
    not the mode; setting the mode changes no flag; and the mode reads
    as it was last set, ["collect"] when it was never set. *)
Theorem settings_round_trip (name : string) (enabled : bool) (mode : string)
    (st : Store) :
  is_feature_enabled name (set_feature_enabled name enabled st) = enabled
  ∧ (forall name', name' ≠ name ->
       is_feature_enabled name' (set_feature_enabled name enabled st)
       = is_feature_enabled name' st)
  ∧ get_mode (set_feature_enabled name enabled st) = get_mode st
  ∧ get_mode (set_mode mode st) = mode
  ∧ (forall name', is_feature_enabled name' (set_mode mode st)
                   = is_feature_enabled name' st)
  ∧ is_feature_enabled name empty_store = true
  ∧ get_mode empty_store = "collect".
Proof.
  unfold is_feature_enabled, get_mode, set_feature_enabled, set_mode.
  cbn [settings with_settings]. split_and!.
  - rewrite lookup_insert_eq. by destruct enabled.
  - intros name' Hne. rewrite lookup_insert_ne; [done|].
    intros H%feature_key_inj. done.
  - rewrite lookup_insert_ne; [done|]. apply feature_key_not_mode.
  - by rewrite lookup_insert_eq.
  - intros name'. rewrite lookup_insert_ne; [done|].
    intros H. by apply (feature_key_not_mode name').
  - done.
  - done.
Qed.

End Flags.

Section AdminCommands.

Import Db Handlers Spec Sqlite Admins.

Variable str_int : string -> option Z.
Variable str_float : string -> option pyfloat.
Context {Registry : Type}.
Variable ensure_user_context : Registry -> Registry.
Variable float_div : Q -> Q -> Q.

(** What the theorems use of the division of floats by 100.0: rounding
    keeps the order, and the quotients 0 and 1 are floats, so that 0 / 100
    and 100 / 100 are exact. *)
Hypothesis float_div_mono :
  forall x y : Q, (x <= y)%Q -> (float_div x 100 <= float_div y 100)%Q.
Hypothesis float_div_0 : (float_div 0 100 == 0)%Q.
Hypothesis float_div_100 : (float_div 100 100 == 1)%Q.

(** X23. Who is an admin, and what that gates.  In guest mode nobody is
    an admin, not even the primary admin or a user of the admin table.
    Otherwise the primary admin always is one, also after being removed
    from the table, and any other user is one exactly while the table
    lists them.  The boost, grant and give-points commands first record
    the sender as every handler does ([ensure_user_context]); for a
    sender who is not an admin they do nothing else: no reply, and no
    write to the wallets, the boosts, the statistics or any other table
    of the store. *)
Theorem admin_only (c : Config) (admin_users : gset Z) (sender : Z)
    (args : list string) (reg : Registry) (w : World) :
  (ADMIN_GUEST_MODE c = true -> is_admin c admin_users sender = false)
  ∧ (ADMIN_GUEST_MODE c = false ->
     is_admin c (remove_admin_user ADMIN_ID admin_users) ADMIN_ID = true
     ∧ (sender ≠ ADMIN_ID ->
        is_admin c admin_users sender = bool_decide (sender ∈ admin_users)
        ∧ is_admin c (add_admin_user sender admin_users) sender = true
        ∧ is_admin c (remove_admin_user sender admin_users) sender = false))
  ∧ (is_admin c admin_users sender = false ->
     blackjack_boost_cmd str_int str_float c admin_users sender
       ensure_user_context float_div args reg w
     = (ensure_user_context reg, Return tt w)
     ∧ grant_boost_points_cmd str_int c admin_users sender
         ensure_user_context args reg w
       = (ensure_user_context reg, Return tt w)
     ∧ give_points_cmd str_int c admin_users sender ensure_user_context
         args reg w
       = (ensure_user_context reg, Return tt w)).
Proof.
  unfold is_admin, is_admin_user, add_admin_user, remove_admin_user.
  split_and!.
  - by intros ->.
  - intros ->. split; [by rewrite bool_decide_eq_true_2|].
    intros Hne. rewrite !(bool_decide_eq_false_2 (sender = ADMIN_ID)) by done.
    split_and!; [done| |].
    + apply bool_decide_eq_true_2, elem_of_union_l. by apply elem_of_singleton.
    + apply bool_decide_eq_false_2. rewrite elem_of_difference, elem_of_singleton.
      tauto.
  - intros Hno.
    unfold blackjack_boost_cmd, grant_boost_points_cmd, give_points_cmd,
      is_admin, is_admin_user.
    by rewrite Hno.
Qed.

Lemma clamp_finite (pct : pyfloat) :
  exists q,
    float_max (Finite 0) (float_min pct (Finite 100)) = Finite q
    ∧ (0 <= q)%Q ∧ (q <= 100)%Q
    ∧ match pct with
      | Finite p =>
          ((0 < p)%Q -> (p <= 100)%Q -> q = p)
          ∧ ((100 < p)%Q -> q = 100%Q)
          ∧ ((p <= 0)%Q -> q = 0%Q)
      | PlusInf => q = 100%Q
      | MinusInf | NaN => q = 0%Q
      end.
Proof.
  destruct pct as [p| | |]; unfold float_max, float_min; cbn [float_lt].
  - destruct (Qltb 100 p) eqn:E1; cbn [float_lt].
    + exists 100%Q. split; [reflexivity|]. split_and!; try done.
      * apply Qltb_true in E1. intros _ Hle. exfalso.
        by apply (Qlt_not_le _ _ E1).
      * apply Qltb_true in E1. intros Hle. exfalso.
        apply (Qlt_not_le _ _ E1). by apply (Qle_trans _ 0).
    + assert (Hle : (p <= 100)%Q).
      { apply Qnot_lt_le. intros H%Qltb_true. congruence. }
      destruct (Qltb 0 p) eqn:E2.
      * exists p. apply Qltb_true in E2.
        split_and!; [done|by apply Qlt_le_weak|done|done| |].
        -- intros H. exfalso. by apply (Qlt_not_le _ _ H).
        -- intros H. exfalso. by apply (Qlt_not_le _ _ E2).
      * exists 0%Q. split_and!; try done.
        -- intros H%Qltb_true. congruence.
        -- intros H. exfalso. by apply (Qlt_not_le _ _ H).
  - exists 100%Q. by split_and!.
  - exists 0%Q. by split_and!.
  - exists 0%Q. by split_and!.
Qed.

(** X24. The boost an admin sets is always a fraction between 0 and 1.
    Whatever number is typed as the percentage, also an infinity or a
    NaN, it is clamped to the range from 0 to 100 (a percentage above 0
    and up to 100 is kept, anything above gives 100, anything else 0),
    and what is stored is the float quotient of that by 100.  Besides
    the record of the sender, only the target's boost changes: no
    balance, no round and no other user's boost is touched. *)
Theorem blackjack_boost_cmd_range (c : Config) (admin_users : gset Z)
    (sender target : Z) (a0 a1 : string) (pct : pyfloat) (reg : Registry)
    (w : World) :
  is_admin c admin_users sender = true ->
  str_int a0 = Some target ->
  int64 target ->
  str_float a1 = Some pct ->
  exists q,
    blackjack_boost_cmd str_int str_float c admin_users sender
      ensure_user_context float_div [a0; a1] reg w
    = (ensure_user_context reg,
       Return tt
         (mkWorld (set_blackjack_boost target (float_div q 100) (db w))
            (user_data w) (sent w ++ ["bj_boost_set"])))
    ∧ match pct with
      | Finite p =>
          ((0 < p)%Q -> (p <= 100)%Q -> q = p)
          ∧ ((100 < p)%Q -> q = 100%Q)
          ∧ ((p <= 0)%Q -> q = 0%Q)
      | PlusInf => q = 100%Q
      | MinusInf | NaN => q = 0%Q
      end
    ∧ get_blackjack_boost target
        (set_blackjack_boost target (float_div q 100) (db w))
      = float_div q 100
    ∧ (0 <= float_div q 100)%Q ∧ (float_div q 100 <= 1)%Q
    ∧ (forall u, u ≠ target ->
         get_blackjack_boost u
           (set_blackjack_boost target (float_div q 100) (db w))
         = get_blackjack_boost u (db w))
    ∧ unchanged
        (with_boosts (fun _ => blackjack_boosts (db w))
           (set_blackjack_boost target (float_div q 100) (db w)))
        (db w).
Proof.
  intros Hadmin Hint _ Hfloat.
  destruct (clamp_finite pct) as (q & Hq & H0 & H100 & Hcase).
  exists q.
  split_and!.
  - unfold blackjack_boost_cmd. rewrite Hadmin, Hint, Hfloat. cbn [negb].
    rewrite Hq. reflexivity.
  - exact Hcase.
  - unfold get_blackjack_boost, set_blackjack_boost. cbn.
    by rewrite lookup_insert_eq.
  - rewrite <- float_div_0. by apply float_div_mono.
  - rewrite <- float_div_100. by apply float_div_mono.
  - intros u Hne. unfold get_blackjack_boost, set_blackjack_boost. cbn.
    by rewrite lookup_insert_ne.
  - destruct (db w). apply unchanged_refl.
Qed.

End AdminCommands.

Lemma blackjack_boost_cmd_range_witness :
  exists q,
    Admins.blackjack_boost_cmd (fun _ => Some 7) (fun _ => Some Admins.PlusInf)
      (Admins.mkConfig false None) ∅ Admins.ADMIN_ID (fun n : nat => S n)
      Qdiv ["7"; "inf"] 0%nat Examples.table_100
    = (1%nat,
       Handlers.Return tt
         (Handlers.mkWorld
            (Admins.set_blackjack_boost 7 (q / 100)
               (Handlers.db Examples.table_100))
            (Handlers.user_data Examples.table_100) ["bj_boost_set"]))
    ∧ q = 100%Q.
Proof.
  destruct (blackjack_boost_cmd_range (fun _ => Some 7)
              (fun _ => Some Admins.PlusInf) (fun n : nat => S n) Qdiv)
    with (c := Admins.mkConfig false None) (admin_users := ∅ : gset Z)
         (sender := Admins.ADMIN_ID) (target := 7) (a0 := "7") (a1 := "inf")
         (pct := Admins.PlusInf) (reg := 0%nat) (w := Examples.table_100)
    as (q & Hrun & Hq & _).
  - intros x y Hxy. apply Qmult_le_compat_r; [exact Hxy|discriminate].
  - reflexivity.
  - reflexivity.
  - reflexivity.
  - reflexivity.
  - unfold Sqlite.int64. vm_compute. split; [discriminate|reflexivity].
  - reflexivity.
  - exists q. split; [exact Hrun|exact Hq].
Defined.

Section ReferralBonus.

Import Db Handlers Spec Referrals.

Lemma bind_run {A B} (m : HM A) (k : A -> HM B) (w w' : World) (a : A) :
  m w = Return a w' -> (m ≫= k) w = k a w'.
Proof. intros H. unfold mbind, HM_bind. by rewrite H. Qed.

Lemma tinder_edit_menu_db (u : Z) (w : World) :
  exists a w', tinder_edit_menu u w = Return a w' ∧ db w' = db w.
Proof.
  unfold tinder_edit_menu, start_tinder_flow. hm_run.
  destruct (get_profile u (db w)); eauto.
Qed.

Lemma send_next_candidate_card_db (u : Z) (w : World) :
  exists a w', send_next_candidate_card u w = Return a w' ∧ db w' = db w.
Proof.
  unfold send_next_candidate_card. hm_run.
  destruct (get_profile u (db w)) as [p|]; [|eauto].
  destruct (get_next_candidate _ _ _ _ _) as [[[[[[[t ?] ?] ?] ?] ?] ?]|]; eauto.
Qed.

(** The bonus of a first profile: who named a referrer that is not 0
    and has not been credited yet. *)
Lemma referral_part_run (u : Z) (w : World) :
  exists w',
    ('(referrer_id, credited) ← db_read (get_referrer u);
     match referrer_id with
     | Some r =>
         if truthy_int referrer_id && bool_decide (credited = Some 0) then
           _ ← db_call (adjust_balance u REFERRAL_BONUS);
           _ ← db_call (adjust_balance r REFERRAL_BONUS);
           db_exec (mark_referral_credited u);;
           db_exec (increment_stat r "referrals" 1);;
           db_exec (increment_stat u "referral_rewards" 1);;
           respond "referral_bonus_claimed"
         else mret tt
     | None => mret tt
     end) w = Return tt w'
    ∧ db w'
      = match referrals (db w) !! u with
        | Some (Some r, credited) =>
            if negb (r =? 0) && (credited =? 0) then
              increment_stat u "referral_rewards" 1
                (increment_stat r "referrals" 1
                   (mark_referral_credited u
                      (adjust_balance r REFERRAL_BONUS
                         (adjust_balance u REFERRAL_BONUS (db w)).2).2))
            else db w
        | _ => db w
        end.
Proof.
  hm_run. unfold get_referrer.
  destruct (referrals (db w) !! u) as [[[r|] credited]|] eqn:Href; eauto.
  cbn [truthy_int].
  assert (Hcred : bool_decide (Some credited = Some 0) = (credited =? 0)).
  { destruct (Z.eqb_spec credited 0) as [->|Hne].
    - by apply bool_decide_eq_true_2.
    - apply bool_decide_eq_false_2. congruence. }
  rewrite Hcred. destruct (negb (r =? 0) && (credited =? 0)); [|eauto].
  destruct (adjust_balance u REFERRAL_BONUS (db w)) as [b1 s1].
  cbn [snd db].
  destruct (adjust_balance r REFERRAL_BONUS s1) as [b2 s2].
  cbn [snd db]. eexists. split; reflexivity.
Qed.

Lemma save_tail_run (u : Z) (w : World) :
  exists s w',
    (edit ← ud_read ud_tinder_edit_mode;
     if truthy_flag edit then
       ud_exec (set_tinder_edit_mode (Some false));;
       respond "tinder_saved";;
       tinder_edit_menu u
     else
       mode ← db_read get_mode;
       if bool_decide (mode = "vote") then
         sent ← send_next_candidate_card u;
         (if negb sent then respond "tinder_browse_empty_after_save"
          else mret tt);;
         mret END
       else respond "tinder_saved";; mret END) w = Return s w'
    ∧ db w' = db w.
Proof.
  hm_run. destruct (truthy_flag _).
  - match goal with
    | |- context [tinder_edit_menu u ?w0] =>
        destruct (tinder_edit_menu_db u w0) as (a & w' & Heq & Hdb)
    end.
    exists a, w'. by split.
  - destruct (bool_decide _); [|by eexists _, _].
    destruct (send_next_candidate_card_db u w) as (a & w' & -> & <-).
    destruct a; cbn; by eexists _, _.
Qed.

(** Where [save_followup] leaves the database: the media and the counter
    of the save are written (the wallets and the referrals are not
    touched by that), then the bonus if it is due. *)
Lemma save_followup_run (u : Z) (is_new : bool)
    (media : option (list (string * string))) (w : World) :
  exists s w' st1,
    save_followup u is_new media w = Return s w'
    ∧ user_wallets st1 = user_wallets (db w)
    ∧ referrals st1 = referrals (db w)
    ∧ db w'
      = match referrals st1 !! u with
        | Some (Some r, credited) =>
            if is_new && (negb (r =? 0) && (credited =? 0)) then
              increment_stat u "referral_rewards" 1
                (increment_stat r "referrals" 1
                   (mark_referral_credited u
                      (adjust_balance r REFERRAL_BONUS
                         (adjust_balance u REFERRAL_BONUS st1).2).2))
            else st1
        | _ => st1
        end.
Proof.
  set (st0 :=
    if truthy_list media then
      foldl
        (fun st '(idx, (fid, kind)) =>
           add_profile_media u fid kind (Z.of_nat idx) st)
        (clear_profile_media u (db w)) (imap pair (default [] media))
    else db w).
  set (st1 :=
    increment_stat u
      (if is_new then "profiles_created" else "profiles_updated") 1 st0).
  assert (H0 : user_wallets st0 = user_wallets (db w)
               ∧ referrals st0 = referrals (db w)).
  { unfold st0. destruct (truthy_list media); [|done].
    generalize (imap pair (default [] media)).
    assert (Hc : user_wallets (clear_profile_media u (db w)) = user_wallets (db w)
                 ∧ referrals (clear_profile_media u (db w)) = referrals (db w))
      by done.
    revert Hc. generalize (clear_profile_media u (db w)).
    intros s Hs l. revert s Hs.
    induction l as [|[idx [fid kind]] l IH]; intros s Hs; [done|].
    cbn [foldl]. apply IH. done. }
  assert (H1 : user_wallets st1 = user_wallets (db w)
               ∧ referrals st1 = referrals (db w)).
  { unfold st1, increment_stat. destruct (_ || _); cbn; apply H0. }
  assert (Hstart :
    exists u1 s1,
      save_followup u is_new media w
      = ((if is_new then
            '(referrer_id, credited) ← db_read (get_referrer u);
            match referrer_id with
            | Some r =>
                if truthy_int referrer_id && bool_decide (credited = Some 0)
                then
                  _ ← db_call (adjust_balance u REFERRAL_BONUS);
                  _ ← db_call (adjust_balance r REFERRAL_BONUS);
                  db_exec (mark_referral_credited u);;
                  db_exec (increment_stat r "referrals" 1);;
                  db_exec (increment_stat u "referral_rewards" 1);;
                  respond "referral_bonus_claimed"
                else mret tt
            | None => mret tt
            end
          else mret tt);;
         edit ← ud_read ud_tinder_edit_mode;
         if truthy_flag edit then
           ud_exec (set_tinder_edit_mode (Some false));;
           respond "tinder_saved";;
           tinder_edit_menu u
         else
           mode ← db_read get_mode;
           if bool_decide (mode = "vote") then
             sent ← send_next_candidate_card u;
             (if negb sent then respond "tinder_browse_empty_after_save"
              else mret tt);;
             mret END
           else respond "tinder_saved";; mret END)
          (mkWorld st1 u1 s1)).
  { unfold save_followup, st1, st0.
    unfold mbind at 1 2 3. unfold HM_bind at 1 2 3.
    destruct (truthy_list media); hm_run; eauto. }
  destruct Hstart as (u1 & s1 & ->).
  destruct is_new; cbn [andb].
  - destruct (referral_part_run u (mkWorld st1 u1 s1)) as (w2 & Hr & Hdb).
    rewrite (bind_run _ _ _ _ _ Hr).
    destruct (save_tail_run u w2) as (s & w3 & -> & Hdb3).
    exists s, w3, st1. split_and!; [done|apply H1|apply H1|].
    rewrite Hdb3, Hdb. reflexivity.
  - rewrite (bind_run _ _ _ (mkWorld st1 u1 s1) tt) by reflexivity.
    destruct (save_tail_run u (mkWorld st1 u1 s1)) as (s & w3 & -> & Hdb3).
    exists s, w3, st1. split_and!; [done|apply H1|apply H1|].
    rewrite Hdb3. cbn. by destruct (referrals st1 !! u) as [[[r|] c]|].
Qed.

Lemma adjust_balance_referrals (v delta : Z) (st : Store) :
  referrals (adjust_balance v delta st).2 = referrals st.
Proof.
  unfold adjust_balance, ensure_wallet. cbn [snd].
  by destruct (user_wallets st !! v).
Qed.

Lemma increment_stat_wallets (v : Z) (field : string) (delta : Z) (st : Store) :
  user_wallets (increment_stat v field delta st) = user_wallets st
  ∧ referrals (increment_stat v field delta st) = referrals st.
Proof. unfold increment_stat. by destruct (_ || _). Qed.

(** A save with a bonus due: 50 points to the user and to the referrer,
    and the referral is marked as credited. *)
Lemma referral_bonus_run (u r : Z) (media : option (list (string * string)))
    (w : World) :
  referrals (db w) !! u = Some (Some r, 0) ->
  r ≠ 0 ->
  exists s w1,
    save_followup u true media w = Return s w1
    ∧ (forall v,
         balance_of v (db w1)
         = balance_of v (db w)
           + (if decide (v = u) then REFERRAL_BONUS else 0)
           + (if decide (v = r) then REFERRAL_BONUS else 0))
    ∧ referrals (db w1) = <[u := (Some r, 1)]> (referrals (db w)).
Proof.
  intros Href Hr.
  destruct (save_followup_run u true media w)
    as (s & w1 & st1 & Hrun & Hw & Hrf & Hdb).
  rewrite Hrf, Href in Hdb.
  replace (r =? 0) with false in Hdb by (symmetry; by apply Z.eqb_neq).
  cbn [andb negb Z.eqb] in Hdb.
  exists s, w1. split; [exact Hrun|]. rewrite Hdb. split.
  - intros v.
    rewrite (balance_of_wallets v _ _
               (proj1 (increment_stat_wallets u "referral_rewards" 1 _))).
    rewrite (balance_of_wallets v _ _
               (proj1 (increment_stat_wallets r "referrals" 1 _))).
    rewrite (balance_of_wallets v (adjust_balance r REFERRAL_BONUS
               (adjust_balance u REFERRAL_BONUS st1).2).2) by reflexivity.
    rewrite !balance_of_adjust, (balance_of_wallets v _ _ Hw).
    repeat destruct (decide _); lia.
  - rewrite (proj2 (increment_stat_wallets u "referral_rewards" 1 _)).
    rewrite (proj2 (increment_stat_wallets r "referrals" 1 _)).
    cbn [mark_referral_credited with_referrals referrals].
    rewrite !adjust_balance_referrals, Hrf.
    apply map_eq. intros v. destruct (decide (v = u)) as [->|Hne].
    + by rewrite lookup_alter_eq, lookup_insert_eq, Href.
    + by rewrite lookup_alter_ne, lookup_insert_ne.
Qed.

(** X25. The referral bonus is paid once, to the first referrer.  A
    user without a referral row follows the link of [r] (not the user
    itself, not 0) and then the link of [r']: the first profile saved
    brings [REFERRAL_BONUS] to the user and to [r], nothing to anyone
    else, and whatever link is followed afterwards, no later save
    changes a balance. *)
Theorem referral_bonus_paid_once (u r r' : Z)
    (media : option (list (string * string))) (w : World) :
  referrals (db w) !! u = None ->
  u ≠ r ->
  r ≠ 0 ->
  let linked :=
    mkWorld (set_referrer u r' (set_referrer u r (db w))) (user_data w)
      (sent w) in
  exists s w1,
    save_followup u true media linked = Return s w1
    ∧ (forall v,
         balance_of v (db w1)
         = balance_of v (db w)
           + (if decide (v = u) then REFERRAL_BONUS else 0)
           + (if decide (v = r) then REFERRAL_BONUS else 0))
    ∧ (forall r'' is_new' media',
         exists s' w2,
           save_followup u is_new' media'
             (mkWorld (set_referrer u r'' (db w1)) (user_data w1) (sent w1))
           = Return s' w2
           ∧ forall v, balance_of v (db w2) = balance_of v (db w1)).
Proof.
  intros Hnone Hur Hr linked.
  assert (Hlinked : referrals (db linked) !! u = Some (Some r, 0)
                    ∧ user_wallets (db linked) = user_wallets (db w)).
  { unfold linked. cbn [db].
    assert (H1 : set_referrer u r (db w)
                 = with_referrals <[u := (Some r, 0)]> (db w)).
    { unfold set_referrer. by rewrite bool_decide_eq_false_2, Hnone. }
    assert (H2 : set_referrer u r' (set_referrer u r (db w))
                 = set_referrer u r (db w)).
    { rewrite H1. unfold set_referrer. cbn [referrals with_referrals].
      rewrite lookup_insert_eq. by destruct (bool_decide (u = r')). }
    rewrite H2, H1. cbn [referrals with_referrals user_wallets].
    by rewrite lookup_insert_eq. }
  destruct Hlinked as [Hrow Hwal].
  destruct (referral_bonus_run u r media linked Hrow Hr)
    as (s & w1 & Hrun & Hbal & Hrefs).
  exists s, w1. split_and!; [exact Hrun| |].
  - intros v. by rewrite Hbal, (balance_of_wallets v _ _ Hwal).
  - intros r'' is_new' media'.
    assert (Hsame : set_referrer u r'' (db w1) = db w1).
    { unfold set_referrer. rewrite Hrefs, lookup_insert_eq.
      by destruct (bool_decide _). }
    rewrite Hsame.
    destruct (save_followup_run u is_new' media'
                (mkWorld (db w1) (user_data w1) (sent w1)))
      as (s' & w2 & st1 & Hrun2 & Hw2 & Hrf2 & Hdb2).
    exists s', w2. split; [exact Hrun2|]. intros v.
    cbn [db] in Hw2, Hrf2.
    rewrite Hrf2, Hrefs, lookup_insert_eq in Hdb2.
    change (1 =? 0) with false in Hdb2.
    rewrite !andb_false_r in Hdb2. rewrite Hdb2.
    by apply balance_of_wallets.
Qed.

(** X26. No bonus without a referral that is due: when the profile
    saved is not the user's first, or the user has no referrer, the
    referrer is 0, or the referral has been credited, the save changes
    nobody's balance and leaves the referrals as they are. *)
Theorem referral_bonus_only_when_due (u : Z) (is_new : bool)
    (media : option (list (string * string))) (w : World) :
  is_new = false
  ∨ (forall r, get_referrer u (db w) = (Some r, Some 0) -> r = 0) ->
  exists s w1,
    save_followup u is_new media w = Return s w1
    ∧ (forall v, balance_of v (db w1) = balance_of v (db w))
    ∧ referrals (db w1) = referrals (db w).
Proof.
  intros Hno.
  destruct (save_followup_run u is_new media w)
    as (s & w1 & st1 & Hrun & Hw & Hrf & Hdb).
  exists s, w1. split; [exact Hrun|].
  assert (Hst : db w1 = st1).
  { rewrite Hdb, Hrf. unfold get_referrer in Hno.
    destruct (referrals (db w) !! u) as [[[r|] c]|]; try reflexivity.
    destruct Hno as [->|Hno]; [reflexivity|].
    destruct is_new; [|reflexivity]. cbn [andb].
    destruct (Z.eqb_spec c 0) as [->|Hc]; [|by rewrite andb_false_r].
    by rewrite (Hno r eq_refl). }
  rewrite Hst. split; [|exact Hrf].
  intros v. by apply balance_of_wallets.
Qed.

End ReferralBonus.

Lemma referral_bonus_paid_once_witness :
  exists s w1,
    Handlers.save_followup 1 true None
      (Handlers.mkWorld
         (Referrals.set_referrer 1 3
            (Referrals.set_referrer 1 2 (Handlers.db Examples.table_100)))
         (Handlers.user_data Examples.table_100) (Handlers.sent Examples.table_100))
    = Handlers.Return s w1
    ∧ Spec.balance_of 1 (Handlers.db w1) = 150
    ∧ Spec.balance_of 2 (Handlers.db w1) = 70
    ∧ Spec.balance_of 3 (Handlers.db w1) = 20.
Proof.
  destruct (referral_bonus_paid_once 1 2 3 None Examples.table_100)
    as (s & w1 & Hrun & Hbal & _).
  - reflexivity.
  - lia.
  - lia.
  - exists s, w1. split; [exact Hrun|].
    rewrite !Hbal. split_and!; reflexivity.
Defined.

Lemma referral_bonus_only_when_due_witness :
  exists s w1,
    Handlers.save_followup 1 false None Examples.table_100 = Handlers.Return s w1
    ∧ Spec.balance_of 1 (Handlers.db w1) = 100.
Proof.
  destruct (referral_bonus_only_when_due 1 false None Examples.table_100)
    as (s & w1 & Hrun & Hbal & _).
  - by left.
  - exists s, w1. split; [exact Hrun|]. by rewrite Hbal.
Defined.

Section GiftNumbers.

Import Santa.

Lemma head_filter_Some {A} (P : A -> Prop) `{HP : !forall x, Decision (P x)}
    (l : list A) (x : A) :
  head (filter P l) = Some x -> x ∈ l ∧ P x.
Proof.
  induction l as [|y l IH]; [done|].
  rewrite filter_cons. destruct (decide (P y)) as [Hy|Hy].
  - intros [= ->]. split; [left|done].
  - intros [Hin Hx]%IH. split; [by right|done].
Qed.

Lemma head_filter_None {A} (P : A -> Prop) `{HP : !forall x, Decision (P x)}
    (l : list A) :
  head (filter P l) = None <-> filter P l = [].
Proof. by destruct (filter P l). Qed.

Lemma filter_none {A} (P : A -> Prop) `{HP : !forall x, Decision (P x)}
    (l : list A) :
  filter P l = [] <-> Forall (fun x => ¬ P x) l.
Proof.
  induction l as [|y l IH]; [by split; [constructor|]|].
  rewrite filter_cons. destruct (decide (P y)) as [Hy|Hy].
  - split; [done|]. intros H. by inversion H.
  - rewrite IH. split; [by constructor|]. intros H. by inversion H.
Qed.

Lemma insert_user_refused (uid : Z) (t : Table) :
  insert_user uid t = IntegrityError
  <-> ¬ Forall (fun r => ¬ user_id r = uid) (rows t).
Proof.
  unfold insert_user.
  destruct (existsb _ (rows t)) eqn:E.
  - split; [intros _|done]. apply existsb_exists in E as (r & Hin & Hr).
    apply bool_decide_eq_true in Hr. rewrite Forall_forall. intros H.
    apply (H r); [by apply list_elem_of_In|done].
  - split; [done|]. intros H. exfalso. apply H. apply Forall_forall.
    intros r Hin Hr.
    assert (existsb (fun r => bool_decide (user_id r = uid)) (rows t) = true)
      as Hex; [|congruence].
    apply existsb_exists. exists r. split; [by apply list_elem_of_In|].
    by apply bool_decide_eq_true.
Qed.

(** A first number: the counter moves on by one and the row is added. *)
Lemma assign_new (uid : Z) (t : Table) :
  table_wf t ->
  get_santa_number_for_user uid t = None ->
  let t' := mkTable (rows t ++ [mkRow (seq t + 1) uid None None]) (seq t + 1) in
  assign_secret_santa_number uid t = Done (Some (seq t + 1), t')
  ∧ table_wf t'.
Proof.
  intros (Hseq & Hrange & Hu & Hn) Hnone t'.
  assert (Hfree : Forall (fun r => ¬ user_id r = uid) (rows t)).
  { apply (filter_none (fun r => user_id r = uid)). unfold get_santa_number_for_user in Hnone.
    apply fmap_None in Hnone. by apply head_filter_None. }
  assert (Hins : insert_user uid t = Done t').
  { unfold insert_user.
    destruct (existsb _ (rows t)) eqn:E; [|done].
    exfalso.
    assert (insert_user uid t = IntegrityError) as Hr
      by (unfold insert_user; by rewrite E).
    by apply insert_user_refused in Hr. }
  split.
  - unfold assign_secret_santa_number. rewrite Hnone, Hins.
    unfold get_santa_number_for_user, t'. cbn [rows].
    rewrite filter_app.
    apply (filter_none (fun r => user_id r = uid)) in Hfree.
    rewrite Hfree. cbn [app].
    rewrite filter_cons, decide_True by done. reflexivity.
  - unfold table_wf, t'. cbn [rows seq]. split_and!.
    + lia.
    + apply Forall_app. split.
      * eapply Forall_impl; [exact Hrange|]. cbn. intros r Hr. lia.
      * apply Forall_cons_2; [cbn; lia|constructor].
    + rewrite fmap_app. apply NoDup_app. split_and!; [done| |].
      * intros v Hv. cbn. rewrite list_elem_of_singleton. intros ->.
        apply list_elem_of_fmap in Hv as (r & Hr & Hin).
        rewrite Forall_forall in Hfree. by apply (Hfree r).
      * cbn. apply NoDup_singleton.
    + rewrite fmap_app. apply NoDup_app. split_and!; [done| |].
      * intros n Hin. cbn. rewrite list_elem_of_singleton. intros ->.
        apply list_elem_of_fmap in Hin as (r & Hr & Hin).
        rewrite Forall_forall in Hrange. specialize (Hrange r Hin). lia.
      * cbn. apply NoDup_singleton.
Qed.

(** A user who has a number keeps it. *)
Lemma assign_again (uid n : Z) (t : Table) :
  table_wf t ->
  get_santa_number_for_user uid t = Some n ->
  1 <= n <= seq t ∧ assign_secret_santa_number uid t = Done (Some n, t).
Proof.
  intros (Hseq & Hrange & Hu & Hn) Hsome.
  assert (Hb : 1 <= n <= seq t).
  { unfold get_santa_number_for_user in Hsome.
    apply fmap_Some in Hsome as (r & Hhead & ->).
    apply head_filter_Some in Hhead as [Hin _].
    rewrite Forall_forall in Hrange. by apply Hrange. }
  split; [exact Hb|].
  unfold assign_secret_santa_number. rewrite Hsome.
  replace (n =? 0) with false by (symmetry; apply Z.eqb_neq; lia).
  reflexivity.
Qed.

(** X27. Gift numbers.  On a table as the inserts leave it (numbers
    between 1 and the counter, one row per user),
    [assign_secret_santa_number] never fails on the UNIQUE constraint and
    returns a number from 1 on; asking again returns the same number and
    writes nothing; nobody else's number changes, nobody else holds the
    number returned, and a first number is the counter plus one. *)
Theorem assign_secret_santa_number_stable (uid : Z) (t : Table) :
  table_wf t ->
  exists n t',
    assign_secret_santa_number uid t = Done (Some n, t')
    ∧ 1 <= n <= seq t'
    ∧ table_wf t'
    ∧ assign_secret_santa_number uid t' = Done (Some n, t')
    ∧ (forall v, v ≠ uid ->
         get_santa_number_for_user v t' = get_santa_number_for_user v t
         ∧ get_santa_number_for_user v t' ≠ Some n)
    ∧ (get_santa_number_for_user uid t = None -> n = seq t + 1).
Proof.
  intros Hwf.
  destruct (get_santa_number_for_user uid t) as [n|] eqn:Hget.
  - destruct (assign_again uid n t Hwf Hget) as [Hb Hrun].
    exists n, t.
    split; [exact Hrun|]. split; [exact Hb|]. split; [exact Hwf|].
    split; [exact Hrun|]. split; [|done].
    intros v Hv. split; [done|].
    intros Hvn. destruct Hwf as (_ & _ & Hu & Hn).
    unfold get_santa_number_for_user in Hget, Hvn.
    apply fmap_Some in Hget as (r & Hr & ->).
    apply fmap_Some in Hvn as (r' & Hr' & Heq).
    apply head_filter_Some in Hr as [Hin Hru].
    apply head_filter_Some in Hr' as [Hin' Hru'].
    apply Hv. rewrite <- Hru, <- Hru'. f_equal.
    apply list_elem_of_lookup in Hin as [i Hi].
    apply list_elem_of_lookup in Hin' as [j Hj].
    assert (i = j) as ->; [|congruence].
    eapply NoDup_lookup; [exact Hn| |].
    + rewrite list_lookup_fmap, Hi. reflexivity.
    + rewrite list_lookup_fmap, Hj. cbn. by rewrite Heq.
  - destruct (assign_new uid t Hwf Hget) as [Hrun Hwf'].
    set (t' := mkTable (rows t ++ [mkRow (seq t + 1) uid None None])
                 (seq t + 1)) in *.
    assert (Hmine : get_santa_number_for_user uid t' = Some (seq t + 1)).
    { unfold get_santa_number_for_user, t'. cbn [rows].
      rewrite filter_app.
      unfold get_santa_number_for_user in Hget. apply fmap_None in Hget.
      apply head_filter_None in Hget. rewrite Hget. cbn [app].
      rewrite filter_cons, decide_True by done. reflexivity. }
    assert (Hothers : forall v, v ≠ uid ->
              get_santa_number_for_user v t' = get_santa_number_for_user v t).
    { intros v Hv. unfold get_santa_number_for_user, t'. cbn [rows].
      rewrite filter_app, filter_cons, decide_False by (cbn; congruence).
      by rewrite filter_nil, app_nil_r. }
    exists (seq t + 1), t'.
    split; [exact Hrun|].
    split; [destruct Hwf as (Hseq & _); cbn; lia|].
    split; [exact Hwf'|].
    split; [by apply assign_again|]. split; [|done].
    intros v Hv. split; [by apply Hothers|].
      rewrite Hothers by done. intros Hvn.
      destruct Hwf as (_ & Hrange & _).
      unfold get_santa_number_for_user in Hvn.
      apply fmap_Some in Hvn as (r & Hr & Heq).
      apply head_filter_Some in Hr as [Hin _].
      rewrite Forall_forall in Hrange. specialize (Hrange r Hin). lia.
Qed.

End GiftNumbers.

Lemma assign_secret_santa_number_stable_witness :
  exists t',
    Santa.assign_secret_santa_number 7
      (Santa.mkTable [Santa.mkRow 1 5 None None; Santa.mkRow 3 6 None None] 3)
    = Santa.Done (Some 4, t')
    ∧ Santa.assign_secret_santa_number 7 t' = Santa.Done (Some 4, t').
Proof.
  destruct (assign_secret_santa_number_stable 7
              (Santa.mkTable
                 [Santa.mkRow 1 5 None None; Santa.mkRow 3 6 None None] 3))
    as (n & t' & Hrun & _ & _ & Hagain & _ & Hnew).
  - unfold Santa.table_wf. cbn.
    split_and!; [lia| | |].
    + repeat constructor; cbn; lia.
    + apply (bool_decide_unpack _). vm_compute. exact I.
    + apply (bool_decide_unpack _). vm_compute. exact I.
  - rewrite (Hnew eq_refl) in Hrun, Hagain. by exists t'.
Defined.

Section SplitName.

Import Game Helpers.

Context {char : Type} (isspace : char -> bool) (space : char).
Hypothesis space_isspace : isspace space = true.

Lemma split_from_words (s cur : list char) :
  Forall (fun c => isspace c = false) cur ->
  Forall (word isspace) (split_from isspace s cur).
Proof.
  revert cur. induction s as [|ch s IH]; intros cur Hcur; cbn [split_from].
  - destruct cur as [|c cur]; [constructor|].
    apply Forall_cons_2; [|constructor]. split.
    + intros H. apply (f_equal length) in H.
      rewrite length_reverse in H. discriminate.
    + by apply Forall_reverse.
  - destruct (isspace ch) eqn:Hch.
    + destruct cur as [|c cur]; [by apply IH|].
      apply Forall_cons_2; [|by apply IH]. split.
      * intros H. apply (f_equal length) in H.
        rewrite length_reverse in H. discriminate.
      * by apply Forall_reverse.
    + apply IH. by apply Forall_cons_2.
Qed.

Lemma split_from_nil (s cur : list char) :
  split_from isspace s cur = []
  <-> cur = [] ∧ Forall (fun c => isspace c = true) s.
Proof.
  revert cur. induction s as [|ch s IH]; intros cur; cbn [split_from].
  - destruct cur as [|c cur].
    + split; [intros _; by split|done].
    + split; [done|]. by intros [? _].
  - destruct (isspace ch) eqn:Hch.
    + destruct cur as [|c cur].
      * rewrite IH. split; intros [_ H]; (split; [done|]).
        -- by apply Forall_cons_2.
        -- by inversion H.
      * split; [done|]. by intros [? _].
    + rewrite IH. split; [by intros [? _]|]. intros [_ H]. inversion H. congruence.
Qed.

Lemma split_from_prefix (p s cur : list char) :
  Forall (fun c => isspace c = false) p ->
  split_from isspace (p ++ s) cur = split_from isspace s (reverse p ++ cur).
Proof.
  revert cur. induction p as [|c p IH]; intros cur Hp; [done|].
  inversion Hp as [|? ? Hc Hp']; subst.
  cbn [app split_from]. rewrite Hc, IH by done.
  by rewrite reverse_cons, <- app_assoc.
Qed.

Lemma split_word (p s : list char) :
  word isspace p ->
  split isspace (p ++ space :: s) = p :: split isspace s.
Proof.
  intros [Hne Hp]. unfold split. rewrite split_from_prefix by done.
  cbn [split_from]. rewrite space_isspace, app_nil_r.
  destruct (reverse p) as [|c q] eqn:E.
  - apply (f_equal length) in E. rewrite length_reverse in E.
    by destruct p.
  - by rewrite <- E, reverse_involutive.
Qed.

Lemma split_last_word (p : list char) :
  word isspace p -> split isspace p = [p].
Proof.
  intros [Hne Hp]. unfold split.
  rewrite <- (app_nil_r p) at 1. rewrite split_from_prefix by done.
  cbn [split_from]. rewrite app_nil_r.
  destruct (reverse p) as [|c q] eqn:E.
  - apply (f_equal length) in E. rewrite length_reverse in E.
    by destruct p.
  - by rewrite <- E, reverse_involutive.
Qed.

Lemma split_join (parts : list (list char)) :
  Forall (word isspace) parts -> split isspace (join space parts) = parts.
Proof.
  induction parts as [|p parts IH]; intros Hw; [done|].
  inversion Hw as [|? ? Hp Hparts]; subst.
  destruct parts as [|q parts].
  - cbn [join]. by apply split_last_word.
  - change (join space (p :: q :: parts))
      with (p ++ space :: join space (q :: parts)).
    rewrite split_word by done. by rewrite IH.
Qed.

Lemma join_nil (parts : list (list char)) :
  Forall (word isspace) parts -> join space parts = [] -> parts = [].
Proof.
  destruct parts as [|p parts]; [done|].
  intros Hw. inversion Hw as [|? ? [Hne _] _]; subst.
  destruct parts; cbn [join]; [done|]. by destruct p.
Qed.

(** X28. [split_name] and the words of a name.  A name without a
    character that is not white space (the empty name too) makes
    [parts[0]] raise IndexError, and nothing else does.  Otherwise the
    first part is the first word; the second part is empty exactly when
    the name has one word, and else it holds the other words with one
    space between them, so that the name put together again, first part,
    a space, second part, splits as the name did and gives the two parts
    back. *)
Theorem split_name_words (s : list char) :
  (split_name isspace space s = Raise IndexError
   <-> Forall (fun c => isspace c = true) s)
  ∧ forall first last,
      split_name isspace space s = Ok (first, last) ->
      first ≠ []
      ∧ Forall (fun c => isspace c = false) first
      ∧ (last = [] <-> split isspace s = [first])
      ∧ (last ≠ [] ->
         split isspace (first ++ space :: last) = split isspace s
         ∧ split_name isspace space (first ++ space :: last)
           = Ok (first, last)).
Proof.
  assert (Hwords : Forall (word isspace) (split isspace s))
    by (apply split_from_words; constructor).
  unfold split_name. split.
  - destruct (split isspace s) as [|p rest] eqn:E.
    + split; [intros _|done]. by apply split_from_nil in E as [_ ?].
    + split; [by destruct (bool_decide _)|]. intros Hs.
      assert (split isspace s = []) as E'; [|congruence].
      by apply split_from_nil.
  - intros first last.
    destruct (split isspace s) as [|p rest] eqn:E; [done|].
    inversion Hwords as [|? ? [Hne Hp] Hrest]; subst.
    destruct rest as [|q rest].
    + cbn. intros [= <- <-]. split_and!; done.
    + rewrite bool_decide_eq_true_2 by (cbn; lia).
      intros Heq.
      assert (first = p ∧ last = join space (q :: rest)) as [-> ->]
        by (by injection Heq).
      clear Heq. split_and!; try done.
      * split; [|done]. intros Hj.
        by apply (join_nil (q :: rest)) in Hj.
      * intros _.
        assert (Hsplit : split isspace (p ++ space :: join space (q :: rest))
                         = p :: q :: rest).
        { rewrite split_word by done. by rewrite split_join. }
        split; [exact Hsplit|]. rewrite Hsplit.
        by rewrite bool_decide_eq_true_2 by (cbn; lia).
Qed.

End SplitName.

Lemma split_name_words_witness :
  let sp := Ascii.ascii_of_nat 32 in
  let isspace := fun c => Ascii.eqb c sp in
  let chars := String.list_ascii_of_string in
  Helpers.split_name isspace sp (chars "Ada Lovelace King")
  = Py.Ok (chars "Ada", chars "Lovelace King")
  ∧ Helpers.split isspace (chars "Ada Lovelace King")
    = Helpers.split isspace (chars "  Ada   Lovelace King ").
Proof.
  intros sp isspace chars.
  destruct (split_name_words isspace sp eq_refl
              (chars "  Ada   Lovelace King ")) as [_ H].
  destruct (H (chars "Ada") (chars "Lovelace King") eq_refl)
    as (_ & _ & _ & Hround).
  destruct Hround as [Hsplit Hname]; [discriminate|].
  split; [exact Hname|exact Hsplit].
Defined.

Section MediaDraft.

Import Db Handlers Draft.


End MediaDraft.

Section Resubmission.

Import Db Finder Contest.

Lemma filter_fmap_inv {A} (P : A -> Prop) `{HP : !forall x, Decision (P x)}
    (f : A -> A) (l : list A) :
  (forall x, P (f x) <-> P x) -> filter P (f <$> l) = f <$> filter P l.
Proof.
  intros Hf. induction l as [|x l IH]; [done|].
  rewrite fmap_cons, !filter_cons.
  destruct (decide (P x)) as [Hx|Hx].
  - rewrite decide_True by (by apply Hf). by rewrite fmap_cons, IH.
  - rewrite decide_False by (by rewrite Hf). exact IH.
Qed.

Lemma next_unrated_approved (voter : Z) (g : option string) (t : Tables)
    (c : Candidate) :
  get_next_unrated_candidate voter g t = Some c ->
  c ∈ candidates t ∧ c_approved c = 1.
Proof.
  intros (Hin & _)%least_Some.
  apply list_elem_of_filter in Hin as ((Happ & _) & Hin). by split.
Qed.

Lemma has_candidate_filter (uid : Z) (t : Tables) :
  has_candidate_for_user uid t
  = bool_decide (filter (fun c => c_user c = uid) (candidates t) ≠ []).
Proof.
  unfold has_candidate_for_user.
  induction (candidates t) as [|c l IH].
  - symmetry. apply bool_decide_eq_false_2. by intros H.
  - cbn [existsb]. rewrite filter_cons.
    destruct (decide (c_user c = uid)) as [Hc|Hc].
    + rewrite bool_decide_eq_true_2 by done. cbn [orb].
      symmetry. by apply bool_decide_eq_true_2.
    + rewrite bool_decide_eq_false_2 by done. cbn [orb]. exact IH.
Qed.

(** X30. Sending the profile to the contest again.  On a table whose
    ids do not exceed the counter, [upsert_candidate_from_profile] leaves
    the user with a first entry that carries the new data and waits for
    approval, and no voter is shown that entry; it adds an entry, and
    counts a submission, only when the user had none, so the user never
    gets a second entry this way; and the ids still do not exceed the
    counter. *)
Theorem upsert_candidate_from_profile_pending (uid : Z) (name : string)
    (age : option Z) (gender : option string) (file_id : string)
    (instagram : option string) (st : Store) (t : Tables) :
  Forall (fun c => c_id c <= candidates_seq t) (candidates t) ->
  let d' :=
    upsert_candidate_from_profile uid name age gender file_id instagram
      (st, t) in
  let mine (t0 : Tables) := filter (fun c => c_user c = uid) (candidates t0) in
  (exists c,
     head (mine d'.2) = Some c
     ∧ c = mkCandidate (c_id c) uid name age gender instagram file_id 0
     ∧ forall voter g c',
         get_next_unrated_candidate voter g d'.2 = Some c' ->
         c_id c' ≠ c_id c)
  ∧ length (mine d'.2) = Nat.max 1 (length (mine t))
  ∧ d'.1 = (if has_candidate_for_user uid t then st
            else increment_stat uid "candidates_submitted" 1 st)
  ∧ Forall (fun c => c_id c <= candidates_seq d'.2) (candidates d'.2).
Proof.
  intros Hwf d' mine.
  assert (Hhas : has_candidate_for_user uid t = bool_decide (mine t ≠ []))
    by apply has_candidate_filter.
  unfold d', upsert_candidate_from_profile. fold (mine t).
  destruct (mine t) as [|row rest] eqn:Hmine; cbn [head].
  - (* a new entry *)
    assert (Hno : has_candidate_for_user uid t = false).
    { rewrite Hhas. apply bool_decide_eq_false_2. intros H. by apply H. }
    rewrite Hno. clear Hhas Hno.
    cbn [fst snd]. unfold mine at 1 2.
    cbn [candidates with_candidates candidates_seq].
    rewrite filter_app. fold (mine t). rewrite Hmine.
    rewrite filter_cons, decide_True by done. rewrite filter_nil.
    cbn [app head length].
    split_and!; [|done|done|].
    + eexists. split; [reflexivity|]. split; [reflexivity|].
      intros voter g c' [Hin Happ]%next_unrated_approved.
      cbn [candidates with_candidates] in Hin.
      apply elem_of_app in Hin as [Hin|Hin].
      * rewrite Forall_forall in Hwf. specialize (Hwf c' Hin). cbn. lia.
      * apply list_elem_of_singleton in Hin as ->. cbn in Happ. lia.
    + apply Forall_app. split.
      * eapply Forall_impl; [exact Hwf|]. cbn. intros c Hc. lia.
      * apply Forall_cons_2; [cbn; lia|constructor].
  - (* the entry is refreshed *)
    assert (Hyes : has_candidate_for_user uid t = true).
    { rewrite Hhas. by apply bool_decide_eq_true_2. }
    rewrite Hyes. clear Hhas Hyes.
    cbn [fst snd]. unfold mine at 1 2.
    cbn [candidates with_candidates candidates_seq].
    set (f := fun c : Candidate =>
                if bool_decide (c_id c = c_id row) then
                  mkCandidate (c_id c) (c_user c) name age gender instagram
                    file_id 0
                else c).
    assert (Hid : forall c, c_id (f c) = c_id c)
      by (intros c; unfold f; by destruct (bool_decide _)).
    assert (Huser : forall c, c_user (f c) = c_user c)
      by (intros c; unfold f; by destruct (bool_decide _)).
    rewrite (filter_fmap_inv (fun c => c_user c = uid) f)
      by (intros c; by rewrite Huser).
    fold (mine t). rewrite Hmine, fmap_cons. cbn [head].
    assert (Hrow : c_user row = uid).
    { assert (row ∈ mine t) as Hin by (rewrite Hmine; left).
      by apply list_elem_of_filter in Hin as [? _]. }
    split_and!; [|cbn [length]; by rewrite length_fmap|done|].
    + exists (f row). split; [reflexivity|]. split.
      * unfold f. rewrite bool_decide_eq_true_2 by done. cbn.
        by rewrite Hrow.
      * intros voter g c' [Hin Happ]%next_unrated_approved.
        cbn [candidates with_candidates] in Hin.
        apply list_elem_of_fmap in Hin as (c0 & -> & Hin).
        rewrite !Hid. intros Heq. unfold f in Happ.
        rewrite bool_decide_eq_true_2 in Happ by done. cbn in Happ. lia.
    + apply Forall_fmap. eapply Forall_impl; [exact Hwf|].
      intros c Hc. cbn. by rewrite Hid.
Qed.

End Resubmission.

Lemma upsert_candidate_from_profile_pending_witness :
  let t :=
    Contest.mkTables
      [Contest.mkCandidate 1 5 "Ann" None None None "f1" 1;
       Contest.mkCandidate 2 6 "Bob" None None None "f2" 1] 2 [] 0 in
  let d' :=
    Contest.upsert_candidate_from_profile 5 "Anna" (Some 30) None "f3" None
      (Db.empty_store, t) in
  length (filter (fun c => Contest.c_user c = 5) (Contest.candidates d'.2))
  = 1%nat
  ∧ d'.1 = Db.empty_store.
Proof.
  intros t d'.
  destruct (upsert_candidate_from_profile_pending 5 "Anna" (Some 30) None
              "f3" None Db.empty_store t) as (_ & Hlen & Hst & _).
  - repeat constructor; cbn; lia.
  - split; [exact Hlen|exact Hst].
Defined.
